(** * LinkedIn Post Creator Pro: tag resolver, corpus enricher, exemplar
    selector and quality scorer.

    A shallow embedding of

    - [src/schemas/post.py]                     (modules [Schemas],
      [PostGenerationRequest]),
    - [src/utils/validators.py]                 (module [Validators]),
    - [src/services/few_shot.py]                (module [FewShot]),
    - [src/services/preprocessing_service.py]   (module [Preprocessing]:
      [extract_json_from_text], [get_unified_tags] and the two loops of
      [process_posts], which collect the tags and enrich the posts),
    - [src/post_generator.py]                   (module [PostGenerator]),

    followed by the wording of the specification (modules [Spec], [Raw],
    [Aux]), sample inputs (module [Samples]), the forms in which the
    corpus is described before and after the enrichment (modules [Tags],
    [Enriched]), the properties of the specification that concern the
    code, and further properties of the code: its behaviour at the edges,
    what it keeps, and how its functions compose.

    Conventions of the embedding.

    - Python [str] values are [string]s of ASCII code points; the [str]
      methods the code calls are in module [PyStr] and follow CPython on
      that range.
    - Python [int] is [Z].  The quality score is a Python [float]; every
      value it takes is a multiple of 0.5 between 0 and 10, on which IEEE
      double addition and comparison are exact, so it is modelled in [Q].
    - Exceptions are values of [exn]; code that can raise returns a
      [result].
    - The posts that [process_posts] loads are Python dictionaries, which
      are shared and updated in place: they live in a [store], and the
      loop is a computation over it.  The selector and the validators only
      read their documents, which are records there. *)

From Stdlib Require Import ZArith QArith Qminmax String Ascii List Lia Lqa.
From stdpp Require Import base option gmap strings list sorting pretty.

#[local] Open Scope Z_scope.

(* ================================================================== *)
(** * Exceptions *)
(* ================================================================== *)

Inductive exn : Type :=
| ValidationError (msg : string)    (* validators.ValidationError *)
| ValueError (msg : string)
| KeyError (key : string)
| TypeError                         (* TypeError / AttributeError on an ill-typed JSON value *)
| OutputParserException
| JSONDecodeError
| CollaboratorError.                (* timeout, transport error, quota, ... *)

Inductive result (A : Type) : Type :=
| Ok (a : A)
| Raise (e : exn).
Arguments Ok {A} a.
Arguments Raise {A} e.

#[global] Instance result_ret : MRet result := fun A a => Ok a.
#[global] Instance result_bind : MBind result := fun A B f m =>
  match m with
  | Ok a => f a
  | Raise e => Raise e
  end.

(** [try: body except h] runs [h] on the exception raised by [body]. *)
Definition try_except {A} (body : result A) (handler : exn -> result A) : result A :=
  match body with
  | Ok a => Ok a
  | Raise e => handler e
  end.

Definition returns {A} (r : result A) : Prop := exists a, r = Ok a.

(* ================================================================== *)
(** * Python string methods *)
(* ================================================================== *)

Module PyStr.

Definition LF : ascii := "010"%char.
Definition nl : string := String LF "".

Definition code (c : ascii) : N := N_of_ascii c.

Definition in_range (lo hi : N) (c : ascii) : bool :=
  ((lo <=? code c) && (code c <=? hi))%N.

Definition is_upper (c : ascii) : bool := in_range 65 90 c.
Definition is_lower (c : ascii) : bool := in_range 97 122 c.
Definition is_alpha (c : ascii) : bool := is_upper c || is_lower c.
Definition is_digit (c : ascii) : bool := in_range 48 57 c.

(** [str.isspace] on one ASCII character: TAB, LF, VT, FF, CR, the four
    separators FS, GS, RS, US, and the space. *)
Definition isspace (c : ascii) : bool :=
  in_range 9 13 c || in_range 28 31 c || (code c =? 32)%N.

Definition lower_char (c : ascii) : ascii :=
  if is_upper c then ascii_of_N (code c + 32) else c.
Definition upper_char (c : ascii) : ascii :=
  if is_lower c then ascii_of_N (code c - 32) else c.

Fixpoint map_chars (f : ascii -> ascii) (s : string) : string :=
  match s with
  | "" => ""
  | String c r => String (f c) (map_chars f r)
  end.

(** [s.lower()] *)
Definition lower (s : string) : string := map_chars lower_char s.

(** [s.isascii()] *)
Definition is_ascii_char (c : ascii) : bool := (code c <? 128)%N.
Fixpoint is_ascii (s : string) : bool :=
  match s with
  | "" => true
  | String c r => is_ascii_char c && is_ascii r
  end.

(** [s.title()]: a cased character is upper-cased when the character
    before it is not cased, and lower-cased otherwise.  This is what
    CPython computes on an ASCII string; beyond ASCII its case mappings
    can change the length of a string, and the statements that depend on
    the value of [title] are made for ASCII strings. *)
Fixpoint title_from (previous_is_cased : bool) (s : string) : string :=
  match s with
  | "" => ""
  | String c r =>
      String (if previous_is_cased then lower_char c else upper_char c)
             (title_from (is_alpha c) r)
  end.
Definition title (s : string) : string := title_from false s.

(** [s.lstrip()], [s.rstrip()], [s.strip()] *)
Fixpoint lstrip (s : string) : string :=
  match s with
  | "" => ""
  | String c r => if isspace c then lstrip r else s
  end.
Fixpoint rstrip (s : string) : string :=
  match s with
  | "" => ""
  | String c r =>
      match rstrip r with
      | "" => if isspace c then "" else String c ""
      | r' => String c r'
      end
  end.
Definition strip (s : string) : string := rstrip (lstrip s).

(** [s.split()]: the maximal runs of non-whitespace characters. *)
Fixpoint split_go (cur : option string) (s : string) : list string :=
  match s with
  | "" => option_list cur
  | String c r =>
      if isspace c then option_list cur ++ split_go None r
      else split_go (Some (from_option (fun w => w +:+ String c "") (String c "") cur)) r
  end.
Definition split (s : string) : list string := split_go None s.

(** [s.split(sep)] for a one-character separator: never empty. *)
Fixpoint split_on (sep : ascii) (s : string) : list string :=
  match s with
  | "" => [""]
  | String c r =>
      if Ascii.eqb c sep then "" :: split_on sep r
      else match split_on sep r with
           | h :: t => String c h :: t
           | [] => [String c ""]
           end
  end.

(** [needle in s] *)
Fixpoint contains (needle s : string) : bool :=
  String.prefix needle s ||
  match s with
  | "" => false
  | String _ r => contains needle r
  end.

(** [c in s] for one character *)
Fixpoint has_char (c : ascii) (s : string) : bool :=
  match s with
  | "" => false
  | String d r => Ascii.eqb d c || has_char c r
  end.

(** [s.count(c)] for one character *)
Fixpoint count (c : ascii) (s : string) : Z :=
  match s with
  | "" => 0
  | String d r => (if Ascii.eqb d c then 1 else 0) + count c r
  end.

(** [s.replace(c, '')] for one character *)
Fixpoint remove_char (c : ascii) (s : string) : string :=
  match s with
  | "" => ""
  | String d r => if Ascii.eqb d c then remove_char c r else String d (remove_char c r)
  end.

(** [s.startswith(p)] *)
Definition startswith (p s : string) : bool := String.prefix p s.

(** [len(s)] *)
Definition len (s : string) : Z := Z.of_nat (String.length s).

(** [sep.join(l)] *)
Definition join (sep : string) (l : list string) : string := String.concat sep l.

(** [sorted(l)] on strings, by code points. *)
Fixpoint insert_sorted (x : string) (l : list string) : list string :=
  match l with
  | [] => [x]
  | y :: t => if String.leb x y then x :: l else y :: insert_sorted x t
  end.
Definition sorted (l : list string) : list string := foldr insert_sorted [] l.

(** [re.match(r'^#[a-zA-Z0-9_]+$', s)]: [$] matches at the end of the
    string and also just before a line feed that ends the string. *)
Definition is_word (c : ascii) : bool :=
  is_alpha c || is_digit c || Ascii.eqb c "_"%char.
Fixpoint words_then_end (s : string) : bool :=
  match s with
  | "" => true
  | String c r =>
      if is_word c then words_then_end r
      else Ascii.eqb c LF && String.eqb r ""
  end.
Definition hashtag_re_match (s : string) : bool :=
  match s with
  | String "#"%char (String c r) => is_word c && words_then_end r
  | _ => false
  end.

(** The longest prefix of [s] that ends in a closing brace. *)
Fixpoint upto_last_close (s : string) : option string :=
  match s with
  | "" => None
  | String c r =>
      match upto_last_close r with
      | Some p => Some (String c p)
      | None => if Ascii.eqb c "}"%char then Some (String c "") else None
      end
  end.
(** [re.search(r'\{[\s\S]*\}', s)]: from the first opening brace that
    has a closing brace after it, greedily up to the last closing brace. *)
Fixpoint search_braces (s : string) : option string :=
  match s with
  | "" => None
  | String c r =>
      if Ascii.eqb c "{"%char then
        match upto_last_close r with
        | Some p => Some (String c p)
        | None => search_braces r
        end
      else search_braces r
  end.

(** [re.sub(r'\s+', ' ', s)]: every maximal run of whitespace characters
    becomes one space. *)
Fixpoint sub_spaces_from (in_run : bool) (s : string) : string :=
  match s with
  | "" => ""
  | String c r =>
      if isspace c then
        if in_run then sub_spaces_from true r
        else String " "%char (sub_spaces_from true r)
      else String c (sub_spaces_from false r)
  end.
Definition sub_spaces (s : string) : string := sub_spaces_from false s.

End PyStr.

(* ================================================================== *)
(** * src/schemas/post.py *)
(* ================================================================== *)

Module Schemas.

Record PostMetadata : Type := {
  topic : option string;
  tone : option string;
  post_type : option string;
  md_word_count : option Z;
  estimated_engagement : option string;
  target_audience : option string;
  best_posting_time : option string;
  hashtags : list string;
  structure : option string;
  engagement_drivers : list string;
  quality_score : option Q;
  virality_potential : option string;
  emotional_tone : option string;
  call_to_action : option string;
  md_line_count : option Z;
  language : option string;
  unified_tags : list string
}.

(** [PostMetadata()] with every default. *)
Definition default_metadata : PostMetadata :=
  {| topic := None; tone := None; post_type := None; md_word_count := None;
     estimated_engagement := None; target_audience := None;
     best_posting_time := None; hashtags := []; structure := None;
     engagement_drivers := []; quality_score := None;
     virality_potential := None; emotional_tone := None;
     call_to_action := None; md_line_count := None; language := None;
     unified_tags := [] |}.

Record PostEngagement : Type := {
  likes : Z;
  comments : Z;
  shares : Z;
  views : option Z
}.

Definition default_engagement : PostEngagement :=
  {| likes := 0; comments := 0; shares := 0; views := None |}.

Definition total_engagement (e : PostEngagement) : Z :=
  likes e + comments e + shares e.

Record Post : Type := {
  id : string;
  text : string;
  metadata : PostMetadata;
  engagement : PostEngagement;
  created_at : option Z
}.

Definition set_line_count (n : option Z) (m : PostMetadata) : PostMetadata :=
  {| topic := topic m; tone := tone m; post_type := post_type m;
     md_word_count := md_word_count m;
     estimated_engagement := estimated_engagement m;
     target_audience := target_audience m;
     best_posting_time := best_posting_time m; hashtags := hashtags m;
     structure := structure m; engagement_drivers := engagement_drivers m;
     quality_score := quality_score m;
     virality_potential := virality_potential m;
     emotional_tone := emotional_tone m;
     call_to_action := call_to_action m; md_line_count := n;
     language := language m; unified_tags := unified_tags m |}.

Definition set_word_count (n : option Z) (m : PostMetadata) : PostMetadata :=
  {| topic := topic m; tone := tone m; post_type := post_type m;
     md_word_count := n;
     estimated_engagement := estimated_engagement m;
     target_audience := target_audience m;
     best_posting_time := best_posting_time m; hashtags := hashtags m;
     structure := structure m; engagement_drivers := engagement_drivers m;
     quality_score := quality_score m;
     virality_potential := virality_potential m;
     emotional_tone := emotional_tone m;
     call_to_action := call_to_action m; md_line_count := md_line_count m;
     language := language m; unified_tags := unified_tags m |}.

(** [len(text.split('\n'))] and [len(text.split())] *)
Definition text_lines (t : string) : Z :=
  Z.of_nat (length (PyStr.split_on PyStr.LF t)).
Definition text_words (t : string) : Z :=
  Z.of_nat (length (PyStr.split t)).

(** [Post.__post_init__]; [now] is the value of [datetime.now()]. *)
Definition post_init (now : Z) (p : Post) : Post :=
  let created := match created_at p with None => Some now | c => c end in
  let m := metadata p in
  let m := match md_line_count m with
           | None => set_line_count (Some (text_lines (text p))) m
           | Some _ => m
           end in
  let m := match md_word_count m with
           | None => set_word_count (Some (text_words (text p))) m
           | Some _ => m
           end in
  {| id := id p; text := text p; metadata := m;
     engagement := engagement p; created_at := created |}.

(** [Post(id=..., text=..., metadata=...)] *)
Definition new_post (now : Z) (i t : string) (m : PostMetadata) : Post :=
  post_init now {| id := i; text := t; metadata := m;
                   engagement := default_engagement; created_at := None |}.

(** [x or y] on an optional integer: [None] and [0] are falsy. *)
Definition or_else (x : option Z) (y : Z) : Z :=
  match x with
  | Some n => if n =? 0 then y else n
  | None => y
  end.

(** The properties of [Post]. *)
Definition line_count (p : Post) : Z :=
  or_else (md_line_count (metadata p)) (text_lines (text p)).
Definition word_count (p : Post) : Z :=
  or_else (md_word_count (metadata p)) (text_words (text p)).
Definition hashtag_count (p : Post) : Z :=
  Z.of_nat (length (hashtags (metadata p))).
Definition has_question (p : Post) : bool := PyStr.has_char "?"%char (text p).
Definition has_exclamation (p : Post) : bool := PyStr.has_char "!"%char (text p).
Definition length_category (p : Post) : string :=
  if line_count p <? 5 then "Short"
  else if (5 <=? line_count p) && (line_count p <=? 10) then "Medium"
  else "Long".

End Schemas.

(** src/schemas/post.py, [PostGenerationRequest]: the three field validators.  Pydantic runs
    them when a request is built and raises one error that lists every
    failure; [new] keeps the message of the first one. *)
Module PostGenerationRequest.

Record t : Type := {
  length_category : string;
  language : string;
  tag : string;
  max_retries : Z
}.

Definition validate_length_category (v : string) : result string :=
  if existsb (String.eqb v) ["Short"; "Medium"; "Long"] then Ok v
  else Raise (ValueError "Invalid length category. Must be Short, Medium, or Long.").

Definition validate_language (v : string) : result string :=
  if existsb (String.eqb v) ["English"; "Hinglish"] then Ok v
  else Raise (ValueError "Invalid language. Must be English or Hinglish.").

Definition validate_tag (v : string) : result string :=
  if String.eqb v "" || String.eqb (PyStr.strip v) "" then
    Raise (ValueError "Tag cannot be empty.")
  else Ok (PyStr.strip v).

(** [PostGenerationRequest(length_category=..., language=..., tag=...)] *)
Definition new (length_category language tag : string) : result t :=
  length_category ← validate_length_category length_category;
  language ← validate_language language;
  tag ← validate_tag tag;
  Ok {| length_category := length_category; language := language; tag := tag;
        max_retries := 3 |}.

End PostGenerationRequest.

(* ================================================================== *)
(** * src/utils/validators.py *)
(* ================================================================== *)

Module Validators.
Import Schemas.

(** [validate_post_text] *)
Definition validate_post_text (text : string) : result bool :=
  if String.eqb text "" || String.eqb (PyStr.strip text) "" then
    Raise (ValidationError "Post text cannot be empty")
  else if PyStr.len (PyStr.strip text) <? 10 then
    Raise (ValidationError "Post text must be at least 10 characters long")
  else if PyStr.len text >? 3000 then
    Raise (ValidationError "Post text cannot exceed 3000 characters")
  else
    let hashtag_count := PyStr.count "#"%char text in
    if hashtag_count >? 10 then
      Raise (ValidationError "Post cannot have more than 10 hashtags")
    else Ok true.

(** The body of the [for] loop of [validate_hashtags]. *)
Definition check_hashtag (hashtag : string) : result unit :=
  if negb (PyStr.startswith "#" hashtag) then
    Raise (ValidationError ("Hashtag '" +:+ hashtag +:+ "' must start with #"))
  else if PyStr.len hashtag <? 2 then
    Raise (ValidationError ("Hashtag '" +:+ hashtag +:+ "' is too short"))
  else if PyStr.len hashtag >? 50 then
    Raise (ValidationError ("Hashtag '" +:+ hashtag +:+ "' is too long"))
  else if negb (PyStr.hashtag_re_match hashtag) then
    Raise (ValidationError ("Hashtag '" +:+ hashtag +:+ "' contains invalid characters"))
  else Ok tt.

(** [validate_hashtags]; the argument is a list by its type, so the
    [isinstance] test passes. *)
Fixpoint validate_hashtags (hashtags : list string) : result bool :=
  match hashtags with
  | [] => Ok true
  | hashtag :: rest => _ ← check_hashtag hashtag; validate_hashtags rest
  end.

Definition tones : list string :=
  ["professional"; "casual"; "formal"; "friendly"; "authoritative";
   "conversational"; "inspirational"; "educational"; "analytical"].
Definition engagement_levels : list string :=
  ["low"; "medium"; "high"; "very_high"].

(** Truthiness of an optional string and of an optional float. *)
Definition truthy_str (x : option string) : bool :=
  match x with
  | Some s => negb (String.eqb s "")
  | None => false
  end.
Definition truthy_float (x : option Q) : bool :=
  match x with
  | Some q => negb (Qeq_bool q 0)
  | None => false
  end.
(** [x in l] on strings *)
Definition str_in (x : string) (l : list string) : bool :=
  existsb (String.eqb x) l.

(** [validate_post_metadata] *)
Definition validate_post_metadata (metadata : PostMetadata) : result bool :=
  if truthy_str (topic metadata)
     && (PyStr.len (default "" (topic metadata)) >? 100) then
    Raise (ValidationError "Topic cannot exceed 100 characters")
  else if truthy_str (tone metadata)
          && negb (str_in (default "" (tone metadata)) tones) then
    Raise (ValidationError ("Invalid tone: " +:+ default "" (tone metadata)))
  else if truthy_str (estimated_engagement metadata)
          && negb (str_in (default "" (estimated_engagement metadata)) engagement_levels) then
    Raise (ValidationError ("Invalid engagement level: "
                            +:+ default "" (estimated_engagement metadata)))
  else if truthy_float (quality_score metadata)
          && negb (Qle_bool 0 (default 0%Q (quality_score metadata))
                   && Qle_bool (default 0%Q (quality_score metadata)) 10) then
    Raise (ValidationError "Quality score must be between 0 and 10")
  else Ok true.

(** [any(word in post.text.lower() for word in words)] *)
Definition any_word_in (words : list string) (text : string) : bool :=
  existsb (fun word => PyStr.contains word (PyStr.lower text)) words.

Definition professional_words : list string :=
  ["professional"; "industry"; "business"; "career"; "leadership"; "strategy"].

(** [calculate_post_quality_score] *)
Definition calculate_post_quality_score (post : Post) : Q :=
  let score := 0%Q in
  (* Length score *)
  let score :=
    if (50 <=? word_count post) && (word_count post <=? 300) then (score + 2)%Q
    else if (30 <=? word_count post) && (word_count post <? 50)
            || (300 <? word_count post) && (word_count post <=? 500)
         then (score + 1)%Q
         else score in
  (* Engagement elements *)
  let score := if has_question post then (score + 1)%Q else score in
  let score := if has_exclamation post then (score + (1 # 2))%Q else score in
  let score := if hashtag_count post >? 0 then (score + (1 # 2))%Q else score in
  (* Hashtag quality *)
  let score :=
    if (1 <=? hashtag_count post) && (hashtag_count post <=? 5) then (score + 1)%Q
    else if hashtag_count post >? 5 then (score + (1 # 2))%Q
         else score in
  (* Structure score *)
  let score := if line_count post >=? 3 then (score + 1)%Q else score in
  let score := if PyStr.contains (PyStr.nl +:+ PyStr.nl) (text post)
               then (score + 1)%Q else score in
  (* Content quality indicators *)
  let score :=
    if any_word_in ["because"; "however"; "therefore"; "meanwhile"] (text post)
    then (score + (1 # 2))%Q else score in
  let score :=
    if any_word_in ["think"; "believe"; "suggest"; "recommend"] (text post)
    then (score + (1 # 2))%Q else score in
  let score :=
    if any_word_in ["experience"; "learned"; "discovered"; "found"] (text post)
    then (score + (1 # 2))%Q else score in
  let score :=
    if any_word_in ["tips"; "advice"; "strategies"; "methods"] (text post)
    then (score + (1 # 2))%Q else score in
  (* Professional tone *)
  let score :=
    if any_word_in professional_words (text post) then (score + 1)%Q else score in
  Qmin score 10.

(** The values stored in the [metrics] dictionary. *)
Inductive metric : Type :=
| MInt (n : Z)
| MBool (b : bool)
| MStr (s : string).

(** The dictionary returned by [validate_post_quality]. *)
Record QualityReport : Type := {
  is_valid : bool;
  errors : list string;
  warnings : list string;
  score : Q;
  metrics : gmap string metric
}.

Definition set_score (s : Q) (r : QualityReport) : QualityReport :=
  {| is_valid := is_valid r; errors := errors r; warnings := warnings r;
     score := s; metrics := metrics r |}.
Definition set_metrics (m : gmap string metric) (r : QualityReport) : QualityReport :=
  {| is_valid := is_valid r; errors := errors r; warnings := warnings r;
     score := score r; metrics := m |}.
Definition append_warning (w : string) (r : QualityReport) : QualityReport :=
  {| is_valid := is_valid r; errors := errors r; warnings := warnings r ++ [w];
     score := score r; metrics := metrics r |}.
Definition fail_with (msg : string) (r : QualityReport) : QualityReport :=
  {| is_valid := false; errors := errors r ++ [msg]; warnings := warnings r;
     score := score r; metrics := metrics r |}.

Definition initial_report : QualityReport :=
  {| is_valid := true; errors := []; warnings := []; score := 0%Q; metrics := ∅ |}.

(** The [try] block of [validate_post_quality].  Its only statements that
    can raise are the three validators, and they run before the first
    update of [quality_metrics]. *)
Definition quality_body (post : Post) (quality_metrics : QualityReport)
  : result QualityReport :=
  _ ← validate_post_text (text post);
  _ ← (if bool_decide (hashtags (metadata post) ≠ [])
       then validate_hashtags (hashtags (metadata post)) else Ok true);
  _ ← validate_post_metadata (metadata post);
  let score := calculate_post_quality_score post in
  let quality_metrics := set_score score quality_metrics in
  let quality_metrics :=
    set_metrics
      (<["word_count" := MInt (word_count post)]>
       (<["line_count" := MInt (line_count post)]>
        (<["hashtag_count" := MInt (hashtag_count post)]>
         (<["has_question" := MBool (has_question post)]>
          (<["has_exclamation" := MBool (has_exclamation post)]>
           (<["length_category" := MStr (length_category post)]> ∅))))))
      quality_metrics in
  let quality_metrics :=
    if word_count post <? 50
    then append_warning "Post is quite short - consider adding more content" quality_metrics
    else quality_metrics in
  let quality_metrics :=
    if hashtag_count post =? 0
    then append_warning "No hashtags found - consider adding relevant hashtags" quality_metrics
    else quality_metrics in
  let quality_metrics :=
    if negb (has_question post) && negb (has_exclamation post)
    then append_warning "Post lacks engagement elements - consider adding questions or exclamations" quality_metrics
    else quality_metrics in
  let quality_metrics :=
    if word_count post >? 500
    then append_warning "Post is quite long - consider breaking it into multiple posts" quality_metrics
    else quality_metrics in
  Ok quality_metrics.

(** [validate_post_quality]: only [ValidationError] is caught. *)
Definition validate_post_quality (post : Post) : result QualityReport :=
  let quality_metrics := initial_report in
  try_except (quality_body post quality_metrics)
    (fun e => match e with
              | ValidationError msg => Ok (fail_with msg quality_metrics)
              | _ => Raise e
              end).

(** [validate_length_category], [validate_language] *)
Definition validate_length_category (length_category : string) : result bool :=
  if str_in length_category ["Short"; "Medium"; "Long"] then Ok true
  else Raise (ValidationError
                "Invalid length category. Must be one of: ['Short', 'Medium', 'Long']").
Definition validate_language (language : string) : result bool :=
  if str_in language ["English"; "Hinglish"] then Ok true
  else Raise (ValidationError
                "Invalid language. Must be one of: ['English', 'Hinglish']").

(** [sanitize_text] *)
Definition sanitize_text (text : string) : string :=
  if String.eqb text "" then ""
  else
    (* Remove excessive whitespace *)
    let text := PyStr.sub_spaces (PyStr.strip text) in
    (* Remove potentially harmful characters: re.sub(r'[<>]', '', text) *)
    let text := PyStr.remove_char ">"%char (PyStr.remove_char "<"%char text) in
    text.

End Validators.

(* ================================================================== *)
(** * src/services/few_shot.py *)
(* ================================================================== *)

Module FewShot.

(** The keys of a processed post that the selector reads.  A key that is
    absent from the JSON object is [None]; the selector reads them with
    [dict.get] and a default. *)
Record Metadata : Type := {
  unified_tags : option (list string);
  language : option string;
  line_count : option Z
}.
Record Document : Type := {
  text : option string;
  metadata : option Metadata
}.

(** [{}] *)
Definition empty_metadata : Metadata :=
  {| unified_tags := None; language := None; line_count := None |}.

(** [x in l] on strings *)
Definition str_in (x : string) (l : list string) : bool :=
  existsb (String.eqb x) l.

Section Request.
Variables (length_category language_req tag : string).

Definition tag_matches (meta : Metadata) : bool :=
  let post_unified_tags := default [] (unified_tags meta) in
  str_in (PyStr.lower tag) (map PyStr.lower post_unified_tags).

Definition language_matches (meta : Metadata) : bool :=
  let post_language := default "English" (language meta) in
  String.eqb (PyStr.lower post_language) (PyStr.lower language_req).

Definition length_matches (meta : Metadata) : bool :=
  let line_count := default 0 (line_count meta) in
  let length_matches := false in
  if String.eqb length_category "Short" && ((1 <=? line_count) && (line_count <=? 5))
  then true
  else if String.eqb length_category "Medium" && ((6 <=? line_count) && (line_count <=? 10))
  then true
  else if String.eqb length_category "Long" && ((11 <=? line_count) && (line_count <=? 15))
  then true
  else length_matches.

(** The condition of the [if] that guards [filtered.append(post)]. *)
Definition post_matches (post : Document) : bool :=
  let meta := default empty_metadata (metadata post) in
  tag_matches meta && language_matches meta && length_matches meta.

(** The [for] loop of [get_filtered_posts], with its [break]. *)
Fixpoint filter_loop (max_examples : Z) (posts filtered : list Document)
  : list Document :=
  match posts with
  | [] => filtered
  | post :: rest =>
      if post_matches post then
        let filtered := filtered ++ [post] in
        if Z.of_nat (length filtered) >=? max_examples then filtered
        else filter_loop max_examples rest filtered
      else filter_loop max_examples rest filtered
  end.

(** [FewShotPosts.get_filtered_posts] on [self.posts = posts]. *)
Definition get_filtered_posts (posts : list Document) (max_examples : Z)
  : list Document :=
  filter_loop max_examples posts [].

End Request.

(** [FewShotPosts.get_tags]: the loop over [self.posts]; the set
    [all_tags] is kept as the list of its successive [add]s. *)
Fixpoint add_post_tags (posts : list Document) (all_tags : list string) : list string :=
  match posts with
  | [] => all_tags
  | post :: rest =>
      match metadata post with
      | Some meta =>
          match unified_tags meta with
          | Some tags => add_post_tags rest (all_tags ++ tags)
          | None => add_post_tags rest all_tags
          end
      | None => add_post_tags rest all_tags
      end
  end.

(** [FewShotPosts.get_tags] on [self.categories] and [self.posts];
    [sorted(list(all_tags))] does not depend on the order of the set. *)
Definition get_tags (categories : list string) (posts : list Document) : list string :=
  let all_tags := categories in
  let all_tags := add_post_tags posts all_tags in
  PyStr.sorted (remove_dups all_tags).

(** The default of the keyword argument [max_examples]. *)
Definition default_max_examples : Z := 2.

End FewShot.

(* ================================================================== *)
(** * src/services/preprocessing_service.py: the tag resolver *)
(* ================================================================== *)

Module Preprocessing.

(** [extract_json_from_text] *)
Definition extract_json_from_text (text : string) : string :=
  match PyStr.search_braces text with
  | Some m => m
  | None => text
  end.

(** A parsed JSON value, as [json.loads] and langchain's
    [JsonOutputParser.parse] return it. *)
#[warnings="-register-all"]
Inductive json : Type :=
| JNull
| JBool (b : bool)
| JNum (q : Q)
| JStr (s : string)
| JArr (l : list json)
| JObj (m : gmap string json).

(** What [get_unified_tags] calls outside this repository. *)
Record Collaborator : Type := {
  (** [get_groq_client()]: raises when the API key is missing or the
      client cannot be built. *)
  get_groq_client : result unit;
  (** [chain.invoke(input={"tags": s}).content] *)
  chain_invoke : string -> result string;
  (** [JsonOutputParser().parse] *)
  json_parser_parse : string -> result json;
  (** [json.loads] *)
  json_loads : string -> result json
}.

(** [set(l)] followed by [sorted]: the order of the set does not show. *)
Definition sorted_set (l : list string) : list string :=
  PyStr.sorted (remove_dups l).

(** The dictionary comprehension [{tag: tag.title() for tag in tags}]. *)
Definition fallback_mapping (tags : list string) : gmap string json :=
  foldl (fun m tag => <[tag := JStr (PyStr.title tag)]> m) ∅ tags.

(** [get_unified_tags] *)
Definition get_unified_tags (env : Collaborator) (tags_list_or_set : list string)
  : result json :=
  let unique_tags_str := PyStr.join "," (sorted_set tags_list_or_set) in
  _ ← get_groq_client env;
  try_except
    (response ← chain_invoke env unique_tags_str;
     try_except
       (json_parser_parse env response)
       (fun e => match e with
                 | OutputParserException =>
                     let json_str := extract_json_from_text response in
                     json_loads env json_str
                 | _ => Raise e
                 end))
    (fun e => Ok (JObj (fallback_mapping tags_list_or_set))).

(* ------------------------------------------------------------------ *)
(** ** The corpus enricher: the second loop of [process_posts] *)
(* ------------------------------------------------------------------ *)

(** [json.load] builds the corpus out of Python objects.  A [dict] is a
    mutable object with an identity: it lives in a store and a value
    refers to it by its location, so that two references to one [dict]
    see each other's updates.  Lists are never updated in place by
    [process_posts] and are kept by value. *)
Definition loc := positive.

#[warnings="-register-all"]
Inductive value : Type :=
| VNone
| VBool (b : bool)
| VInt (n : Z)
| VFloat (q : Q)
| VStr (s : string)
| VList (l : list value)
| VDict (l : loc).

Record store : Type := {
  next_loc : loc;
  objects : gmap loc (gmap string value)
}.

(** Computations that read and update the store and may raise; the store
    reached when an exception is raised is kept. *)
Definition M (A : Type) : Type := store -> result A * store.

#[global] Instance M_ret : MRet M := fun A a h => (Ok a, h).
#[global] Instance M_bind : MBind M := fun A B f m h =>
  match m h with
  | (Ok a, h') => f a h'
  | (Raise e, h') => (Raise e, h')
  end.

Definition raise {A} (e : exn) : M A := fun h => (Raise e, h).

(** A new [dict] object with the items [d]. *)
Definition new_dict (d : gmap string value) : M loc := fun h =>
  (Ok (next_loc h),
   {| next_loc := Pos.succ (next_loc h);
      objects := <[next_loc h := d]> (objects h) |}).

(** The items of the [dict] at [l]. *)
Definition items (l : loc) : M (gmap string value) := fun h =>
  match objects h !! l with
  | Some d => (Ok d, h)
  | None => (Raise TypeError, h)
  end.

(** [k in d], [d[k]] and [d[k] = v] on the [dict] at [l]. *)
Definition has_key (l : loc) (k : string) : M bool :=
  d ← items l; mret (bool_decide (is_Some (d !! k))).
Definition getitem (l : loc) (k : string) : M value :=
  d ← items l;
  match d !! k with
  | Some v => mret v
  | None => raise (KeyError k)
  end.
Definition setitem (l : loc) (k : string) (v : value) : M unit := fun h =>
  match objects h !! l with
  | Some d => (Ok tt, {| next_loc := next_loc h;
                         objects := <[l := <[k := v]> d]> (objects h) |})
  | None => (Raise TypeError, h)
  end.

(** The corpus format has an object for a post and for its metadata, a
    string for the text and the topic, and a list of strings for the
    hashtags.  A value of another shape is outside the format; the model
    stops on it with [TypeError]. *)
Definition as_dict (v : value) : M loc :=
  match v with
  | VDict l => mret l
  | _ => raise TypeError
  end.
Definition as_str (v : value) : M string :=
  match v with
  | VStr s => mret s
  | _ => raise TypeError
  end.
Definition as_list (v : value) : M (list value) :=
  match v with
  | VList l => mret l
  | _ => raise TypeError
  end.

(** [topic.strip().title()] and [ht.replace('#', '').strip().title()] *)
Definition normalize_topic (topic : string) : string :=
  PyStr.title (PyStr.strip topic).
Definition normalize_hashtag (ht : string) : string :=
  PyStr.title (PyStr.strip (PyStr.remove_char "#"%char ht)).

(** [list(dict.fromkeys(l))]: a key that is already in the dictionary
    keeps its place. *)
Definition dict_fromkeys (l : list string) : list string :=
  foldl (fun keys k => if bool_decide (k ∈ keys) then keys else keys ++ [k]) [] l.

Section Enrich.
(** The order in which a [for] loop visits a [set] of strings is fixed
    by the hashes of its elements and the history of the set, not by
    the program: [set_iter adds] is the order in which the set built
    by the successive [add]s of [adds] is visited. *)
Variable set_iter : list string -> list string.
(** [unified_tags_mapping] *)
Variable unified_tags_mapping : gmap string string.

(** [for ht in hashtags: tags.add(...)] *)
Fixpoint add_hashtags (hashtags : list value) (adds : list string)
  : M (list string) :=
  match hashtags with
  | [] => mret adds
  | ht :: rest =>
      s ← as_str ht;
      add_hashtags rest (adds ++ [normalize_hashtag s])
  end.

(** The statements of the loop body that update [current_post] once it
    has a 'metadata' entry. *)
Definition fill_post (current_post : loc) : M unit :=
  (* current_post['metadata']['line_count'] = len(current_post['text'].split('\n')) *)
  text ← getitem current_post "text" ≫= as_str;
  metadata ← getitem current_post "metadata" ≫= as_dict;
  _ ← setitem metadata "line_count"
        (VInt (Z.of_nat (length (PyStr.split_on PyStr.LF text))));
  (* current_post['metadata']['language'] = "English" *)
  metadata ← getitem current_post "metadata" ≫= as_dict;
  _ ← setitem metadata "language" (VStr "English");
  (* post_specific_tags_to_unify *)
  let adds : list string := [] in
  metadata ← getitem current_post "metadata" ≫= as_dict;
  has_topic ← has_key metadata "topic";
  adds ← (if has_topic : bool
          then topic ← getitem metadata "topic" ≫= as_str;
               mret (adds ++ [normalize_topic topic])
          else mret adds);
  has_hashtags ← has_key metadata "hashtags";
  adds ← (if has_hashtags : bool
          then hashtags ← getitem metadata "hashtags" ≫= as_list;
               add_hashtags hashtags adds
          else mret adds);
  (* processed_tags_for_post *)
  let processed_tags_for_post :=
    map (fun tag => default tag (unified_tags_mapping !! tag)) (set_iter adds) in
  _ ← setitem metadata "unified_tags"
        (VList (map VStr (dict_fromkeys processed_tags_for_post)));
  (* if 'engagement' not in current_post: ... *)
  has_engagement ← has_key current_post "engagement";
  if negb has_engagement
  then e ← new_dict (<["likes" := VInt 0]>
                      (<["comments" := VInt 0]>
                       (<["shares" := VInt 0]> ∅)));
       setitem current_post "engagement" (VDict e)
  else mret tt.

(** The body of the loop [for post in original_posts]. *)
Definition enrich_post (post : value) : M value :=
  (* current_post = post.copy() *)
  l ← as_dict post;
  d ← items l;
  current_post ← new_dict d;
  (* if 'metadata' not in current_post: current_post['metadata'] = {} *)
  has_metadata ← has_key current_post "metadata";
  _ ← (if negb has_metadata
       then m ← new_dict ∅; setitem current_post "metadata" (VDict m)
       else mret tt);
  _ ← fill_post current_post;
  mret (VDict current_post).

(** [for post in original_posts: ...; enriched_posts.append(current_post)] *)
Fixpoint enrich_loop (original_posts enriched_posts : list value)
  : M (list value) :=
  match original_posts with
  | [] => mret enriched_posts
  | post :: rest =>
      current_post ← enrich_post post;
      enrich_loop rest (enriched_posts ++ [current_post])
  end.

Definition enrich_posts (original_posts : list value) : M (list value) :=
  enrich_loop original_posts [].

End Enrich.

(** The first loop of [process_posts], which collects the tags of the
    whole corpus; the set [all_unique_tags_for_unification] is kept as the
    list of its successive [add]s. *)
Definition collect_post (post : value) (adds : list string) : M (list string) :=
  post ← as_dict post;
  (* if 'metadata' in post and 'topic' in post['metadata']: *)
  has_metadata ← has_key post "metadata";
  has_topic ← (if has_metadata : bool
               then metadata ← getitem post "metadata" ≫= as_dict;
                    has_key metadata "topic"
               else mret false);
  adds ← (if has_topic : bool
          then metadata ← getitem post "metadata" ≫= as_dict;
               topic ← getitem metadata "topic" ≫= as_str;
               mret (adds ++ [normalize_topic topic])
          else mret adds);
  (* if 'metadata' in post and 'hashtags' in post['metadata']: *)
  has_metadata ← has_key post "metadata";
  has_hashtags ← (if has_metadata : bool
                  then metadata ← getitem post "metadata" ≫= as_dict;
                       has_key metadata "hashtags"
                  else mret false);
  if has_hashtags : bool
  then metadata ← getitem post "metadata" ≫= as_dict;
       hashtags ← getitem metadata "hashtags" ≫= as_list;
       add_hashtags hashtags adds
  else mret adds.

Fixpoint collect_loop (original_posts : list value) (adds : list string)
  : M (list string) :=
  match original_posts with
  | [] => mret adds
  | post :: rest => adds ← collect_post post adds; collect_loop rest adds
  end.

(** [all_unique_tags_for_unification] after the loop, starting from the
    categories of the dataset. *)
Definition collect_tags (dataset_info_categories : list string)
    (original_posts : list value) : M (list string) :=
  collect_loop original_posts dataset_info_categories.

End Preprocessing.

(* ================================================================== *)
(** * src/post_generator.py *)
(* ================================================================== *)

Module PostGenerator.

(** [get_length_str] *)
Definition get_length_str (length_category : string) : string :=
  if String.eqb length_category "Short" then "1 to 5 lines"
  else if String.eqb length_category "Medium" then "6 to 10 lines"
  else if String.eqb length_category "Long" then "11 to 15 lines"
  else "5 to 10 lines".


Section Corpus.
(** [few_shot.posts], the corpus of the module-level [FewShotPosts]. *)
Variable posts : list FewShot.Document.

(** [f'\n--- Example {i+1} ---\n{post_text}'] *)
Definition example_part (i : Z) (post : FewShot.Document) : string :=
  let post_text := default "No text available." (FewShot.text post) in
  PyStr.nl +:+ "--- Example " +:+ pretty (i + 1) +:+ " ---" +:+ PyStr.nl +:+ post_text.

(** [for i, post in enumerate(examples): ...; if i >= 1: break] *)
Fixpoint example_loop (i : Z) (examples : list FewShot.Document)
    (prompt_parts : list string) : list string :=
  match examples with
  | [] => prompt_parts
  | post :: rest =>
      let prompt_parts := prompt_parts ++ [example_part i post] in
      if i >=? 1 then prompt_parts
      else example_loop (i + 1) rest prompt_parts
  end.

(** The list [prompt_parts] at the end of [get_prompt]. *)
Definition prompt_parts (length_category language tag : string) : list string :=
  let length_instruction := get_length_str length_category in
  let prompt_parts :=
    [ "Generate a LinkedIn post using the below information. Follow all instructions carefully. Do not include any preamble, conversational text, or extraneous information, just the post content.";
      "1) Topic: The core subject of the post should be '" +:+ tag +:+ "'.";
      "2) Length: The post should be approximately " +:+ length_instruction +:+ "." ] in
  let prompt_parts :=
    if String.eqb language "Hinglish" then
      prompt_parts ++ ["3) Language: The post should be in Hinglish (a mix of Hindi and English words), but the primary script used must be English characters."]
    else
      prompt_parts ++ ["3) Language: The post should be entirely in English."] in
  let examples :=
    FewShot.get_filtered_posts length_category language tag posts
      FewShot.default_max_examples in
  if Z.of_nat (length examples) >? 0 then
    let prompt_parts :=
      prompt_parts ++ [PyStr.nl +:+ "4) Adopt the writing style, tone, and structure from the following examples. These examples are real LinkedIn posts related to the topic and length you requested."] in
    example_loop 0 examples prompt_parts
  else
    prompt_parts ++ [PyStr.nl +:+ "4) No specific examples were provided. Generate the post in a professional LinkedIn style."].



End Corpus.

End PostGenerator.
(* ================================================================== *)
(** * The wording of the specification *)
(* ================================================================== *)

(** Definitions that follow the specification's text rather than the code;
    the theorems below compare them with the code. *)
Module Spec.

(** Section 4.3: "Short = [1,5], Medium = [6,10], Long = [11,15]". *)
Definition bucket_range (bucket : string) : option (Z * Z) :=
  if String.eqb bucket "Short" then Some (1, 5)
  else if String.eqb bucket "Medium" then Some (6, 10)
  else if String.eqb bucket "Long" then Some (11, 15)
  else None.

(** Section 4.3, the three predicates of the selector. *)
Definition tag_is_member (tag : string) (d : FewShot.Document) : Prop :=
  exists t, In t (default [] (FewShot.unified_tags
                               (default FewShot.empty_metadata (FewShot.metadata d))))
            /\ PyStr.lower t = PyStr.lower tag.
Definition language_is (language : string) (d : FewShot.Document) : Prop :=
  PyStr.lower (default "English" (FewShot.language
                                    (default FewShot.empty_metadata (FewShot.metadata d))))
  = PyStr.lower language.
Definition doc_line_count (d : FewShot.Document) : Z :=
  default 0 (FewShot.line_count (default FewShot.empty_metadata (FewShot.metadata d))).
Definition in_bucket (bucket : string) (d : FewShot.Document) : Prop :=
  exists lo hi, bucket_range bucket = Some (lo, hi) /\ lo <= doc_line_count d <= hi.

(** Section 4.4: the table of signals, one row per line of the table:
    the condition and the points it adds. *)
Definition mentions (keywords : list string) (p : Schemas.Post) : bool :=
  existsb (fun k => PyStr.contains (PyStr.lower k) (PyStr.lower (Schemas.text p)))
          keywords.

Definition signal_table : list ((Schemas.Post -> bool) * Q) :=
  [ (fun p => (50 <=? Schemas.word_count p) && (Schemas.word_count p <=? 300), 2%Q);
    (fun p => (30 <=? Schemas.word_count p) && (Schemas.word_count p <? 50)
              || (300 <? Schemas.word_count p) && (Schemas.word_count p <=? 500), 1%Q);
    (fun p => PyStr.has_char "?"%char (Schemas.text p), 1%Q);
    (fun p => PyStr.has_char "!"%char (Schemas.text p), (1 # 2)%Q);
    (fun p => 1 <=? Schemas.hashtag_count p, (1 # 2)%Q);
    (fun p => (1 <=? Schemas.hashtag_count p) && (Schemas.hashtag_count p <=? 5), 1%Q);
    (fun p => 5 <? Schemas.hashtag_count p, (1 # 2)%Q);
    (fun p => 3 <=? Schemas.line_count p, 1%Q);
    (fun p => PyStr.contains (PyStr.nl +:+ PyStr.nl) (Schemas.text p), 1%Q);
    (mentions ["because"; "however"; "therefore"; "meanwhile"], (1 # 2)%Q);
    (mentions ["think"; "believe"; "suggest"; "recommend"], (1 # 2)%Q);
    (mentions ["experience"; "learned"; "discovered"; "found"], (1 # 2)%Q);
    (mentions ["tips"; "advice"; "strategies"; "methods"], (1 # 2)%Q);
    (mentions ["professional"; "industry"; "business"; "career"; "leadership";
               "strategy"], 1%Q) ].

(** "Scoring is purely additive over independent signals" *)
Definition points (row : (Schemas.Post -> bool) * Q) (p : Schemas.Post) : Q :=
  if fst row p then snd row else 0%Q.
Definition signal_sum (p : Schemas.Post) : Q :=
  fold_right (fun row acc => (points row p + acc)%Q) 0%Q signal_table.
(** "final score is min(sum, 10.0)" *)
Definition score (p : Schemas.Post) : Q := Qmin (signal_sum p) 10.

(** No keyword of the five families occurs in the text. *)
Definition keyword_families : list (list string) :=
  [ ["because"; "however"; "therefore"; "meanwhile"];
    ["think"; "believe"; "suggest"; "recommend"];
    ["experience"; "learned"; "discovered"; "found"];
    ["tips"; "advice"; "strategies"; "methods"];
    ["professional"; "industry"; "business"; "career"; "leadership"; "strategy"] ].
Definition no_keyword_hits (p : Schemas.Post) : Prop :=
  forall family, In family keyword_families -> mentions family p = false.

(** The conditions of validity as the claim on [validate_post_quality]
    lists them. *)
Fixpoint all_chars (f : ascii -> bool) (s : string) : bool :=
  match s with
  | "" => true
  | String c r => f c && all_chars f r
  end.
(** "'#' followed by only letters, digits, or underscores" *)
Definition hashtag_pattern (h : string) : bool :=
  match h with
  | String "#"%char (String c r) => all_chars PyStr.is_word (String c r)
  | _ => false
  end.
Definition text_ok_string (t : string) : Prop :=
  PyStr.strip t <> ""
  /\ 10 <= PyStr.len (PyStr.strip t)
  /\ PyStr.len t <= 3000
  /\ PyStr.count "#"%char t <= 10.
Definition text_ok (p : Schemas.Post) : Prop := text_ok_string (Schemas.text p).
Definition hashtag_ok (h : string) : Prop :=
  PyStr.startswith "#" h = true
  /\ 2 <= PyStr.len h <= 50
  /\ hashtag_pattern h = true.
Definition topic_ok (p : Schemas.Post) : Prop :=
  forall t, Schemas.topic (Schemas.metadata p) = Some t -> PyStr.len t <= 100.
Definition quality_score_ok (p : Schemas.Post) : Prop :=
  forall q, Schemas.quality_score (Schemas.metadata p) = Some q -> (0 <= q <= 10)%Q.
(** "drawn from the allowed set, if present" *)
Definition drawn_from (allowed : list string) (x : option string) : Prop :=
  forall v, x = Some v -> In v allowed.
(** The same, for a value that is present and not the empty string. *)
Definition drawn_from_if_nonempty (allowed : list string) (x : option string) : Prop :=
  forall v, x = Some v -> v <> "" -> In v allowed.

Definition valid_as_claimed (p : Schemas.Post) : Prop :=
  text_ok p
  /\ Forall hashtag_ok (Schemas.hashtags (Schemas.metadata p))
  /\ topic_ok p
  /\ drawn_from Validators.tones (Schemas.tone (Schemas.metadata p))
  /\ drawn_from Validators.engagement_levels
       (Schemas.estimated_engagement (Schemas.metadata p))
  /\ quality_score_ok p.

Definition valid_amended (p : Schemas.Post) : Prop :=
  text_ok p
  /\ Forall hashtag_ok (Schemas.hashtags (Schemas.metadata p))
  /\ topic_ok p
  /\ drawn_from_if_nonempty Validators.tones (Schemas.tone (Schemas.metadata p))
  /\ drawn_from_if_nonempty Validators.engagement_levels
       (Schemas.estimated_engagement (Schemas.metadata p))
  /\ quality_score_ok p.

(** A hashtag that ends in a line feed. *)
Fixpoint ends_with_lf (s : string) : bool :=
  match s with
  | "" => false
  | String c "" => Ascii.eqb c PyStr.LF
  | String _ r => ends_with_lf r
  end.

(** The three structural validations, in the order in which
    [validate_post_quality] runs them. *)
Definition structural_validation (p : Schemas.Post) : result bool :=
  _ ← Validators.validate_post_text (Schemas.text p);
  _ ← (if bool_decide (Schemas.hashtags (Schemas.metadata p) ≠ [])
       then Validators.validate_hashtags (Schemas.hashtags (Schemas.metadata p))
       else Ok true);
  Validators.validate_post_metadata (Schemas.metadata p).

(** Section 4.1: the collaborator call fails, or its reply is parsed
    neither by the strict parse nor after the extraction of the
    brace-delimited substring. *)
Definition collaborator_fails (env : Preprocessing.Collaborator) (tags : list string)
  : Prop :=
  match Preprocessing.chain_invoke env
          (PyStr.join "," (Preprocessing.sorted_set tags)) with
  | Raise _ => True
  | Ok response =>
      match Preprocessing.json_parser_parse env response with
      | Ok _ => False
      | Raise OutputParserException =>
          exists e, Preprocessing.json_loads env
                      (Preprocessing.extract_json_from_text response) = Raise e
      | Raise _ => True
      end
  end.

(** Section 4.1: "every value is non-empty and title-cased". *)
Definition title_cased (s : string) : Prop := PyStr.title s = s.
(** The invariant of the identity fallback: the domain is the candidate
    set, every value is the [title()] of its candidate and, for an ASCII
    candidate, a title-cased string of the length of the candidate. *)
Definition fallback_invariant (tags : list string) (m : gmap string Preprocessing.json)
  : Prop :=
  dom m = list_to_set tags
  /\ (forall k v, m !! k = Some v ->
         v = Preprocessing.JStr (PyStr.title k)
         /\ (PyStr.is_ascii k = true ->
             title_cased (PyStr.title k)
             /\ String.length (PyStr.title k) = String.length k)).

(** Section 4.2: the raw tags of a document, "its topic field (one
    entry) plus its hashtag list (marker stripped)". *)
Definition collected (topic : option string) (hashtags : list string) : list string :=
  option_list topic ++ map (PyStr.remove_char "#"%char) hashtags.
(** "normalize each (trim + title case)" *)
Definition normalize (raw : string) : string := PyStr.title (PyStr.strip raw).
(** "project each through mapping, falling back to the normalized string
    itself if absent from the mapping" *)
Definition project (mapping : gmap string string) (t : string) : string :=
  default t (mapping !! t).
(** "Deduplicate while preserving first-seen order" *)
Fixpoint first_seen (l : list string) : list string :=
  match l with
  | [] => []
  | x :: r => x :: filter (fun y => y <> x) (first_seen r)
  end.
(** The tags of section 4.2, taken in the order of collection. *)
Definition unified_tags_in_order (mapping : gmap string string)
    (topic : option string) (hashtags : list string) : list string :=
  first_seen (map (project mapping) (map normalize (collected topic hashtags))).
(** The same, with the collected tags visited in the order [set_iter]. *)
Definition unified_tags_visiting (set_iter : list string -> list string)
    (mapping : gmap string string)
    (topic : option string) (hashtags : list string) : list string :=
  first_seen (map (project mapping)
                (set_iter (map normalize (collected topic hashtags)))).
(** An order of visit of a set: every element that was added, once. *)
Definition visits_as_a_set (set_iter : list string -> list string) : Prop :=
  forall adds, NoDup (set_iter adds) /\ forall x, x ∈ set_iter adds <-> x ∈ adds.

(** The [is_valid] entry of the report of [validate_post_quality]. *)
Definition reported_valid (p : Schemas.Post) : bool :=
  match Validators.validate_post_quality p with
  | Ok report => Validators.is_valid report
  | Raise _ => false
  end.

(** The report of a failed assessment: one error, nothing else. *)
Definition failed_report (msg : string) : Validators.QualityReport :=
  {| Validators.is_valid := false; Validators.errors := [msg];
     Validators.warnings := []; Validators.score := 0%Q;
     Validators.metrics := ∅ |}.

End Spec.

(** Auxiliary forms used by the proofs about the scorer. *)
Module Aux.

(** [if b: score += v] *)
Definition add_when (b : bool) (v s : Q) : Q :=
  if b then (s + v)%Q else s.
(** [if b1: score += v1 elif b2: score += v2] *)
Definition add_first (b1 : bool) (v1 : Q) (b2 : bool) (v2 : Q) (s : Q) : Q :=
  if b1 then (s + v1)%Q else if b2 then (s + v2)%Q else s.
(** The points of one signal. *)
Definition pts (b : bool) (v : Q) : Q := if b then v else 0%Q.

(** What the loop of [validate_hashtags] accepts. *)
Definition hashtag_accepted (h : string) : Prop :=
  PyStr.startswith "#" h = true /\ 2 <= PyStr.len h <= 50
  /\ PyStr.hashtag_re_match h = true.

(** What [validate_post_metadata] accepts. *)
Definition metadata_accepted (md : Schemas.PostMetadata) : Prop :=
  (forall t, Schemas.topic md = Some t -> PyStr.len t <= 100)
  /\ Spec.drawn_from_if_nonempty Validators.tones (Schemas.tone md)
  /\ Spec.drawn_from_if_nonempty Validators.engagement_levels
       (Schemas.estimated_engagement md)
  /\ (forall q, Schemas.quality_score md = Some q -> (0 <= q <= 10)%Q).

(** What the three validators accept together. *)
Definition structurally_valid (p : Schemas.Post) : Prop :=
  Spec.text_ok p
  /\ Forall hashtag_accepted (Schemas.hashtags (Schemas.metadata p))
  /\ metadata_accepted (Schemas.metadata p).

End Aux.

(** The raw documents that the corpus format admits, read from the
    store. *)
Module Raw.

(** Every allocated location is below the next free one. *)
Definition store_ok (h : Preprocessing.store) : Prop :=
  forall l, is_Some (Preprocessing.objects h !! l) ->
            (l < Preprocessing.next_loc h)%positive.

(** A list of strings. *)
Fixpoint strings_of (vs : list Preprocessing.value) : option (list string) :=
  match vs with
  | [] => Some []
  | Preprocessing.VStr s :: rest => cons s <$> strings_of rest
  | _ => None
  end.

(** The topic and the hashtags of a metadata object: the topic, if
    present, is a string, and the hashtags, if present, are a list of
    strings. *)
Definition topic_of (md : gmap string Preprocessing.value) : option (option string) :=
  match md !! "topic" with
  | None => Some None
  | Some (Preprocessing.VStr s) => Some (Some s)
  | Some _ => None
  end.
Definition hashtags_of (md : gmap string Preprocessing.value) : option (list string) :=
  match md !! "hashtags" with
  | None => Some []
  | Some (Preprocessing.VList vs) => strings_of vs
  | Some _ => None
  end.
Definition tags_of (md : gmap string Preprocessing.value)
  : option (option string * list string) :=
  topic ← topic_of md; hashtags ← hashtags_of md; Some (topic, hashtags).

(** The topic and the hashtags of the post object [d] in the store [h]:
    its metadata entry, if present, is an object of the store. *)
Definition raw_tags (h : Preprocessing.store) (d : gmap string Preprocessing.value)
  : option (option string * list string) :=
  match d !! "metadata" with
  | None => Some (None, [])
  | Some (Preprocessing.VDict m) => md ← Preprocessing.objects h !! m; tags_of md
  | Some _ => None
  end.

(** The metadata object after the enrichment of its post. *)
Definition enriched_metadata (set_iter : list string -> list string)
    (mapping : gmap string string) (text : string)
    (topic : option string) (hashtags : list string)
    (md : gmap string Preprocessing.value) : gmap string Preprocessing.value :=
  <["unified_tags" :=
      Preprocessing.VList
        (map Preprocessing.VStr
           (Spec.unified_tags_visiting set_iter mapping topic hashtags))]>
    (<["language" := Preprocessing.VStr "English"]>
       (<["line_count" :=
            Preprocessing.VInt (Z.of_nat (length (PyStr.split_on PyStr.LF text)))]>
          md)).

End Raw.

(** Concrete corpora and requests used as test points. *)
Module Samples.

(** Scenario 2 of the specification: three lines, tag "Startup". *)
Definition startup_doc : FewShot.Document :=
  {| FewShot.text := Some ("Line1" +:+ PyStr.nl +:+ "Line2" +:+ PyStr.nl +:+ "Line3");
     FewShot.metadata :=
       Some {| FewShot.unified_tags := Some ["Startup"];
               FewShot.language := Some "English";
               FewShot.line_count := Some 3 |} |}.

(** [PostMetadata(hashtags=..., tone=...)] *)
Definition sample_metadata (hs : list string) (tone : option string)
  : Schemas.PostMetadata :=
  {| Schemas.topic := None; Schemas.tone := tone; Schemas.post_type := None;
     Schemas.md_word_count := None; Schemas.estimated_engagement := None;
     Schemas.target_audience := None; Schemas.best_posting_time := None;
     Schemas.hashtags := hs; Schemas.structure := None;
     Schemas.engagement_drivers := []; Schemas.quality_score := None;
     Schemas.virality_potential := None; Schemas.emotional_tone := None;
     Schemas.call_to_action := None; Schemas.md_line_count := None;
     Schemas.language := None; Schemas.unified_tags := [] |}.

(** Scenario 3 of the specification: sixty words on four lines, one
    question mark, the hashtag "#AI" once, no paragraph break and no
    keyword. *)
Definition sixty_words : string :=
  "alpha beta gamma delta epsilon zeta eta theta iota kappa lambda mu nu xi omicron?"
  +:+ PyStr.nl +:+
  "#AI beta gamma delta epsilon zeta eta theta iota kappa lambda mu nu xi omicron"
  +:+ PyStr.nl +:+
  "alpha beta gamma delta epsilon zeta eta theta iota kappa lambda mu nu xi omicron"
  +:+ PyStr.nl +:+
  "alpha beta gamma delta epsilon zeta eta theta iota kappa lambda mu nu xi omicron".
Definition scenario3_post : Schemas.Post :=
  Schemas.new_post 0 "scenario_3" sixty_words (sample_metadata ["#AI"] None).
(** The same sixty words with an exclamation mark after the last one. *)
Definition sixty_words_exclaimed : string := sixty_words +:+ "!".
Definition scenario3_exclaimed_post : Schemas.Post :=
  Schemas.new_post 0 "scenario_3_exclaimed" sixty_words_exclaimed
    (sample_metadata ["#AI"] None).
(** The text of scenario 3, with "#AI" in the text only: the metadata
    lists no hashtag. *)
Definition scenario3_untagged_post : Schemas.Post :=
  Schemas.new_post 0 "scenario_3_untagged" sixty_words (sample_metadata [] None).

(** Two posts with the same text and different metadata hashtags. *)
Definition plain_post : Schemas.Post :=
  Schemas.new_post 0 "plain" "hello world" (sample_metadata [] None).
Definition tagged_post : Schemas.Post :=
  Schemas.new_post 0 "tagged" "hello world" (sample_metadata ["#AI"] None).
(** A third one: another identifier, another hashtag, as many hashtags. *)
Definition retagged_post : Schemas.Post :=
  Schemas.new_post 7 "retagged" "hello world" (sample_metadata ["#ML"] None).

(** A post whose tone is the empty string. *)
Definition empty_tone_post : Schemas.Post :=
  Schemas.new_post 0 "empty_tone" "hello world" (sample_metadata [] (Some "")).

(** A post with an empty text. *)
Definition empty_text_post : Schemas.Post :=
  Schemas.new_post 0 "empty_text" "" (sample_metadata [] None).

(** A collaborator that cannot be reached: the client is built and the
    call raises. *)
Definition env_unreachable : Preprocessing.Collaborator :=
  {| Preprocessing.get_groq_client := Ok tt;
     Preprocessing.chain_invoke := fun _ => Raise CollaboratorError;
     Preprocessing.json_parser_parse := fun _ => Raise OutputParserException;
     Preprocessing.json_loads := fun _ => Raise JSONDecodeError |}.

(** No client: the API key is empty, [get_groq_client()] raises, and
    the collaborator cannot be reached either. *)
Definition env_no_client : Preprocessing.Collaborator :=
  {| Preprocessing.get_groq_client :=
       Raise (ValueError "GROQ_API_KEY not found in environment variables. Please set it in your .env file or environment.");
     Preprocessing.chain_invoke := fun _ => Raise CollaboratorError;
     Preprocessing.json_parser_parse := fun _ => Raise OutputParserException;
     Preprocessing.json_loads := fun _ => Raise JSONDecodeError |}.


(** A raw corpus of one post, [{"text": "Hello", "metadata": {"topic":
    "Startup", "hashtags": ["#AI"]}}]: the post object is at location 1
    and its metadata object at location 2. *)
Definition raw_store : Preprocessing.store :=
  {| Preprocessing.next_loc := 3%positive;
     Preprocessing.objects :=
       <[1%positive := <["text" := Preprocessing.VStr "Hello"]>
                        (<["metadata" := Preprocessing.VDict 2%positive]> ∅)]>
         (<[2%positive :=
              <["topic" := Preprocessing.VStr "Startup"]>
                (<["hashtags" :=
                     Preprocessing.VList [Preprocessing.VStr "#AI"]]> ∅)]> ∅) |}.
Definition raw_posts : list Preprocessing.value := [Preprocessing.VDict 1%positive].

(** Two orders of visit of a set: the order of the first [add]s, and its
    reverse. *)
Definition insertion_order (adds : list string) : list string := Spec.first_seen adds.
Definition reverse_order (adds : list string) : list string :=
  reverse (Spec.first_seen adds).

End Samples.


(** Auxiliary forms used by the proofs about the lists of tags. *)
Module Tags.

(** [x <= y] on Python strings. *)
Definition string_le (x y : string) : Prop := String.leb x y = true.

(** A parsed mapping as the enrichment reads it, when its values are
    strings. *)
Definition string_values (m : gmap string Preprocessing.json) : gmap string string :=
  omap (fun v => match v with Preprocessing.JStr s => Some s | _ => None end) m.

End Tags.

(** The corpus before and after the enrichment. *)
Module Enriched.
Import Preprocessing.

(** [{"likes": 0, "comments": 0, "shares": 0}] *)
Definition zero_engagement : gmap string value :=
  <["likes" := VInt 0]> (<["comments" := VInt 0]> (<["shares" := VInt 0]> ∅)).

(** The keys of a metadata object that the enrichment writes. *)
Definition written_keys : list string := ["line_count"; "language"; "unified_tags"].

(** A post of the corpus format: an object with a string text, whose
    metadata entry, if present, is an object with a string topic (if
    present) and a list of string hashtags (if present). *)
Definition well_formed (h : store) (post : value) : Prop :=
  exists l d text,
    post = VDict l /\ objects h !! l = Some d
    /\ d !! "text" = Some (VStr text) /\ is_Some (Raw.raw_tags h d).



End Enriched.
(* ================================================================== *)
(** * Properties of the exemplar selector *)
(* ================================================================== *)

Section SelectorFacts.
Import FewShot.
Variables (length_category language_req tag : string).

Abbreviation matches := (post_matches length_category language_req tag).
Abbreviation loop := (filter_loop length_category language_req tag).

Lemma str_in_In (x : string) (l : list string) :
  FewShot.str_in x l = true <-> In x l.
Proof.
  unfold FewShot.str_in. rewrite existsb_exists. split.
  - intros (y & Hy & Heq). apply String.eqb_eq in Heq. now subst.
  - intros H. exists x. split; [assumption | apply String.eqb_refl].
Qed.

(** The guard of [filtered.append] is the conjunction of the three
    predicates of section 4.3. *)
Lemma post_matches_spec (post : Document) :
  matches post = true <->
  Spec.tag_is_member tag post /\ Spec.language_is language_req post
  /\ length_matches length_category
       (default empty_metadata (metadata post)) = true.
Proof.
  unfold post_matches, Spec.tag_is_member, Spec.language_is.
  rewrite !andb_true_iff. unfold tag_matches, language_matches.
  rewrite str_in_In, in_map_iff, String.eqb_eq.
  split.
  - intros [[(t & Ht & Hin) Hl] Hb]. repeat split; eauto.
  - intros [(t & Hin & Ht) [Hl Hb]]. repeat split; eauto.
Qed.

(** Everything the loop appends passes the guard. *)
Lemma filter_loop_all_match (k : Z) (posts filtered : list Document) :
  Forall (fun p => matches p = true) filtered ->
  Forall (fun p => matches p = true) (loop k posts filtered).
Proof.
  revert filtered. induction posts as [|post rest IH]; intros filtered Hf; simpl.
  - assumption.
  - destruct (matches post) eqn:Hm.
    + assert (Hf' : Forall (fun p => matches p = true) (filtered ++ [post])).
      { apply Forall_app. split; [assumption | now constructor]. }
      destruct (Z.of_nat (length (filtered ++ [post])) >=? k); auto.
    + auto.
Qed.

(** The loop is a first-K selection: it returns the first
    [max 1 max_examples] matches, in corpus order. *)
Lemma filter_loop_take (k : Z) (posts filtered : list Document) :
  (Z.of_nat (length filtered) < Z.max 1 k) ->
  loop k posts filtered
  = take (Z.to_nat (Z.max 1 k))
         (filtered ++ List.filter (fun p => matches p) posts).
Proof.
  revert filtered. induction posts as [|post rest IH]; intros filtered Hlen; simpl.
  - rewrite app_nil_r. symmetry. apply take_ge. lia.
  - destruct (matches post) eqn:Hm.
    + rewrite Z.geb_leb, length_app. simpl length.
      destruct (Z.leb_spec k (Z.of_nat (length filtered + 1))) as [Hk|Hk].
      * replace (filtered ++ post :: List.filter (fun p => matches p) rest)
          with ((filtered ++ [post]) ++ List.filter (fun p => matches p) rest)
          by (now rewrite <- app_assoc).
        rewrite take_app_le by (rewrite length_app; simpl; lia).
        symmetry. apply take_ge. rewrite length_app. simpl. lia.
      * rewrite IH.
        -- now rewrite <- app_assoc.
        -- rewrite length_app. simpl. lia.
    + now apply IH.
Qed.

Lemma get_filtered_posts_take (posts : list Document) (max_examples : Z) :
  get_filtered_posts length_category language_req tag posts max_examples
  = take (Z.to_nat (Z.max 1 max_examples))
         (List.filter (fun p => matches p) posts).
Proof. unfold get_filtered_posts. rewrite filter_loop_take; simpl; [reflexivity | lia]. Qed.

(** Every returned document satisfies the three predicates. *)
Lemma get_filtered_posts_sound (posts : list Document) (max_examples : Z) :
  Forall (fun p => Spec.tag_is_member tag p /\ Spec.language_is language_req p
                   /\ length_matches length_category
                        (default empty_metadata (metadata p)) = true)
         (get_filtered_posts length_category language_req tag posts max_examples).
Proof.
  unfold get_filtered_posts.
  pose proof (filter_loop_all_match max_examples posts [] (List.Forall_nil _)) as H.
  revert H. apply List.Forall_impl. intros p Hp. now apply post_matches_spec.
Qed.

(** With [max_examples >= 1] the result has at most [max_examples]
    documents. *)
Lemma get_filtered_posts_length (posts : list Document) (max_examples : Z) :
  1 <= max_examples ->
  Z.of_nat (length (get_filtered_posts length_category language_req tag
                      posts max_examples)) <= max_examples.
Proof.
  intros Hk. rewrite get_filtered_posts_take, length_take. lia.
Qed.

End SelectorFacts.

(** C6.  A document matches the length bucket of the request exactly when
    its [line_count] (0 when the key is absent) lies in the inclusive range
    of that bucket, Short = [1,5], Medium = [6,10], Long = [11,15]; a
    [line_count] of 0, or one outside [1,15], matches no category at all:
    there is no fallback bucket. *)
Theorem length_matches_bucket (length_category : string) (d : FewShot.Document) :
  (FewShot.length_matches length_category
     (default FewShot.empty_metadata (FewShot.metadata d)) = true
   <-> Spec.in_bucket length_category d)
  /\ (~ (1 <= Spec.doc_line_count d <= 15) ->
      forall c, FewShot.length_matches c
                  (default FewShot.empty_metadata (FewShot.metadata d)) = false).
Proof.
  unfold Spec.in_bucket, Spec.doc_line_count, Spec.bucket_range, FewShot.length_matches.
  set (n := default 0 _). split.
  - destruct (String.eqb_spec length_category "Short") as [->|N1];
      [| destruct (String.eqb_spec length_category "Medium") as [->|N2];
         [| destruct (String.eqb_spec length_category "Long") as [->|N3]]]; cbn.
    4: { split; [discriminate | intros (lo & hi & Heq & _); discriminate]. }
    all: match goal with
         | |- context [(?a <=? ?x) && (?x <=? ?b)] =>
             destruct (Z.leb_spec a x), (Z.leb_spec x b); cbn; split; intros Hm;
             try discriminate; try reflexivity;
             try (exists a, b; split; [reflexivity | lia]);
             try (destruct Hm as (lo & hi & Heq & Hr); inversion Heq; subst; lia)
         end.
  - intros Hout c.
    destruct (Z.leb_spec 1 n), (Z.leb_spec n 5), (Z.leb_spec 6 n), (Z.leb_spec n 10),
      (Z.leb_spec 11 n), (Z.leb_spec n 15); try lia;
      rewrite ?andb_false_r; reflexivity.
Qed.

(** Scenario 2 of the specification: the three-line "Startup" document is
    selected for the bucket Short and for no other bucket. *)
Example scenario2_short_only :
  FewShot.get_filtered_posts "Short" "English" "Startup" [Samples.startup_doc] 2
  = [Samples.startup_doc]
  /\ FewShot.get_filtered_posts "Medium" "English" "Startup" [Samples.startup_doc] 2 = []
  /\ FewShot.get_filtered_posts "Long" "English" "Startup" [Samples.startup_doc] 2 = [].
Proof. repeat split; reflexivity. Qed.

(** C1.  The claim: for [max_examples >= 0] every document returned by the
    selector satisfies the three predicates and the result has at most
    [max_examples] documents.  The three predicates hold of every returned
    document ([get_filtered_posts_sound]) and the bound holds from
    [max_examples = 1] on ([get_filtered_posts_length]).  With
    [max_examples = 0] the loop appends the first match before it compares
    the length of the result with [max_examples]: on a corpus of two
    matching documents it returns one document, not none. *)
Theorem get_filtered_posts_zero_examples :
  FewShot.get_filtered_posts "Short" "English" "Startup"
    [Samples.startup_doc; Samples.startup_doc] 0 = [Samples.startup_doc]
  /\ ~ (Z.of_nat (length (FewShot.get_filtered_posts "Short" "English" "Startup"
                            [Samples.startup_doc; Samples.startup_doc] 0)) <= 0).
Proof. split; [reflexivity | vm_compute; intros H; apply H; reflexivity]. Qed.

(* ================================================================== *)
(** * Properties of the quality scorer *)
(* ================================================================== *)

Section ScorerFacts.
Import Schemas Validators Aux.
#[local] Open Scope Q_scope.

Lemma add_when_eq (b : bool) (v s : Q) : add_when b v s == s + pts b v.
Proof. unfold add_when, pts. destruct b; ring. Qed.

Lemma add_first_eq (b1 : bool) (v1 : Q) (b2 : bool) (v2 s : Q) :
  (b1 = true -> b2 = false) ->
  add_first b1 v1 b2 v2 s == s + pts b1 v1 + pts b2 v2.
Proof.
  unfold add_first, pts. intros Hx.
  destruct b1; [rewrite Hx by reflexivity | destruct b2]; ring.
Qed.

#[local] Instance add_when_proper (b : bool) (v : Q) : Proper (Qeq ==> Qeq) (add_when b v).
Proof. intros s s' Hs. unfold add_when. destruct b; rewrite Hs; reflexivity. Qed.

#[local] Instance add_first_proper (b1 : bool) (v1 : Q) (b2 : bool) (v2 : Q) :
  Proper (Qeq ==> Qeq) (add_first b1 v1 b2 v2).
Proof.
  intros s s' Hs. unfold add_first. destruct b1, b2; rewrite Hs; reflexivity.
Qed.

Lemma pts_nonneg (b : bool) (v : Q) : 0 <= v -> 0 <= pts b v.
Proof. intros Hv. unfold pts. destruct b; [assumption | apply Qle_refl]. Qed.

(** The body of [calculate_post_quality_score] as a composition of its
    thirteen statements. *)
Lemma calculate_straight (post : Post) :
  calculate_post_quality_score post
  = Qmin
      (add_when (Spec.mentions professional_words post) 1
      (add_when (Spec.mentions ["tips"; "advice"; "strategies"; "methods"] post) (1 # 2)
      (add_when (Spec.mentions ["experience"; "learned"; "discovered"; "found"] post) (1 # 2)
      (add_when (Spec.mentions ["think"; "believe"; "suggest"; "recommend"] post) (1 # 2)
      (add_when (Spec.mentions ["because"; "however"; "therefore"; "meanwhile"] post) (1 # 2)
      (add_when (PyStr.contains (PyStr.nl +:+ PyStr.nl) (text post)) 1
      (add_when (line_count post >=? 3)%Z 1
      (add_first ((1 <=? hashtag_count post) && (hashtag_count post <=? 5))%Z 1
                 (hashtag_count post >? 5)%Z (1 # 2)
      (add_when (hashtag_count post >? 0)%Z (1 # 2)
      (add_when (has_exclamation post) (1 # 2)
      (add_when (has_question post) 1
      (add_first ((50 <=? word_count post) && (word_count post <=? 300))%Z 2
                 ((30 <=? word_count post) && (word_count post <? 50)
                  || (300 <? word_count post) && (word_count post <=? 500))%Z 1
                 0))))))))))))
      10.
Proof. reflexivity. Qed.

Lemma length_rows_exclusive (n : Z) :
  ((50 <=? n) && (n <=? 300))%Z = true ->
  ((30 <=? n) && (n <? 50) || (300 <? n) && (n <=? 500))%Z = false.
Proof.
  destruct (Z.leb_spec 50 n), (Z.leb_spec n 300), (Z.leb_spec 30 n), (Z.ltb_spec n 50),
    (Z.ltb_spec 300 n), (Z.leb_spec n 500); simpl; intros; try reflexivity;
    try discriminate; lia.
Qed.

Lemma hashtag_rows_exclusive (n : Z) :
  ((1 <=? n) && (n <=? 5))%Z = true -> (n >? 5)%Z = false.
Proof.
  rewrite Z.gtb_ltb.
  destruct (Z.leb_spec 1 n), (Z.leb_spec n 5), (Z.ltb_spec 5 n); simpl; intros;
    try reflexivity; try discriminate; lia.
Qed.

Lemma gtb_zero_leb (n : Z) : (n >? 0)%Z = (1 <=? n)%Z.
Proof.
  rewrite Z.gtb_ltb. destruct (Z.ltb_spec 0 n), (Z.leb_spec 1 n); (reflexivity || lia).
Qed.

(** The code computes the capped sum of the table. *)
Lemma calculate_is_table (post : Post) :
  calculate_post_quality_score post == Spec.score post.
Proof.
  rewrite calculate_straight.
  unfold Spec.score, Spec.signal_sum, Spec.signal_table, Spec.points.
  cbn [fold_right fst snd].
  apply Q.min_compat; [| reflexivity].
  rewrite !add_when_eq.
  rewrite (add_first_eq _ _ _ _ _ (hashtag_rows_exclusive _)).
  rewrite (add_first_eq _ _ _ _ _ (length_rows_exclusive _)).
  rewrite gtb_zero_leb, Z.geb_leb, Z.gtb_ltb.
  unfold pts, has_question, has_exclamation, professional_words. ring.
Qed.

Lemma signal_sum_nonneg (post : Post) : 0 <= Spec.signal_sum post.
Proof.
  unfold Spec.signal_sum.
  assert (Hrows : Forall (fun row => 0 <= snd row) Spec.signal_table).
  { unfold Spec.signal_table. repeat constructor; cbn; discriminate. }
  induction Hrows as [|row rows Hrow _ IH]; cbn [fold_right].
  - apply Qle_refl.
  - assert (0 <= Spec.points row post).
    { unfold Spec.points. destruct (fst row post); [assumption | apply Qle_refl]. }
    lra.
Qed.

Lemma calculate_bounds (post : Post) :
  0 <= calculate_post_quality_score post <= 10.
Proof.
  rewrite calculate_is_table. unfold Spec.score. split.
  - apply Q.min_glb; [apply signal_sum_nonneg | discriminate].
  - apply Q.le_min_r.
Qed.

End ScorerFacts.

(** C2, as stated, fails at its scenario.  The sixty words of scenario 3
    on four lines, with a question mark, "#AI" once in the text and as the
    one metadata hashtag, no blank-line break and no keyword hit, followed
    by an exclamation mark, score 6.0: the exclamation mark is a signal of
    the table.  The same text without the exclamation mark and with no
    metadata hashtag scores 4.0: the hashtag signals count the metadata
    hashtags, not the [#] of the text. *)
Lemma scenario3_conditions_do_not_fix_the_score :
  (Schemas.word_count Samples.scenario3_exclaimed_post = 60
   /\ Schemas.has_question Samples.scenario3_exclaimed_post = true
   /\ Schemas.hashtag_count Samples.scenario3_exclaimed_post = 1
   /\ PyStr.count "#" (Schemas.text Samples.scenario3_exclaimed_post) = 1
   /\ PyStr.contains "#AI" (Schemas.text Samples.scenario3_exclaimed_post) = true
   /\ Schemas.line_count Samples.scenario3_exclaimed_post = 4
   /\ PyStr.contains (PyStr.nl +:+ PyStr.nl)
        (Schemas.text Samples.scenario3_exclaimed_post) = false
   /\ Spec.no_keyword_hits Samples.scenario3_exclaimed_post
   /\ (Validators.calculate_post_quality_score Samples.scenario3_exclaimed_post == 6)%Q
   /\ ~ (Validators.calculate_post_quality_score Samples.scenario3_exclaimed_post
         == 11 # 2)%Q)
  /\ (Schemas.word_count Samples.scenario3_untagged_post = 60
      /\ Schemas.has_question Samples.scenario3_untagged_post = true
      /\ Schemas.has_exclamation Samples.scenario3_untagged_post = false
      /\ PyStr.count "#" (Schemas.text Samples.scenario3_untagged_post) = 1
      /\ PyStr.contains "#AI" (Schemas.text Samples.scenario3_untagged_post) = true
      /\ Schemas.line_count Samples.scenario3_untagged_post = 4
      /\ PyStr.contains (PyStr.nl +:+ PyStr.nl)
           (Schemas.text Samples.scenario3_untagged_post) = false
      /\ Spec.no_keyword_hits Samples.scenario3_untagged_post
      /\ (Validators.calculate_post_quality_score Samples.scenario3_untagged_post == 4)%Q
      /\ ~ (Validators.calculate_post_quality_score Samples.scenario3_untagged_post
            == 11 # 2)%Q).
Proof.
  assert (Hkeys : forall p,
            (forall family, In family Spec.keyword_families ->
                            Spec.mentions family p = false)
            -> Spec.no_keyword_hits p) by (intros p H; exact H).
  split.
  - do 7 (split; [vm_compute; reflexivity |]).
    split.
    { apply Hkeys. intros family Hin. cbn in Hin.
      repeat (destruct Hin as [<- | Hin]; [vm_compute; reflexivity |]).
      destruct Hin. }
    split; [vm_compute; reflexivity | vm_compute; discriminate].
  - do 7 (split; [vm_compute; reflexivity |]).
    split.
    { apply Hkeys. intros family Hin. cbn in Hin.
      repeat (destruct Hin as [<- | Hin]; [vm_compute; reflexivity |]).
      destruct Hin. }
    split; [vm_compute; reflexivity | vm_compute; discriminate].
Qed.

(** C2, amended.  The quality score of every document is the sum of the
    signal table of the specification capped by [min(sum, 10)], and lies
    in [0, 10]; the hashtag signals read the number of metadata hashtags.
    A text of 60 words that contains a question mark and no exclamation
    mark, with exactly one metadata hashtag, 4 lines, no blank-line break
    and no keyword hit scores 5.5. *)
Theorem quality_score_is_capped_table_sum (post : Schemas.Post) :
  (Validators.calculate_post_quality_score post == Qmin (Spec.signal_sum post) 10)%Q
  /\ (0 <= Validators.calculate_post_quality_score post <= 10)%Q
  /\ (Schemas.word_count post = 60 ->
      Schemas.has_question post = true ->
      Schemas.has_exclamation post = false ->
      Schemas.hashtag_count post = 1 ->
      Schemas.line_count post = 4 ->
      PyStr.contains (PyStr.nl +:+ PyStr.nl) (Schemas.text post) = false ->
      Spec.no_keyword_hits post ->
      (Validators.calculate_post_quality_score post == 11 # 2)%Q).
Proof.
  split; [apply calculate_is_table | split; [apply calculate_bounds |]].
  intros Hw Hq He Hh Hl Hb Hk.
  rewrite calculate_is_table.
  unfold Spec.score, Spec.signal_sum, Spec.signal_table, Spec.points.
  cbn [fold_right fst snd].
  unfold Schemas.has_question, Schemas.has_exclamation in Hq, He.
  rewrite Hw, Hq, He, Hh, Hl, Hb.
  rewrite !Hk by (cbn; tauto).
  reflexivity.
Qed.

(** The document of scenario 3 scores 5.5. *)
Lemma quality_score_scenario3 :
  (Validators.calculate_post_quality_score Samples.scenario3_post == 11 # 2)%Q.
Proof.
  refine (proj2 (proj2 (quality_score_is_capped_table_sum Samples.scenario3_post))
            _ _ _ _ _ _ _).
  1-6: vm_compute; reflexivity.
  intros family Hin. cbn in Hin.
  repeat (destruct Hin as [<- | Hin]; [vm_compute; reflexivity |]).
  destruct Hin.
Defined.

(** C8, as stated, fails: two posts with the same text and different
    metadata hashtags get different scores (0 and 1.5). *)
Lemma score_differs_on_equal_text :
  Schemas.text Samples.plain_post = Schemas.text Samples.tagged_post
  /\ ~ (Validators.calculate_post_quality_score Samples.plain_post
        == Validators.calculate_post_quality_score Samples.tagged_post)%Q.
Proof. split; [reflexivity | vm_compute; discriminate]. Qed.

(** C8, amended.  Scoring is a total function of the document, and its
    value is fixed by the text together with the word count, the line
    count and the hashtag count that the document reports (the last three
    read the metadata): two documents that agree on these four get the
    same score, bit for bit. *)
Theorem score_fixed_by_text_and_counts (p q : Schemas.Post) :
  Schemas.text p = Schemas.text q ->
  Schemas.word_count p = Schemas.word_count q ->
  Schemas.line_count p = Schemas.line_count q ->
  Schemas.hashtag_count p = Schemas.hashtag_count q ->
  Validators.calculate_post_quality_score p = Validators.calculate_post_quality_score q.
Proof.
  intros Ht Hw Hl Hh.
  unfold Validators.calculate_post_quality_score, Schemas.has_question,
    Schemas.has_exclamation.
  rewrite Ht, Hw, Hl, Hh. reflexivity.
Qed.

(** Two posts that differ in identifier, creation time and hashtag, and
    agree on the text and the three counts. *)
Lemma score_fixed_by_text_and_counts_witness :
  Validators.calculate_post_quality_score Samples.tagged_post
  = Validators.calculate_post_quality_score Samples.retagged_post.
Proof.
  apply (score_fixed_by_text_and_counts Samples.tagged_post Samples.retagged_post);
    reflexivity.
Defined.

(* ================================================================== *)
(** * Properties of the quality assessment *)
(* ================================================================== *)

Section ValidatorFacts.
Import Schemas Validators Aux.

Lemma str_in_iff (x : string) (l : list string) :
  Validators.str_in x l = true <-> In x l.
Proof.
  unfold Validators.str_in. rewrite existsb_exists. split.
  - intros (y & Hy & Heq). apply String.eqb_eq in Heq. now subst.
  - intros H. exists x. split; [assumption | apply String.eqb_refl].
Qed.

(** ** [validate_post_text] *)

Lemma validate_post_text_cases (t : string) :
  (validate_post_text t = Ok true /\ Spec.text_ok_string t)
  \/ (exists msg, validate_post_text t = Raise (ValidationError msg)
                  /\ ~ Spec.text_ok_string t).
Proof.
  unfold validate_post_text, Spec.text_ok_string.
  rewrite !Z.gtb_ltb.
  destruct (String.eqb_spec t "") as [->|Ht]; simpl.
  { right. eexists. split; [reflexivity |]. intros [H _]. now apply H. }
  destruct (String.eqb_spec (PyStr.strip t) "") as [Hs|Hs]; simpl.
  { right. eexists. split; [reflexivity |]. intros [H _]. now apply H. }
  destruct (Z.ltb_spec (PyStr.len (PyStr.strip t)) 10).
  { right. eexists. split; [reflexivity |]. intros (_ & H' & _). lia. }
  destruct (Z.ltb_spec 3000 (PyStr.len t)).
  { right. eexists. split; [reflexivity |]. intros (_ & _ & H' & _). lia. }
  destruct (Z.ltb_spec 10 (PyStr.count "#" t)).
  { right. eexists. split; [reflexivity |]. intros (_ & _ & _ & H'). lia. }
  left. repeat split; (assumption || lia).
Qed.

(** ** [validate_hashtags] *)

Lemma check_hashtag_cases (h : string) :
  (check_hashtag h = Ok tt /\ hashtag_accepted h)
  \/ (exists msg, check_hashtag h = Raise (ValidationError msg)
                  /\ ~ hashtag_accepted h).
Proof.
  unfold check_hashtag, hashtag_accepted. rewrite Z.gtb_ltb.
  destruct (PyStr.startswith "#" h); simpl.
  2: { right. eexists. split; [reflexivity |]. intros [H _]. discriminate. }
  destruct (Z.ltb_spec (PyStr.len h) 2).
  { right. eexists. split; [reflexivity |]. intros (_ & H' & _). lia. }
  destruct (Z.ltb_spec 50 (PyStr.len h)).
  { right. eexists. split; [reflexivity |]. intros (_ & H' & _). lia. }
  destruct (PyStr.hashtag_re_match h); simpl.
  - left. repeat split; (reflexivity || lia).
  - right. eexists. split; [reflexivity |]. intros (_ & _ & H'). discriminate.
Qed.

Lemma validate_hashtags_cases (hs : list string) :
  (validate_hashtags hs = Ok true /\ Forall hashtag_accepted hs)
  \/ (exists msg, validate_hashtags hs = Raise (ValidationError msg)
                  /\ ~ Forall hashtag_accepted hs).
Proof.
  induction hs as [|h rest IH]; simpl.
  - left. split; [reflexivity | constructor].
  - destruct (check_hashtag_cases h) as [[-> Hh] | (msg & -> & Hh)]; simpl.
    + destruct IH as [[-> Hr] | (msg & -> & Hr)].
      * left. split; [reflexivity | now constructor].
      * right. exists msg. split; [reflexivity |].
        intros HF. apply Hr. now inversion HF.
    + right. exists msg. split; [reflexivity |].
      intros HF. apply Hh. now inversion HF.
Qed.

(** On a hashtag that does not end in a line feed the regular
    expression accepts exactly a [#] followed by word characters. *)
Lemma words_then_end_all_chars (s : string) :
  Spec.ends_with_lf s = false ->
  PyStr.words_then_end s = Spec.all_chars PyStr.is_word s.
Proof.
  induction s as [|c r IH]; intros Hlf; [reflexivity |].
  cbn [PyStr.words_then_end Spec.all_chars].
  destruct r as [|c' r'].
  - cbn in Hlf. cbn. destruct (PyStr.is_word c); [reflexivity |].
    rewrite Hlf. reflexivity.
  - destruct (PyStr.is_word c); [| now rewrite andb_false_r].
    apply IH. exact Hlf.
Qed.

Lemma hashtag_re_match_pattern (h : string) :
  Spec.ends_with_lf h = false ->
  PyStr.hashtag_re_match h = Spec.hashtag_pattern h.
Proof.
  destruct h as [|c0 [|c r]]; [reflexivity | |].
  { intros _. destruct c0 as [[] [] [] [] [] [] [] []]; reflexivity. }
  intros Hlf.
  assert (Hbody : PyStr.is_word c && PyStr.words_then_end r
                  = Spec.all_chars PyStr.is_word (String c r)).
  { cbn [Spec.all_chars]. f_equal.
    destruct r as [|c' r']; [reflexivity |].
    apply words_then_end_all_chars. exact Hlf. }
  destruct c0 as [[] [] [] [] [] [] [] []]; try reflexivity. exact Hbody.
Qed.

Lemma hashtag_accepted_ok (h : string) :
  Spec.ends_with_lf h = false -> hashtag_accepted h <-> Spec.hashtag_ok h.
Proof.
  intros Hlf. unfold hashtag_accepted, Spec.hashtag_ok.
  now rewrite hashtag_re_match_pattern.
Qed.

(** ** [validate_post_metadata] *)

Lemma guard_topic (x : option string) :
  truthy_str x && (PyStr.len (default "" x) >? 100) = false
  <-> (forall t, x = Some t -> PyStr.len t <= 100).
Proof.
  rewrite Z.gtb_ltb. destruct x as [t|]; simpl.
  - destruct (String.eqb_spec t "") as [->|Hne]; simpl.
    + split; [intros _ t' [= <-]; vm_compute; discriminate | reflexivity].
    + rewrite Z.ltb_ge. split; [intros H t' [= <-]; exact H | intros H; now apply H].
  - split; [intros _ t' [=] | reflexivity].
Qed.

Lemma guard_allowed (allowed : list string) (x : option string) :
  truthy_str x && negb (Validators.str_in (default "" x) allowed) = false
  <-> Spec.drawn_from_if_nonempty allowed x.
Proof.
  unfold Spec.drawn_from_if_nonempty. destruct x as [v|]; simpl.
  - destruct (String.eqb_spec v "") as [->|Hne]; simpl.
    + split; [intros _ v' [= <-] Hv; now destruct Hv | reflexivity].
    + rewrite negb_false_iff, str_in_iff.
      split; [intros H v' [= <-] _; exact H | intros H; now apply H].
  - split; [intros _ v' [=] | reflexivity].
Qed.

Lemma guard_quality_score (x : option Q) :
  truthy_float x
  && negb (Qle_bool 0 (default 0%Q x) && Qle_bool (default 0%Q x) 10) = false
  <-> (forall q, x = Some q -> (0 <= q <= 10)%Q).
Proof.
  destruct x as [q|]; simpl.
  - destruct (Qeq_bool q 0) eqn:Hz; simpl.
    + apply Qeq_bool_iff in Hz.
      split; [intros _ q' [= <-]; split; lra | reflexivity].
    + rewrite negb_false_iff, andb_true_iff, !Qle_bool_iff.
      split; [intros H q' [= <-]; exact H | intros H; now apply H].
  - split; [intros _ q' [=] | reflexivity].
Qed.

Lemma validate_post_metadata_cases (md : PostMetadata) :
  (validate_post_metadata md = Ok true /\ metadata_accepted md)
  \/ (exists msg, validate_post_metadata md = Raise (ValidationError msg)
                  /\ ~ metadata_accepted md).
Proof.
  unfold validate_post_metadata, metadata_accepted.
  destruct (truthy_str (topic md) && _) eqn:G1.
  { right. eexists. split; [reflexivity |]. intros (H & _).
    apply guard_topic in H. congruence. }
  destruct (truthy_str (tone md) && _) eqn:G2.
  { right. eexists. split; [reflexivity |]. intros (_ & H & _).
    apply guard_allowed in H. congruence. }
  destruct (truthy_str (estimated_engagement md) && _) eqn:G3.
  { right. eexists. split; [reflexivity |]. intros (_ & _ & H & _).
    apply guard_allowed in H. congruence. }
  destruct (truthy_float (quality_score md) && _) eqn:G4.
  { right. eexists. split; [reflexivity |]. intros (_ & _ & _ & H).
    apply guard_quality_score in H. congruence. }
  left. split; [reflexivity |].
  split; [now apply guard_topic |].
  split; [now apply guard_allowed |].
  split; [now apply guard_allowed | now apply guard_quality_score].
Qed.

(** ** The three validators in sequence *)

Lemma structural_validation_cases (post : Post) :
  (Spec.structural_validation post = Ok true /\ structurally_valid post)
  \/ (exists msg, Spec.structural_validation post = Raise (ValidationError msg)
                  /\ ~ structurally_valid post).
Proof.
  unfold Spec.structural_validation, structurally_valid, Spec.text_ok.
  destruct (validate_post_text_cases (text post)) as [[-> Ht] | (msg & -> & Ht)];
    cbn [mbind result_bind].
  2: { right. exists msg. split; [reflexivity | tauto]. }
  assert (Hh : ((if bool_decide (hashtags (metadata post) ≠ [])
                 then validate_hashtags (hashtags (metadata post)) else Ok true)
                = Ok true /\ Forall hashtag_accepted (hashtags (metadata post)))
               \/ (exists msg,
                      (if bool_decide (hashtags (metadata post) ≠ [])
                       then validate_hashtags (hashtags (metadata post)) else Ok true)
                      = Raise (ValidationError msg)
                      /\ ~ Forall hashtag_accepted (hashtags (metadata post)))).
  { case_bool_decide as Hne.
    - apply validate_hashtags_cases.
    - left. split; [reflexivity |].
      rewrite Hne. constructor. }
  destruct Hh as [[-> Hh] | (msg & -> & Hh)]; cbn [mbind result_bind].
  2: { right. exists msg. split; [reflexivity | tauto]. }
  destruct (validate_post_metadata_cases (metadata post)) as [[-> Hm] | (msg & -> & Hm)].
  - left. tauto.
  - right. exists msg. split; [reflexivity | tauto].
Qed.

(** The [try] block raises what the validators raise, and otherwise
    returns a report that keeps [is_valid] and [errors] and carries the
    score. *)
Lemma quality_body_raise (post : Post) (r : QualityReport) (e : exn) :
  Spec.structural_validation post = Raise e -> quality_body post r = Raise e.
Proof.
  unfold Spec.structural_validation, quality_body.
  destruct (validate_post_text (text post)); cbv beta iota delta [mbind result_bind]; [| now intros [= ->]].
  destruct (if bool_decide (hashtags (metadata post) ≠ []) then _ else _);
    cbv beta iota delta [mbind result_bind]; [| now intros [= ->]].
  destruct (validate_post_metadata (metadata post)); cbv beta iota delta [mbind result_bind]; [easy | now intros [= ->]].
Qed.

Lemma quality_body_ok (post : Post) (r : QualityReport) (b : bool) :
  Spec.structural_validation post = Ok b ->
  exists r', quality_body post r = Ok r'
             /\ is_valid r' = is_valid r /\ errors r' = errors r
             /\ score r' = calculate_post_quality_score post.
Proof.
  unfold Spec.structural_validation, quality_body.
  destruct (validate_post_text (text post)); cbv beta iota delta [mbind result_bind]; [| easy].
  destruct (if bool_decide (hashtags (metadata post) ≠ []) then _ else _);
    cbv beta iota delta [mbind result_bind]; [| easy].
  destruct (validate_post_metadata (metadata post)); cbv beta iota delta [mbind result_bind]; [| easy].
  intros _. eexists. split; [reflexivity |].
  destruct (word_count post <? 50), (hashtag_count post =? 0),
    (negb (has_question post) && negb (has_exclamation post)),
    (word_count post >? 500); repeat split; reflexivity.
Qed.

Lemma reported_valid_iff (post : Post) :
  Spec.reported_valid post = true <-> structurally_valid post.
Proof.
  unfold Spec.reported_valid, validate_post_quality.
  destruct (structural_validation_cases post) as [[Hs Hv] | (msg & Hs & Hv)].
  - destruct (quality_body_ok post initial_report _ Hs) as (r' & -> & Hi & _).
    cbn [try_except]. rewrite Hi. cbn. tauto.
  - rewrite (quality_body_raise post initial_report _ Hs). cbn.
    split; [discriminate | tauto].
Qed.

End ValidatorFacts.

(** C9.  The quality assessment always returns a report: no
    [ValidationError] reaches the caller.  When a structural validation
    (of the text, of the hashtags, of the metadata) fails, its message is
    the one error of the report, [is_valid] is false, and the score is not
    computed: the report keeps the score 0.0, no warnings and no metrics. *)
Theorem validation_errors_are_captured (post : Schemas.Post) :
  returns (Validators.validate_post_quality post)
  /\ (forall e, Spec.structural_validation post = Raise e ->
                exists msg, e = ValidationError msg
                            /\ Validators.validate_post_quality post
                               = Ok (Spec.failed_report msg)).
Proof.
  unfold Validators.validate_post_quality.
  destruct (structural_validation_cases post) as [[Hs _] | (msg & Hs & _)].
  - destruct (quality_body_ok post Validators.initial_report _ Hs) as (r' & Hr & _).
    rewrite Hr. split; [now exists r' |].
    intros e He. rewrite Hs in He. discriminate.
  - rewrite (quality_body_raise post Validators.initial_report _ Hs).
    split; [now eexists |].
    intros e He. rewrite Hs in He. injection He as <-.
    exists msg. split; reflexivity.
Qed.

(** The assessment of a post with an empty text. *)
Lemma validation_errors_are_captured_witness :
  Validators.validate_post_quality Samples.empty_text_post
  = Ok (Spec.failed_report "Post text cannot be empty").
Proof.
  destruct (proj2 (validation_errors_are_captured Samples.empty_text_post)
              (ValidationError "Post text cannot be empty") eq_refl)
    as (msg & Hmsg & Hreport).
  injection Hmsg as <-. exact Hreport.
Defined.

(** The regular expression of [validate_hashtags] also accepts a hashtag
    that ends in a line feed. *)
Example hashtag_with_line_feed_accepted :
  Validators.validate_hashtags ["#ai" +:+ PyStr.nl] = Ok true
  /\ Spec.hashtag_pattern ("#ai" +:+ PyStr.nl) = false.
Proof. split; reflexivity. Qed.

(** C10, as stated, fails: a post whose tone is the empty string is
    reported valid, and the empty string is not one of the allowed tones. *)
Lemma empty_tone_reported_valid :
  Spec.reported_valid Samples.empty_tone_post = true
  /\ ~ Spec.valid_as_claimed Samples.empty_tone_post.
Proof.
  split; [vm_compute; reflexivity |].
  intros (_ & _ & _ & Htone & _).
  specialize (Htone "" eq_refl). cbn in Htone.
  repeat (destruct Htone as [Htone | Htone]; [discriminate |]).
  exact Htone.
Qed.

(** C10, amended.  For a document none of whose metadata hashtags ends in
    a line feed, the assessment reports [is_valid = true] exactly when: the
    stripped text is not empty and has at least 10 characters, the raw text
    has at most 3000 characters and at most 10 [#] characters, every
    metadata hashtag starts with [#], has a length in [2, 50] and is a [#]
    followed by letters, digits and underscores only, the topic (if
    present) has at most 100 characters, the tone and the estimated
    engagement, if present and not the empty string, are drawn from their
    allowed sets, and the metadata quality score (if present) lies in
    [0, 10]. *)
Theorem reported_valid_iff_amended (post : Schemas.Post) :
  Forall (fun h => Spec.ends_with_lf h = false)
         (Schemas.hashtags (Schemas.metadata post)) ->
  Spec.reported_valid post = true <-> Spec.valid_amended post.
Proof.
  intros Hlf. rewrite reported_valid_iff.
  unfold Aux.structurally_valid, Aux.metadata_accepted, Spec.valid_amended,
    Spec.topic_ok, Spec.quality_score_ok.
  assert (Hh : Forall Aux.hashtag_accepted (Schemas.hashtags (Schemas.metadata post))
               <-> Forall Spec.hashtag_ok (Schemas.hashtags (Schemas.metadata post))).
  { induction Hlf as [|h hs Hh _ IH]; [split; constructor |].
    split; intros HF; inversion HF; subst; constructor;
      try (now apply hashtag_accepted_ok); now apply IH. }
  rewrite Hh. tauto.
Qed.

(** The amended equivalence at a post with the hashtag "#AI". *)
Lemma reported_valid_iff_amended_witness :
  Spec.reported_valid Samples.tagged_post = true
  <-> Spec.valid_amended Samples.tagged_post.
Proof.
  apply (reported_valid_iff_amended Samples.tagged_post).
  repeat constructor.
Defined.

(* ================================================================== *)
(** * Properties of the tag resolver *)
(* ================================================================== *)

Section TitleFacts.
Import PyStr.

Lemma lower_char_idem (c : ascii) : lower_char (lower_char c) = lower_char c.
Proof. destruct c as [[] [] [] [] [] [] [] []]; reflexivity. Qed.
Lemma upper_char_idem (c : ascii) : upper_char (upper_char c) = upper_char c.
Proof. destruct c as [[] [] [] [] [] [] [] []]; reflexivity. Qed.
Lemma is_alpha_lower_char (c : ascii) : is_alpha (lower_char c) = is_alpha c.
Proof. destruct c as [[] [] [] [] [] [] [] []]; reflexivity. Qed.
Lemma is_alpha_upper_char (c : ascii) : is_alpha (upper_char c) = is_alpha c.
Proof. destruct c as [[] [] [] [] [] [] [] []]; reflexivity. Qed.

Lemma title_from_idem (b : bool) (s : string) :
  title_from b (title_from b s) = title_from b s.
Proof.
  revert b. induction s as [|c r IH]; intros b; [reflexivity |].
  cbn [title_from]. destruct b.
  - rewrite lower_char_idem, is_alpha_lower_char, IH. reflexivity.
  - rewrite upper_char_idem, is_alpha_upper_char, IH. reflexivity.
Qed.

(** On an ASCII string title case is stable under re-application. *)
Lemma title_idem (s : string) : is_ascii s = true -> title (title s) = title s.
Proof. intros _. apply title_from_idem. Qed.

Lemma title_from_length (b : bool) (s : string) :
  String.length (title_from b s) = String.length s.
Proof.
  revert b. induction s as [|c r IH]; intros b; [reflexivity |].
  cbn [title_from String.length]. now rewrite IH.
Qed.

(** On an ASCII string title case keeps the length. *)
Lemma title_length (s : string) :
  is_ascii s = true -> String.length (title s) = String.length s.
Proof. intros _. apply title_from_length. Qed.

End TitleFacts.

Section ResolverFacts.
Import Preprocessing.

Lemma fallback_fold_lookup (tags : list string) (m : gmap string json) (t : string) :
  foldl (fun m tag => <[tag := JStr (PyStr.title tag)]> m) m tags !! t
  = if decide (t ∈ tags) then Some (JStr (PyStr.title t)) else m !! t.
Proof.
  revert m. induction tags as [|x rest IH]; intros m; cbn [foldl].
  - case_decide as H; [inversion H | reflexivity].
  - rewrite IH. destruct (decide (t ∈ rest)) as [Hin|Hnin].
    + rewrite decide_True by (now right). reflexivity.
    + destruct (decide (t = x)) as [->|Hne].
      * rewrite decide_True by (now left). apply lookup_insert_eq.
      * rewrite decide_False; [now apply lookup_insert_ne |].
        intros [Heq|Hr]%elem_of_cons; [now apply Hne | now apply Hnin].
Qed.

Lemma fallback_mapping_lookup (tags : list string) (t : string) :
  fallback_mapping tags !! t
  = if decide (t ∈ tags) then Some (JStr (PyStr.title t)) else None.
Proof. unfold fallback_mapping. now rewrite fallback_fold_lookup, lookup_empty. Qed.

Lemma fallback_mapping_dom (tags : list string) :
  dom (fallback_mapping tags) = list_to_set tags.
Proof.
  apply set_eq. intros t.
  rewrite elem_of_dom, fallback_mapping_lookup, elem_of_list_to_set.
  case_decide; split; intros H'; try tauto; [now eexists | now destruct H'].
Qed.

Lemma fallback_mapping_invariant (tags : list string) :
  Spec.fallback_invariant tags (fallback_mapping tags).
Proof.
  split; [apply fallback_mapping_dom |].
  intros k v. rewrite fallback_mapping_lookup.
  case_decide; [| discriminate]. intros [= <-].
  split; [reflexivity |]. intros Hk.
  split; [now apply title_idem | now apply title_length].
Qed.

End ResolverFacts.

(** The identity fallback, with a client that could be built.  When the
    collaborator call fails, or its reply is parsed neither by the strict
    parse nor after the extraction of the brace-delimited substring, the
    resolver does not raise: it returns the fallback mapping, whose domain
    is the candidate set and in which every candidate maps to its
    [title()] (to itself, when it is already title-cased). *)
Theorem identity_fallback (env : Preprocessing.Collaborator) (tags : list string) :
  Preprocessing.get_groq_client env = Ok tt ->
  Spec.collaborator_fails env tags ->
  Preprocessing.get_unified_tags env tags
  = Ok (Preprocessing.JObj (Preprocessing.fallback_mapping tags))
  /\ dom (Preprocessing.fallback_mapping tags) = list_to_set tags
  /\ (forall t, t ∈ tags ->
        Preprocessing.fallback_mapping tags !! t
        = Some (Preprocessing.JStr (PyStr.title t)))
  /\ (forall t, t ∈ tags -> Spec.title_cased t ->
        Preprocessing.fallback_mapping tags !! t = Some (Preprocessing.JStr t)).
Proof.
  intros Hclient Hfail.
  assert (Hlook : forall t, t ∈ tags ->
            Preprocessing.fallback_mapping tags !! t
            = Some (Preprocessing.JStr (PyStr.title t))).
  { intros t Hin. rewrite fallback_mapping_lookup. now rewrite decide_True. }
  split; [| split; [apply fallback_mapping_dom | split; [exact Hlook |]]].
  - unfold Preprocessing.get_unified_tags, Spec.collaborator_fails in *.
    rewrite Hclient. cbv beta iota delta [mbind result_bind].
    destruct (Preprocessing.chain_invoke env _) as [response|e];
      cbv beta iota delta [try_except]; [| reflexivity].
    destruct (Preprocessing.json_parser_parse env response) as [j|e];
      [destruct Hfail |].
    destruct e; try reflexivity.
    destruct Hfail as [e' ->]. reflexivity.
  - intros t Hin Ht. rewrite Hlook by assumption. unfold Spec.title_cased in Ht.
    now rewrite Ht.
Qed.

(** Scenario 1 of the specification: the candidates "Jobseekers" and
    "Job Hunting" with the collaborator unreachable. *)
Lemma identity_fallback_scenario1 :
  Preprocessing.get_unified_tags Samples.env_unreachable ["Jobseekers"; "Job Hunting"]
  = Ok (Preprocessing.JObj (Preprocessing.fallback_mapping ["Jobseekers"; "Job Hunting"]))
  /\ dom (Preprocessing.fallback_mapping ["Jobseekers"; "Job Hunting"])
     = list_to_set ["Jobseekers"; "Job Hunting"]
  /\ Preprocessing.fallback_mapping ["Jobseekers"; "Job Hunting"] !! "Jobseekers"
     = Some (Preprocessing.JStr "Jobseekers")
  /\ Preprocessing.fallback_mapping ["Jobseekers"; "Job Hunting"] !! "Job Hunting"
     = Some (Preprocessing.JStr "Job Hunting").
Proof.
  destruct (identity_fallback Samples.env_unreachable ["Jobseekers"; "Job Hunting"]
              eq_refl I) as (Hres & Hdom & Hmap & _).
  split; [exact Hres |]. split; [exact Hdom |].
  split; [apply (Hmap "Jobseekers") | apply (Hmap "Job Hunting")];
    repeat constructor.
Defined.

(** C4.  The resolver builds its client before its [try] statement.
    With an empty API key [get_groq_client()] raises [ValueError], and so
    does the resolver on the candidates "Jobseekers" and "Job Hunting" of
    scenario 1, with the collaborator unreachable: it does not return the
    identity fallback.  [generate_post] and [test_llm_connection] build
    the client inside their [try]. *)
Theorem resolver_raises_without_client :
  Spec.collaborator_fails Samples.env_no_client ["Jobseekers"; "Job Hunting"]
  /\ Preprocessing.get_unified_tags Samples.env_no_client ["Jobseekers"; "Job Hunting"]
     = Raise (ValueError "GROQ_API_KEY not found in environment variables. Please set it in your .env file or environment.")
  /\ ~ returns (Preprocessing.get_unified_tags Samples.env_no_client
                  ["Jobseekers"; "Job Hunting"])
  /\ Preprocessing.get_unified_tags Samples.env_unreachable ["Jobseekers"; "Job Hunting"]
     = Ok (Preprocessing.JObj
             (Preprocessing.fallback_mapping ["Jobseekers"; "Job Hunting"])).
Proof.
  split; [exact I |]. split; [reflexivity |]. split; [| reflexivity].
  intros [res Hres]. discriminate Hres.
Qed.




(* ================================================================== *)
(** * Properties of the corpus enricher *)
(* ================================================================== *)

Section FirstSeen.

Lemma first_seen_elem (l : list string) (x : string) :
  x ∈ Spec.first_seen l <-> x ∈ l.
Proof.
  induction l as [|y r IH]; cbn [Spec.first_seen]; [reflexivity |].
  rewrite !elem_of_cons, list_elem_of_filter, IH.
  destruct (decide (x = y)); tauto.
Qed.

Lemma first_seen_NoDup (l : list string) : NoDup (Spec.first_seen l).
Proof.
  induction l as [|y r IH]; cbn [Spec.first_seen]; [constructor |].
  apply NoDup_cons. split.
  - rewrite list_elem_of_filter. tauto.
  - now apply NoDup_filter.
Qed.

(** The dictionary built by [dict.fromkeys] lists its keys in first-seen
    order. *)
Lemma dict_fromkeys_from (keys l : list string) :
  foldl (fun keys k => if bool_decide (k ∈ keys) then keys else keys ++ [k]) keys l
  = keys ++ filter (fun y => y ∉ keys) (Spec.first_seen l).
Proof.
  revert keys. induction l as [|x r IH]; intros keys; cbn [foldl Spec.first_seen].
  - now rewrite filter_nil, app_nil_r.
  - case_bool_decide as Hx; rewrite IH.
    + rewrite filter_cons_False by tauto.
      rewrite list_filter_filter_l; [reflexivity |].
      intros y Hy ->. now apply Hy.
    + rewrite filter_cons_True by assumption.
      rewrite <- app_assoc. cbn [app]. do 2 f_equal.
      rewrite list_filter_filter. apply list_filter_iff.
      intros y. rewrite not_elem_of_app, list_elem_of_singleton. tauto.
Qed.

Lemma dict_fromkeys_first_seen (l : list string) :
  Preprocessing.dict_fromkeys l = Spec.first_seen l.
Proof.
  unfold Preprocessing.dict_fromkeys. rewrite dict_fromkeys_from. cbn [app].
  induction (Spec.first_seen l) as [|y r IH]; [reflexivity |].
  rewrite filter_cons_True by apply not_elem_of_nil. now rewrite IH.
Qed.

Lemma insertion_order_visits : Spec.visits_as_a_set Samples.insertion_order.
Proof.
  intros adds. split; [apply first_seen_NoDup | intros x; apply first_seen_elem].
Qed.

Lemma reverse_order_visits : Spec.visits_as_a_set Samples.reverse_order.
Proof.
  intros adds. unfold Samples.reverse_order. split.
  - rewrite reverse_Permutation. apply first_seen_NoDup.
  - intros x. rewrite elem_of_reverse. apply first_seen_elem.
Qed.

End FirstSeen.

Section EnrichFacts.
Import Preprocessing.
Variable set_iter : list string -> list string.
Variable mapping : gmap string string.

(** ** Running the primitives *)

Lemma run_bind {A B} (m : M A) (k : A -> M B) (h h1 : store) (a : A) :
  m h = (Ok a, h1) -> (m ≫= k) h = k a h1.
Proof. unfold mbind, M_bind. now intros ->. Qed.

Lemma run_items (h : store) (l : loc) (d : gmap string value) :
  objects h !! l = Some d -> items l h = (Ok d, h).
Proof. unfold items. now intros ->. Qed.

Lemma run_has_key (h : store) (l : loc) (d : gmap string value) (k : string) :
  objects h !! l = Some d ->
  has_key l k h = (Ok (bool_decide (is_Some (d !! k))), h).
Proof.
  intros H. unfold has_key. now rewrite (run_bind _ _ _ _ _ (run_items _ _ _ H)).
Qed.

Lemma run_getitem (h : store) (l : loc) (d : gmap string value) (k : string)
    (v : value) :
  objects h !! l = Some d -> d !! k = Some v -> getitem l k h = (Ok v, h).
Proof.
  intros H Hk. unfold getitem. rewrite (run_bind _ _ _ _ _ (run_items _ _ _ H)).
  now rewrite Hk.
Qed.

Lemma run_get_str (h : store) (l : loc) (d : gmap string value) (k s : string) :
  objects h !! l = Some d -> d !! k = Some (VStr s) ->
  (getitem l k ≫= as_str) h = (Ok s, h).
Proof. intros H Hk. now rewrite (run_bind _ _ _ _ _ (run_getitem _ _ _ _ _ H Hk)). Qed.

Lemma run_get_dict (h : store) (l : loc) (d : gmap string value) (k : string)
    (m : loc) :
  objects h !! l = Some d -> d !! k = Some (VDict m) ->
  (getitem l k ≫= as_dict) h = (Ok m, h).
Proof. intros H Hk. now rewrite (run_bind _ _ _ _ _ (run_getitem _ _ _ _ _ H Hk)). Qed.

Lemma run_get_list (h : store) (l : loc) (d : gmap string value) (k : string)
    (vs : list value) :
  objects h !! l = Some d -> d !! k = Some (VList vs) ->
  (getitem l k ≫= as_list) h = (Ok vs, h).
Proof. intros H Hk. now rewrite (run_bind _ _ _ _ _ (run_getitem _ _ _ _ _ H Hk)). Qed.

Lemma run_setitem (h : store) (l : loc) (d : gmap string value) (k : string)
    (v : value) :
  objects h !! l = Some d ->
  setitem l k v h
  = (Ok tt, {| next_loc := next_loc h; objects := <[l := <[k := v]> d]> (objects h) |}).
Proof. unfold setitem. now intros ->. Qed.

Lemma run_add_hashtags (hs : list string) (vs : list value) (adds : list string)
    (h : store) :
  Raw.strings_of vs = Some hs ->
  add_hashtags vs adds h = (Ok (adds ++ map normalize_hashtag hs), h).
Proof.
  revert hs adds. induction vs as [|v rest IH]; intros hs adds Hs.
  - injection Hs as <-. cbn. now rewrite app_nil_r.
  - destruct v; try discriminate. cbn in Hs.
    destruct (Raw.strings_of rest) as [hs'|] eqn:Hr; [| discriminate].
    injection Hs as <-. cbn [add_hashtags as_str].
    erewrite run_bind by reflexivity. rewrite (IH hs' _ eq_refl).
    now rewrite <- app_assoc.
Qed.

(** The tags that the loop body collects, for a well-typed metadata
    object. *)
Lemma run_collect (h : store) (m : loc) (md : gmap string value)
    (topic : option string) (hashtags : list string) {B} (k : list string -> M B) :
  objects h !! m = Some md ->
  Raw.tags_of md = Some (topic, hashtags) ->
  (has_topic ← has_key m "topic";
   adds ← (if has_topic : bool
           then topic ← getitem m "topic" ≫= as_str;
                mret ([] ++ [normalize_topic topic])
           else mret []);
   has_hashtags ← has_key m "hashtags";
   adds ← (if has_hashtags : bool
           then hashtags ← getitem m "hashtags" ≫= as_list;
                add_hashtags hashtags adds
           else mret adds);
   k adds) h
  = k (map Spec.normalize (Spec.collected topic hashtags)) h.
Proof.
  intros Hm Htags. unfold Raw.tags_of, Raw.topic_of, Raw.hashtags_of in Htags.
  erewrite run_bind by (eapply run_has_key; eassumption).
  destruct (md !! "topic") as [vt|] eqn:Ht.
  - destruct vt; try discriminate. cbn in Htags.
    rewrite bool_decide_true by eauto.
    erewrite run_bind
      by (erewrite run_bind by (eapply run_get_str; eassumption); reflexivity).
    erewrite run_bind by (eapply run_has_key; eassumption).
    destruct (md !! "hashtags") as [vh|] eqn:Hh.
    + destruct vh; try discriminate.
      destruct (Raw.strings_of l) as [hs|] eqn:Hs; [| discriminate].
      injection Htags as <- <-.
      rewrite bool_decide_true by eauto.
      erewrite run_bind
        by (erewrite run_bind by (eapply run_get_list; eassumption);
            apply run_add_hashtags; eassumption).
      unfold Spec.collected. rewrite map_app, !map_map. reflexivity.
    + injection Htags as <- <-.
      rewrite bool_decide_false by (intros [? [=]]).
      erewrite run_bind by reflexivity. reflexivity.
  - cbn in Htags. rewrite bool_decide_false by (intros [? [=]]).
    erewrite run_bind by reflexivity.
    erewrite run_bind by (eapply run_has_key; eassumption).
    destruct (md !! "hashtags") as [vh|] eqn:Hh.
    + destruct vh; try discriminate.
      destruct (Raw.strings_of l) as [hs|] eqn:Hs; [| discriminate].
      injection Htags as <- <-.
      rewrite bool_decide_true by eauto.
      erewrite run_bind
        by (erewrite run_bind by (eapply run_get_list; eassumption);
            apply run_add_hashtags; eassumption).
      unfold Spec.collected, option_list. cbn [option_rect app].
      rewrite map_map. reflexivity.
    + injection Htags as <- <-.
      rewrite bool_decide_false by (intros [? [=]]).
      erewrite run_bind by reflexivity. reflexivity.
Qed.

(** ** Running the loop body *)

(** The statements that fill [current_post]: the store they reach, when the
    post and its metadata are well-typed. *)
Lemma fill_post_run (h : store) (cur m : loc) (dc md : gmap string value)
    (text : string) (topic : option string) (hashtags : list string) :
  objects h !! cur = Some dc ->
  dc !! "text" = Some (VStr text) ->
  dc !! "metadata" = Some (VDict m) ->
  objects h !! m = Some md ->
  cur <> m ->
  (cur < next_loc h)%positive -> (m < next_loc h)%positive ->
  Raw.tags_of md = Some (topic, hashtags) ->
  exists h',
    fill_post set_iter mapping cur h = (Ok tt, h')
    /\ objects h' !! m
       = Some (Raw.enriched_metadata set_iter mapping text topic hashtags md)
    /\ (exists dc', objects h' !! cur = Some dc'
                    /\ forall k, k <> "engagement" -> dc' !! k = dc !! k)
    /\ (forall l', (l' < next_loc h)%positive -> l' <> m -> l' <> cur ->
                   objects h' !! l' = objects h !! l').
Proof.
  intros Hcur Htext Hmeta Hm Hne Hcl Hml Htags.
  destruct h as [n objs]. cbn [next_loc objects] in *.
  unfold fill_post.
  erewrite run_bind by (eapply run_get_str; eassumption).
  erewrite run_bind by (eapply run_get_dict; eassumption).
  erewrite run_bind by (eapply run_setitem; eassumption).
  cbn [next_loc objects].
  erewrite run_bind
    by (eapply run_get_dict;
        [cbn [objects]; rewrite lookup_insert_ne by congruence; eassumption
        | eassumption]).
  erewrite run_bind by (eapply run_setitem; cbn [objects]; apply lookup_insert_eq).
  cbn [next_loc objects].
  erewrite run_bind
    by (eapply run_get_dict;
        [cbn [objects]; rewrite !lookup_insert_ne by congruence; eassumption
        | eassumption]).
  erewrite run_collect with (topic := topic) (hashtags := hashtags).
  2: { cbn [objects]. apply lookup_insert_eq. }
  2: { unfold Raw.tags_of, Raw.topic_of, Raw.hashtags_of in *.
       rewrite !lookup_insert_ne by discriminate. exact Htags. }
  erewrite run_bind by (eapply run_setitem; cbn [objects]; apply lookup_insert_eq).
  cbn [next_loc objects].
  rewrite dict_fromkeys_first_seen.
  erewrite run_bind
    by (eapply run_has_key; cbn [objects];
        rewrite !lookup_insert_ne by congruence; eassumption).
  fold (Spec.project mapping).
  fold (Spec.unified_tags_visiting set_iter mapping topic hashtags).
  fold (Raw.enriched_metadata set_iter mapping text topic hashtags md).
  set (md' := Raw.enriched_metadata set_iter mapping text topic hashtags md).
  destruct (bool_decide (is_Some (dc !! "engagement"))); cbn [negb].
  - eexists. split; [reflexivity |]. cbn [objects].
    split; [apply lookup_insert_eq |]. split.
    + exists dc. split; [| reflexivity].
      rewrite !lookup_insert_ne by congruence. exact Hcur.
    + intros l' _ Hl'm _. now rewrite !lookup_insert_ne by congruence.
  - erewrite run_bind by reflexivity. cbn [next_loc objects].
    erewrite run_setitem
      by (cbn [objects]; rewrite !lookup_insert_ne by (congruence || lia);
          eassumption).
    eexists. split; [reflexivity |]. cbn [objects].
    split; [rewrite !lookup_insert_ne by (congruence || lia); apply lookup_insert_eq |].
    split.
    + eexists. split; [apply lookup_insert_eq |].
      intros k Hk. now rewrite lookup_insert_ne by congruence.
    + intros l' Hl' Hl'm Hl'c.
      now rewrite !lookup_insert_ne by (congruence || lia).
Qed.

(** A post that has a metadata object: the body of the loop writes into
    that object, which the copy shares with the input post. *)
Lemma enrich_post_with_metadata (h : store) (l m : loc) (d md : gmap string value)
    (text : string) (topic : option string) (hashtags : list string) :
  Raw.store_ok h ->
  objects h !! l = Some d ->
  d !! "text" = Some (VStr text) ->
  d !! "metadata" = Some (VDict m) ->
  objects h !! m = Some md ->
  Raw.tags_of md = Some (topic, hashtags) ->
  exists h',
    enrich_post set_iter mapping (VDict l) h = (Ok (VDict (next_loc h)), h')
    /\ objects h' !! m
       = Some (Raw.enriched_metadata set_iter mapping text topic hashtags md)
    /\ (exists dc', objects h' !! next_loc h = Some dc'
                    /\ forall k, k <> "engagement" -> dc' !! k = d !! k)
    /\ (forall l', is_Some (objects h !! l') -> l' <> m ->
                   objects h' !! l' = objects h !! l').
Proof.
  intros Hok Hl Htext Hmeta Hm Htags.
  assert (Hml : (m < next_loc h)%positive) by (apply Hok; eauto).
  unfold enrich_post. cbn [as_dict].
  erewrite run_bind by reflexivity.
  erewrite run_bind by (apply run_items; eassumption).
  erewrite run_bind by reflexivity.
  erewrite run_bind by (eapply run_has_key; cbn [objects]; apply lookup_insert_eq).
  rewrite Hmeta, bool_decide_true by eauto. cbn [negb].
  erewrite run_bind by reflexivity.
  destruct (fill_post_run
              {| next_loc := Pos.succ (next_loc h);
                 objects := <[next_loc h := d]> (objects h) |}
              (next_loc h) m d md text topic hashtags)
    as (h' & Hrun & Hmd & Hcur & Hframe); cbn [next_loc objects].
  1: apply lookup_insert_eq.
  1-2: assumption.
  1: rewrite lookup_insert_ne by lia; assumption.
  1-3: lia.
  1: assumption.
  exists h'. rewrite (run_bind _ _ _ _ _ Hrun).
  split; [reflexivity |]. split; [exact Hmd |]. split; [exact Hcur |].
  intros l' Hl' Hne. specialize (Hok l' Hl').
  cbn [next_loc objects] in Hframe.
  rewrite Hframe by lia. apply lookup_insert_ne. lia.
Qed.

(** A post without a metadata entry: the copy gets a new metadata object
    and the objects of the input are left as they were. *)
Lemma enrich_post_without_metadata (h : store) (l : loc) (d : gmap string value)
    (text : string) :
  Raw.store_ok h ->
  objects h !! l = Some d ->
  d !! "text" = Some (VStr text) ->
  d !! "metadata" = None ->
  exists h',
    enrich_post set_iter mapping (VDict l) h = (Ok (VDict (next_loc h)), h')
    /\ objects h' !! Pos.succ (next_loc h)
       = Some (Raw.enriched_metadata set_iter mapping text None [] ∅)
    /\ (exists dc', objects h' !! next_loc h = Some dc'
                    /\ dc' !! "metadata" = Some (VDict (Pos.succ (next_loc h))))
    /\ (forall l', is_Some (objects h !! l') -> objects h' !! l' = objects h !! l').
Proof.
  intros Hok Hl Htext Hmeta.
  unfold enrich_post. cbn [as_dict].
  erewrite run_bind by reflexivity.
  erewrite run_bind by (apply run_items; eassumption).
  erewrite run_bind by reflexivity.
  erewrite run_bind by (eapply run_has_key; cbn [objects]; apply lookup_insert_eq).
  rewrite Hmeta, bool_decide_false by (intros [? [=]]). cbn [negb].
  erewrite run_bind
    by (erewrite run_bind by reflexivity;
        eapply run_setitem; cbn [next_loc objects];
        rewrite lookup_insert_ne by lia; apply lookup_insert_eq).
  cbn [next_loc objects].
  destruct (fill_post_run
              {| next_loc := Pos.succ (Pos.succ (next_loc h));
                 objects :=
                   <[next_loc h := <["metadata" := VDict (Pos.succ (next_loc h))]> d]>
                     (<[Pos.succ (next_loc h) := ∅]>
                        (<[next_loc h := d]> (objects h))) |}
              (next_loc h) (Pos.succ (next_loc h))
              (<["metadata" := VDict (Pos.succ (next_loc h))]> d) ∅ text None [])
    as (h' & Hrun & Hmd & (dc' & Hdc' & Hkeep) & Hframe); cbn [next_loc objects].
  1: apply lookup_insert_eq.
  1: rewrite lookup_insert_ne by discriminate; assumption.
  1: apply lookup_insert_eq.
  1: rewrite lookup_insert_ne by lia; apply lookup_insert_eq.
  1-3: lia.
  1: reflexivity.
  exists h'. rewrite (run_bind _ _ _ _ _ Hrun).
  split; [reflexivity |]. split; [exact Hmd |]. split.
  - exists dc'. split; [exact Hdc' |].
    rewrite Hkeep by discriminate. apply lookup_insert_eq.
  - intros l' Hl'. specialize (Hok l' Hl').
    cbn [next_loc objects] in Hframe.
    rewrite Hframe by lia. now rewrite !lookup_insert_ne by lia.
Qed.

Lemma unified_tags_elements (topic : option string) (hashtags : list string) :
  Spec.visits_as_a_set set_iter ->
  forall x, x ∈ Spec.unified_tags_visiting set_iter mapping topic hashtags
            <-> exists raw, raw ∈ Spec.collected topic hashtags
                            /\ x = Spec.project mapping (Spec.normalize raw).
Proof.
  intros Hset x. unfold Spec.unified_tags_visiting.
  rewrite first_seen_elem, list_elem_of_In, in_map_iff.
  destruct (Hset (map Spec.normalize (Spec.collected topic hashtags))) as [_ Hel].
  split.
  - intros (t & <- & Ht). apply list_elem_of_In in Ht. apply Hel in Ht.
    apply list_elem_of_In in Ht. apply in_map_iff in Ht as (raw & <- & Hraw).
    exists raw. split; [now apply list_elem_of_In | reflexivity].
  - intros (raw & Hraw & ->). exists (Spec.normalize raw). split; [reflexivity |].
    apply list_elem_of_In. apply Hel. apply list_elem_of_In. apply in_map.
    now apply list_elem_of_In.
Qed.

End EnrichFacts.

(** C3.  The claim: enrichment never changes its input documents.  The
    loop body copies the post with [post.copy()], which copies the top
    level only: the copy and the input post share one metadata object, and
    the body writes [line_count], [language] and [unified_tags] into it
    ([enrich_post_with_metadata]; a post without metadata is left as it
    was, [enrich_post_without_metadata]).  On the corpus of one post
    [{"text": "Hello", "metadata": {"topic": "Startup", "hashtags":
    ["#AI"]}}] the metadata object of the input post, at location 2, has
    none of the three keys before the call and all of them after it. *)
Theorem enrich_posts_writes_into_input :
  fst (Preprocessing.enrich_posts Samples.insertion_order ∅
         Samples.raw_posts Samples.raw_store)
  = Ok [Preprocessing.VDict 3%positive]
  /\ Preprocessing.objects Samples.raw_store !! 1%positive ≫= (.!! "metadata")
     = Some (Preprocessing.VDict 2%positive)
  /\ (forall k, k ∈ ["line_count"; "language"; "unified_tags"] ->
        Preprocessing.objects Samples.raw_store !! 2%positive ≫= (.!! k) = None)
  /\ Preprocessing.objects
       (snd (Preprocessing.enrich_posts Samples.insertion_order ∅
               Samples.raw_posts Samples.raw_store)) !! 2%positive
     ≫= (.!! "line_count") = Some (Preprocessing.VInt 1)
  /\ Preprocessing.objects
       (snd (Preprocessing.enrich_posts Samples.insertion_order ∅
               Samples.raw_posts Samples.raw_store)) !! 2%positive
     ≫= (.!! "language") = Some (Preprocessing.VStr "English")
  /\ Preprocessing.objects
       (snd (Preprocessing.enrich_posts Samples.insertion_order ∅
               Samples.raw_posts Samples.raw_store)) !! 2%positive
     ≫= (.!! "unified_tags")
     = Some (Preprocessing.VList [Preprocessing.VStr "Startup"; Preprocessing.VStr "Ai"]).
Proof.
  split; [vm_compute; reflexivity |].
  split; [vm_compute; reflexivity |].
  split.
  { intros k Hk. repeat (apply elem_of_cons in Hk as [-> | Hk]; [vm_compute; reflexivity |]).
    inversion Hk. }
  repeat split; vm_compute; reflexivity.
Qed.

(** C7, as stated, fails: the tags are collected in a [set], and the
    order in which the set is visited is not the order of collection.  With
    a set that is visited in the reverse of that order, the post with topic
    "Startup" and hashtag "#AI" gets the tags "Ai", "Startup", and the
    first-seen order of the collection is "Startup", "Ai". *)
Lemma unified_tags_follow_the_set :
  Spec.visits_as_a_set Samples.reverse_order
  /\ Raw.raw_tags Samples.raw_store
       (<["text" := Preprocessing.VStr "Hello"]>
          (<["metadata" := Preprocessing.VDict 2%positive]> ∅))
     = Some (Some "Startup", ["#AI"])
  /\ Preprocessing.objects
       (snd (Preprocessing.enrich_posts Samples.reverse_order ∅
               Samples.raw_posts Samples.raw_store)) !! 2%positive
     ≫= (.!! "unified_tags")
     = Some (Preprocessing.VList [Preprocessing.VStr "Ai"; Preprocessing.VStr "Startup"])
  /\ Spec.unified_tags_in_order ∅ (Some "Startup") ["#AI"] = ["Startup"; "Ai"].
Proof.
  split; [apply reverse_order_visits |].
  repeat split; vm_compute; reflexivity.
Qed.

(** C7, amended.  For every raw document with a text, whose metadata (if
    present) is an object with a string topic (if present) and a list of
    string hashtags (if present), the loop body returns an enriched copy
    whose metadata has [unified_tags] equal to: the topic (one entry) plus
    each hashtag with the marker removed, each normalized by trim and
    title case and collected in a set; each element of the set, in the
    order in which the set is visited, projected through the mapping with
    itself as fallback; deduplicated in first-seen order of that visit.
    The result has no duplicates and, whatever the order of the visit, its
    elements are exactly the projections of the normalized topic and
    hashtags. *)
Theorem enrich_post_unified_tags (set_iter : list string -> list string)
    (mapping : gmap string string) (h : Preprocessing.store) (l : Preprocessing.loc)
    (d : gmap string Preprocessing.value) (text : string)
    (topic : option string) (hashtags : list string) :
  Raw.store_ok h ->
  Preprocessing.objects h !! l = Some d ->
  d !! "text" = Some (Preprocessing.VStr text) ->
  Raw.raw_tags h d = Some (topic, hashtags) ->
  (exists cur m h' dc' md',
      Preprocessing.enrich_post set_iter mapping (Preprocessing.VDict l) h
      = (Ok (Preprocessing.VDict cur), h')
      /\ Preprocessing.objects h' !! cur = Some dc'
      /\ dc' !! "metadata" = Some (Preprocessing.VDict m)
      /\ Preprocessing.objects h' !! m = Some md'
      /\ md' !! "unified_tags"
         = Some (Preprocessing.VList
                   (map Preprocessing.VStr
                      (Spec.unified_tags_visiting set_iter mapping topic hashtags))))
  /\ NoDup (Spec.unified_tags_visiting set_iter mapping topic hashtags)
  /\ (Spec.visits_as_a_set set_iter ->
      forall x, x ∈ Spec.unified_tags_visiting set_iter mapping topic hashtags
                <-> exists raw, raw ∈ Spec.collected topic hashtags
                                /\ x = Spec.project mapping (Spec.normalize raw)).
Proof.
  intros Hok Hl Htext Hraw.
  split; [| split; [apply first_seen_NoDup | apply unified_tags_elements]].
  unfold Raw.raw_tags in Hraw.
  destruct (d !! "metadata") as [vm|] eqn:Hmeta.
  - destruct vm; try discriminate.
    destruct (Preprocessing.objects h !! l0) as [md|] eqn:Hmd; [| discriminate].
    cbn in Hraw.
    destruct (enrich_post_with_metadata set_iter mapping h l l0 d md text topic
                hashtags Hok Hl Htext Hmeta Hmd Hraw)
      as (h' & Hrun & Hm' & (dc' & Hdc' & Hkeep) & _).
    eexists (Preprocessing.next_loc h), l0, h', dc', _.
    split; [exact Hrun |]. split; [exact Hdc' |].
    split; [now rewrite Hkeep by discriminate |].
    split; [exact Hm' |]. apply lookup_insert_eq.
  - injection Hraw as <- <-.
    destruct (enrich_post_without_metadata set_iter mapping h l d text
                Hok Hl Htext Hmeta)
      as (h' & Hrun & Hm' & (dc' & Hdc' & Hmeta') & _).
    eexists (Preprocessing.next_loc h), (Pos.succ (Preprocessing.next_loc h)), h', dc', _.
    split; [exact Hrun |]. split; [exact Hdc' |].
    split; [exact Hmeta' |].
    split; [exact Hm' |]. apply lookup_insert_eq.
Qed.

(** The amended statement at the post of the sample corpus, with the set
    visited in the order of the first [add]s. *)
Lemma enrich_post_unified_tags_witness :
  (exists cur m h' dc' md',
      Preprocessing.enrich_post Samples.insertion_order ∅
        (Preprocessing.VDict 1%positive) Samples.raw_store
      = (Ok (Preprocessing.VDict cur), h')
      /\ Preprocessing.objects h' !! cur = Some dc'
      /\ dc' !! "metadata" = Some (Preprocessing.VDict m)
      /\ Preprocessing.objects h' !! m = Some md'
      /\ md' !! "unified_tags"
         = Some (Preprocessing.VList
                   (map Preprocessing.VStr
                      (Spec.unified_tags_visiting Samples.insertion_order ∅
                         (Some "Startup") ["#AI"]))))
  /\ NoDup (Spec.unified_tags_visiting Samples.insertion_order ∅ (Some "Startup") ["#AI"])
  /\ (forall x,
        x ∈ Spec.unified_tags_visiting Samples.insertion_order ∅ (Some "Startup") ["#AI"]
        <-> exists raw, raw ∈ Spec.collected (Some "Startup") ["#AI"]
                        /\ x = Spec.project ∅ (Spec.normalize raw)).
Proof.
  destruct (enrich_post_unified_tags Samples.insertion_order ∅ Samples.raw_store
              1%positive
              (<["text" := Preprocessing.VStr "Hello"]>
                 (<["metadata" := Preprocessing.VDict 2%positive]> ∅))
              "Hello" (Some "Startup") ["#AI"])
    as (Hrun & Hnodup & Helems).
  - intros l' [d' Hl']. unfold Samples.raw_store in *. cbn [Preprocessing.objects
      Preprocessing.next_loc] in *.
    destruct (decide (l' = 1%positive)) as [-> | H1]; [reflexivity |].
    destruct (decide (l' = 2%positive)) as [-> | H2]; [reflexivity |].
    rewrite !lookup_insert_ne, lookup_empty in Hl' by congruence. discriminate.
  - vm_compute. reflexivity.
  - vm_compute. reflexivity.
  - vm_compute. reflexivity.
  - split; [exact Hrun |]. split; [exact Hnodup |].
    exact (Helems insertion_order_visits).
Defined.

(* ================================================================== *)
(** * Further properties of the exemplar selector *)
(* ================================================================== *)

Section SelectorOrder.
Import FewShot.

Lemma bool_filter_sublist {A} (f : A -> bool) (l : list A) :
  List.filter f l `sublist_of` l.
Proof.
  induction l as [|x l IH]; cbn [List.filter]; [constructor |].
  destruct (f x); now constructor.
Qed.

Lemma bool_filter_nil {A} (f : A -> bool) (l : list A) :
  List.filter f l = [] <-> forall x, x ∈ l -> f x = false.
Proof.
  induction l as [|x l IH]; cbn [List.filter].
  - split; [intros _ x Hx; inversion Hx | reflexivity].
  - destruct (f x) eqn:Hfx.
    + split; [discriminate |]. intros H. specialize (H x (list_elem_of_here _ _)).
      congruence.
    + rewrite IH. split.
      * intros H y [-> | Hy]%elem_of_cons; auto.
      * intros H y Hy. apply H. now right.
Qed.

(** The first-K form of the selector. *)
Lemma selector_take (length_category language tag : string)
    (posts : list Document) (k : Z) :
  get_filtered_posts length_category language tag posts k
  = take (Z.to_nat (Z.max 1 k))
      (List.filter (post_matches length_category language tag) posts).
Proof. apply get_filtered_posts_take. Qed.

Lemma lower_idem (s : string) : PyStr.lower (PyStr.lower s) = PyStr.lower s.
Proof.
  unfold PyStr.lower. induction s as [|c r IH]; [reflexivity |].
  cbn [PyStr.map_chars]. now rewrite lower_char_idem, IH.
Qed.

End SelectorOrder.

(** The selector returns the first [max(1, max_examples)] matching
    documents, in the order of the corpus: its result is a subsequence of
    the corpus, and asking for more examples extends the result. *)
Theorem selector_first_matches (length_category language tag : string)
    (posts : list FewShot.Document) (k k' : Z) :
  FewShot.get_filtered_posts length_category language tag posts k
  = take (Z.to_nat (Z.max 1 k))
      (List.filter (FewShot.post_matches length_category language tag) posts)
  /\ FewShot.get_filtered_posts length_category language tag posts k
     `sublist_of` posts
  /\ (k <= k' ->
      FewShot.get_filtered_posts length_category language tag posts k
      `prefix_of` FewShot.get_filtered_posts length_category language tag posts k').
Proof.
  split; [apply selector_take |]. split.
  - rewrite selector_take.
    etransitivity; [apply sublist_take | apply bool_filter_sublist].
  - intros Hk. rewrite !selector_take.
    replace (Z.to_nat (Z.max 1 k))
      with (Z.to_nat (Z.max 1 k) `min` Z.to_nat (Z.max 1 k'))%nat by lia.
    rewrite <- take_take. apply prefix_take.
Qed.

(** The selector returns the empty list exactly when no document of the
    corpus matches the request, whatever [max_examples] is. *)
Theorem selector_empty_iff (length_category language tag : string)
    (posts : list FewShot.Document) (k : Z) :
  FewShot.get_filtered_posts length_category language tag posts k = []
  <-> forall post, post ∈ posts ->
                   FewShot.post_matches length_category language tag post = false.
Proof.
  rewrite selector_take, <- bool_filter_nil.
  split.
  - intros [H | H]%take_nil_inv; [lia | exact H].
  - intros ->. apply take_nil.
Qed.

(** The language and the tag of the request are compared without regard
    to case: two requests whose languages and tags have the same lower-case
    form select the same documents. *)
Theorem selector_ignores_case (length_category language language' tag tag' : string)
    (posts : list FewShot.Document) (k : Z) :
  PyStr.lower language' = PyStr.lower language ->
  PyStr.lower tag' = PyStr.lower tag ->
  FewShot.get_filtered_posts length_category language' tag' posts k
  = FewShot.get_filtered_posts length_category language tag posts k.
Proof.
  intros Hl Ht. rewrite !selector_take. f_equal.
  apply List.filter_ext. intros post.
  unfold FewShot.post_matches, FewShot.tag_matches, FewShot.language_matches.
  now rewrite Hl, Ht.
Qed.

Lemma selector_ignores_case_witness :
  FewShot.get_filtered_posts "Short" "ENGLISH" "startup" [Samples.startup_doc] 2
  = FewShot.get_filtered_posts "Short" "English" "Startup" [Samples.startup_doc] 2.
Proof.
  apply (selector_ignores_case "Short" "English" "ENGLISH" "Startup" "startup");
    reflexivity.
Defined.

(** The length category is compared as it is: a category that
    [validate_length_category] rejects selects no document. *)
Theorem selector_rejected_category (length_category language tag : string)
    (posts : list FewShot.Document) (k : Z) (e : exn) :
  Validators.validate_length_category length_category = Raise e ->
  FewShot.get_filtered_posts length_category language tag posts k = [].
Proof.
  intros Hrej. rewrite selector_take.
  enough (Hnone : List.filter (FewShot.post_matches length_category language tag) posts
                  = []) by (rewrite Hnone; apply take_nil).
  apply bool_filter_nil. intros post _.
  unfold FewShot.post_matches, FewShot.length_matches.
  unfold Validators.validate_length_category, Validators.str_in in Hrej.
  cbn [existsb] in Hrej.
  destruct (String.eqb length_category "Short");
    [discriminate | destruct (String.eqb length_category "Medium");
                    [discriminate | destruct (String.eqb length_category "Long");
                                    [discriminate |]]].
  cbn. now rewrite andb_false_r.
Qed.

Lemma selector_rejected_category_witness :
  FewShot.get_filtered_posts "short" "English" "Startup" [Samples.startup_doc] 2 = [].
Proof.
  apply (selector_rejected_category "short" "English" "Startup" [Samples.startup_doc] 2
           (ValidationError
              "Invalid length category. Must be one of: ['Short', 'Medium', 'Long']")).
  reflexivity.
Defined.

Lemma selector_first_matches_witness :
  FewShot.get_filtered_posts "Short" "English" "Startup"
    [Samples.startup_doc; Samples.startup_doc] 1
  `prefix_of`
  FewShot.get_filtered_posts "Short" "English" "Startup"
    [Samples.startup_doc; Samples.startup_doc] 2.
Proof.
  apply (selector_first_matches "Short" "English" "Startup"
           [Samples.startup_doc; Samples.startup_doc] 1 2).
  lia.
Defined.

(* ================================================================== *)
(** * Further properties of the quality scorer *)
(* ================================================================== *)

Section ScoreSum.
Import Schemas Validators.
#[local] Open Scope Q_scope.

Lemma if_points_le (b : bool) (v : Q) : 0 <= v -> (if b then v else 0) <= v.
Proof. intros Hv. destruct b; [apply Qle_refl | exact Hv]. Qed.

Lemma if_points_pair_le (b1 b2 : bool) (v1 v2 : Q) :
  (b1 = true -> b2 = false) -> 0 <= v2 -> v2 <= v1 ->
  (if b1 then v1 else 0) + (if b2 then v2 else 0) <= v1.
Proof.
  intros Hx H0 H12. destruct b1; [rewrite Hx by reflexivity | destruct b2]; lra.
Qed.

Lemma hashtag_rows_exclusive' (n : Z) :
  ((1 <=? n) && (n <=? 5))%Z = true -> (5 <? n)%Z = false.
Proof.
  destruct (Z.leb_spec 1 n), (Z.leb_spec n 5), (Z.ltb_spec 5 n); simpl; intros;
    try reflexivity; try discriminate; lia.
Qed.

(** The signals never add up to more than 10. *)
Lemma signal_sum_le_10 (post : Post) : Spec.signal_sum post <= 10.
Proof.
  unfold Spec.signal_sum, Spec.signal_table, Spec.points. cbn [fold_right fst snd].
  pose proof (if_points_pair_le _ _ 2 1
                (length_rows_exclusive (word_count post)) ltac:(lra) ltac:(lra)) as H12.
  pose proof (if_points_pair_le _ _ 1 (1 # 2)
                (hashtag_rows_exclusive' (hashtag_count post)) ltac:(lra) ltac:(lra)) as H67.
  repeat match goal with
         | |- context [if ?b then ?v else 0] =>
             lazymatch goal with
             | _ : (if b then v else 0) <= v |- _ => fail
             | _ => idtac
             end;
             let H := fresh "Hb" in
             assert (H : (if b then v else 0) <= v) by (apply if_points_le; lra);
             generalize dependent (if b then v else 0); intros ?x
         end.
  lra.
Qed.

Lemma calculate_is_sum (post : Post) :
  calculate_post_quality_score post == Spec.signal_sum post.
Proof.
  rewrite calculate_is_table. unfold Spec.score.
  apply Q.min_l, signal_sum_le_10.
Qed.

(** Half-integers. *)
Lemma half_integer_plus (a b : Q) :
  (exists n : Z, a == n # 2) -> (exists n : Z, b == n # 2) ->
  exists n : Z, a + b == n # 2.
Proof.
  intros [n Hn] [m Hm]. exists (n + m)%Z. rewrite Hn, Hm.
  unfold Qeq, Qplus. cbn. lia.
Qed.

Lemma signal_sum_half_integer (post : Post) :
  exists n : Z, Spec.signal_sum post == n # 2.
Proof.
  unfold Spec.signal_sum.
  assert (Hrows : Forall (fun row => exists n : Z, snd row == n # 2) Spec.signal_table).
  { unfold Spec.signal_table.
    repeat (constructor; [cbn [snd];
                          first [now exists 4%Z | now exists 2%Z | now exists 1%Z] |]).
    constructor. }
  induction Hrows as [|row rows Hrow _ IH]; cbn [fold_right].
  - now exists 0%Z.
  - apply half_integer_plus; [| exact IH].
    unfold Spec.points. destruct (fst row post); [exact Hrow | now exists 0%Z].
Qed.

End ScoreSum.

(** The cap of [calculate_post_quality_score] never changes the score:
    the signals add up to at most 10, so the score is their sum. *)
Theorem score_cap_is_idle (post : Schemas.Post) :
  (Spec.signal_sum post <= 10)%Q
  /\ (Validators.calculate_post_quality_score post == Spec.signal_sum post)%Q.
Proof. split; [apply signal_sum_le_10 | apply calculate_is_sum]. Qed.

(** Every score is a multiple of one half between 0 and 10. *)
Theorem score_is_half_integer (post : Schemas.Post) :
  exists n : Z, (0 <= n <= 20)%Z
                /\ (Validators.calculate_post_quality_score post == n # 2)%Q.
Proof.
  destruct (signal_sum_half_integer post) as [n Hn].
  exists n. rewrite calculate_is_sum. split; [| exact Hn].
  pose proof (calculate_bounds post) as [Hlo Hhi].
  rewrite calculate_is_sum, Hn in Hlo, Hhi.
  unfold Qle in Hlo, Hhi. cbn in Hlo, Hhi. lia.
Qed.

(** What the metadata hashtags are worth: against the same post without
    hashtags, one to five hashtags add 1.5 points and more than five add
    1.0 point. *)
Theorem hashtags_add_points (p q : Schemas.Post) :
  Schemas.text p = Schemas.text q ->
  Schemas.word_count p = Schemas.word_count q ->
  Schemas.line_count p = Schemas.line_count q ->
  Schemas.hashtag_count q = 0 ->
  (1 <= Schemas.hashtag_count p <= 5 ->
   (Validators.calculate_post_quality_score p
    == Validators.calculate_post_quality_score q + (3 # 2))%Q)
  /\ (5 < Schemas.hashtag_count p ->
      (Validators.calculate_post_quality_score p
       == Validators.calculate_post_quality_score q + 1)%Q).
Proof.
  intros Ht Hw Hl Hq.
  rewrite !calculate_is_sum.
  unfold Spec.signal_sum, Spec.signal_table, Spec.points, Spec.mentions.
  cbn [fold_right fst snd].
  rewrite Ht, Hw, Hl, Hq. cbn [Z.leb Z.ltb Z.compare andb].
  split; intros Hp.
  - rewrite (proj2 (Z.leb_le 1 _)) by lia.
    rewrite (proj2 (Z.leb_le _ 5)) by lia.
    rewrite (proj2 (Z.ltb_ge 5 _)) by lia.
    cbn [andb]. ring.
  - rewrite (proj2 (Z.leb_le 1 _)) by lia.
    rewrite (proj2 (Z.leb_gt _ 5)) by lia.
    rewrite (proj2 (Z.ltb_lt 5 _)) by lia.
    cbn [andb]. ring.
Qed.

Lemma hashtags_add_points_witness :
  (Validators.calculate_post_quality_score Samples.tagged_post
   == Validators.calculate_post_quality_score Samples.plain_post + (3 # 2))%Q.
Proof.
  refine (proj1 (hashtags_add_points Samples.tagged_post Samples.plain_post _ _ _ _) _).
  1-4: reflexivity.
  vm_compute. split; discriminate.
Defined.

(* ================================================================== *)
(** * Properties of the data models *)
(* ================================================================== *)

Section StringFacts.
Import PyStr.

Lemma count_nonneg (c : ascii) (s : string) : 0 <= count c s.
Proof. induction s as [|d r IH]; cbn [count]; [lia |]. destruct (Ascii.eqb d c); lia. Qed.

Lemma split_on_length (sep : ascii) (s : string) :
  Z.of_nat (length (split_on sep s)) = 1 + count sep s.
Proof.
  induction s as [|c r IH]; [reflexivity |].
  pose proof (count_nonneg sep r) as Hc.
  cbn [split_on count]. destruct (Ascii.eqb c sep).
  - cbn [length]. lia.
  - destruct (split_on sep r) as [|h t]; cbn [length] in *; lia.
Qed.

(** Whitespace at the two ends. *)
Lemma lstrip_head (s : string) :
  lstrip s = "" \/ exists c r, lstrip s = String c r /\ isspace c = false.
Proof.
  induction s as [|c r IH]; [now left |].
  cbn [lstrip]. destruct (isspace c) eqn:Hc; [exact IH |].
  right. now exists c, r.
Qed.

Lemma rstrip_idem (s : string) : rstrip (rstrip s) = rstrip s.
Proof.
  induction s as [|c r IH]; [reflexivity |].
  cbn [rstrip]. destruct (rstrip r) as [|d r'] eqn:Hr.
  - destruct (isspace c) eqn:Hc; [reflexivity |].
    cbn [rstrip]. now rewrite Hc.
  - cbn [rstrip]. cbn [rstrip] in IH. rewrite IH. reflexivity.
Qed.

Lemma rstrip_head (c : ascii) (r : string) :
  isspace c = false -> exists r', rstrip (String c r) = String c r'.
Proof.
  intros Hc. cbn [rstrip]. destruct (rstrip r) as [|d r'].
  - rewrite Hc. now exists "".
  - now eexists.
Qed.

(** [strip] is idempotent. *)
Lemma strip_idem (s : string) : strip (strip s) = strip s.
Proof.
  unfold strip.
  destruct (lstrip_head s) as [-> | (c & r & -> & Hc)]; [reflexivity |].
  destruct (rstrip_head c r Hc) as [r' Hr']. rewrite Hr'.
  cbn [lstrip]. rewrite Hc. rewrite <- Hr'. apply rstrip_idem.
Qed.

(** A text with a character that is not whitespace has a word. *)
Lemma split_go_some (w s : string) : split_go (Some w) s <> [].
Proof.
  revert w. induction s as [|c r IH]; intros w; cbn [split_go]; [discriminate |].
  destruct (isspace c); [discriminate | apply IH].
Qed.

Lemma split_nil_lstrip (s : string) : split s = [] -> lstrip s = "".
Proof.
  unfold split. induction s as [|c r IH]; [reflexivity |].
  cbn [split_go lstrip]. destruct (isspace c).
  - cbn. exact IH.
  - intros H. now apply split_go_some in H.
Qed.

End StringFacts.

(** The line count that a post reports is never 0: a metadata value of 0
    counts as absent, and the count taken from the text is one more than
    the number of line feeds.  A metadata value other than 0 is reported
    as it is. *)
Theorem post_line_count_cases (p : Schemas.Post) :
  Schemas.line_count p <> 0
  /\ (Schemas.md_line_count (Schemas.metadata p) = None
      \/ Schemas.md_line_count (Schemas.metadata p) = Some 0 ->
      Schemas.line_count p = 1 + PyStr.count PyStr.LF (Schemas.text p))
  /\ (forall n, Schemas.md_line_count (Schemas.metadata p) = Some n -> n <> 0 ->
                Schemas.line_count p = n).
Proof.
  unfold Schemas.line_count, Schemas.or_else, Schemas.text_lines.
  rewrite split_on_length.
  pose proof (count_nonneg PyStr.LF (Schemas.text p)) as Hc.
  destruct (Schemas.md_line_count (Schemas.metadata p)) as [n|].
  - destruct (Z.eqb_spec n 0) as [-> | Hn].
    + split; [lia |]. split; [reflexivity |]. intros n' [= <-] Hn. now destruct Hn.
    + split; [exact Hn |]. split.
      * intros [H | [= H]]; [discriminate | now destruct Hn].
      * intros n' [= <-] _. reflexivity.
  - split; [lia |]. split; [reflexivity | intros n' [=]].
Qed.

Lemma post_line_count_cases_witness :
  Schemas.line_count Samples.scenario3_post = 4.
Proof.
  apply (proj2 (proj2 (post_line_count_cases Samples.scenario3_post)) 4).
  - reflexivity.
  - discriminate.
Defined.

(** [__post_init__] fills the creation time, the line count and the word
    count when they are absent, keeps them when they are given, and changes
    nothing when it runs a second time. *)
Theorem post_init_fills_once (now now' : Z) (p : Schemas.Post) :
  Schemas.created_at (Schemas.post_init now p)
  = Some (default now (Schemas.created_at p))
  /\ Schemas.md_line_count (Schemas.metadata (Schemas.post_init now p))
     = Some (default (Schemas.text_lines (Schemas.text p))
                     (Schemas.md_line_count (Schemas.metadata p)))
  /\ Schemas.md_word_count (Schemas.metadata (Schemas.post_init now p))
     = Some (default (Schemas.text_words (Schemas.text p))
                     (Schemas.md_word_count (Schemas.metadata p)))
  /\ Schemas.post_init now' (Schemas.post_init now p) = Schemas.post_init now p.
Proof.
  destruct p as [i t m e c]. destruct m. unfold Schemas.post_init.
  cbn [Schemas.created_at Schemas.metadata Schemas.text Schemas.id Schemas.engagement
       Schemas.md_line_count Schemas.md_word_count].
  destruct c, md_line_count, md_word_count; repeat split; reflexivity.
Qed.

(** The category that a post reports for itself and the bucket of the
    selector disagree at five lines and beyond fifteen: a document whose
    line count is the one of the post is selected for the post's own
    [length_category] exactly when the count is in [1, 15] and is not 5. *)
Theorem length_category_matches_bucket (p : Schemas.Post) (meta : FewShot.Metadata) :
  FewShot.line_count meta = Some (Schemas.line_count p) ->
  FewShot.length_matches (Schemas.length_category p) meta = true
  <-> 1 <= Schemas.line_count p <= 15 /\ Schemas.line_count p <> 5.
Proof.
  intros Hm. unfold FewShot.length_matches, Schemas.length_category.
  rewrite Hm. cbn [default from_option id]. generalize (Schemas.line_count p).
  intros n. cbv zeta.
  destruct (Z.ltb_spec n 5); [| destruct (Z.leb_spec 5 n), (Z.leb_spec n 10)];
    cbn [andb]; simpl (String.eqb _ _); cbn [andb];
    destruct (Z.leb_spec 1 n), (Z.leb_spec n 5), (Z.leb_spec 6 n), (Z.leb_spec n 10),
      (Z.leb_spec 11 n), (Z.leb_spec n 15);
    cbn [andb]; split; intros H'; try discriminate; try reflexivity; lia.
Qed.

Lemma length_category_matches_bucket_witness :
  FewShot.length_matches (Schemas.length_category Samples.scenario3_post)
    {| FewShot.unified_tags := None; FewShot.language := None;
       FewShot.line_count := Some 4 |} = true
  <-> 1 <= Schemas.line_count Samples.scenario3_post <= 15
      /\ Schemas.line_count Samples.scenario3_post <> 5.
Proof.
  apply (length_category_matches_bucket Samples.scenario3_post).
  reflexivity.
Defined.

(** A request that passes the validators of [PostGenerationRequest]
    carries the stripped tag, which is not empty; its length category and
    its language also pass [validate_length_category] and
    [validate_language] of the validation utilities; and a request built
    again from its own fields is the same request. *)
Theorem request_is_normalized (length_category language tag : string)
    (r : PostGenerationRequest.t) :
  PostGenerationRequest.new length_category language tag = Ok r ->
  PostGenerationRequest.tag r = PyStr.strip tag
  /\ PostGenerationRequest.tag r <> ""
  /\ Validators.validate_length_category
       (PostGenerationRequest.length_category r) = Ok true
  /\ Validators.validate_language (PostGenerationRequest.language r) = Ok true
  /\ PostGenerationRequest.new
       (PostGenerationRequest.length_category r)
       (PostGenerationRequest.language r)
       (PostGenerationRequest.tag r) = Ok r.
Proof.
  unfold PostGenerationRequest.new,
    PostGenerationRequest.validate_length_category,
    PostGenerationRequest.validate_language,
    PostGenerationRequest.validate_tag,
    Validators.validate_length_category, Validators.validate_language,
    Validators.str_in.
  destruct (existsb (String.eqb length_category) _) eqn:Hc;
    cbv beta iota delta [mbind result_bind]; [| discriminate].
  destruct (existsb (String.eqb language) _) eqn:Hl; [| discriminate].
  destruct (String.eqb_spec tag "") as [-> | Ht]; [discriminate |].
  destruct (String.eqb_spec (PyStr.strip tag) "") as [Hs | Hs]; [discriminate |].
  cbn [orb]. intros [= <-].
  cbn [PostGenerationRequest.tag PostGenerationRequest.language
       PostGenerationRequest.length_category].
  rewrite Hc, Hl, strip_idem.
  destruct (String.eqb_spec (PyStr.strip tag) "") as [Hs' | _]; [now destruct Hs |].
  cbn [orb]. repeat split; (reflexivity || assumption).
Qed.

Lemma request_is_normalized_witness :
  PostGenerationRequest.tag
    {| PostGenerationRequest.length_category := "Medium";
       PostGenerationRequest.language := "English";
       PostGenerationRequest.tag := "AI & Tech";
       PostGenerationRequest.max_retries := 3 |}
  = PyStr.strip "  AI & Tech ".
Proof.
  apply (request_is_normalized "Medium" "English" "  AI & Tech ").
  reflexivity.
Defined.

(** A text that [validate_post_text] accepts has at least one word, at
    least 10 and at most 3000 characters. *)
Theorem accepted_text_has_words (text : string) (b : bool) :
  Validators.validate_post_text text = Ok b ->
  1 <= Schemas.text_words text /\ 10 <= PyStr.len text <= 3000.
Proof.
  intros Hok.
  destruct (validate_post_text_cases text) as [[_ Hv] | (msg & Hr & _)];
    [| rewrite Hr in Hok; discriminate].
  destruct Hv as (Hne & Hlen & Hmax & _).
  split.
  - unfold Schemas.text_words.
    destruct (PyStr.split text) eqn:Hs; [| cbn [length]; lia].
    exfalso. apply Hne. unfold PyStr.strip.
    now rewrite (split_nil_lstrip text Hs).
  - split; [| exact Hmax].
    enough (PyStr.len (PyStr.strip text) <= PyStr.len text) by lia.
    clear. unfold PyStr.len, PyStr.strip.
    assert (Hl : forall s, (String.length (PyStr.lstrip s) <= String.length s)%nat).
    { induction s as [|c r IH]; cbn [PyStr.lstrip]; [lia |].
      destruct (PyStr.isspace c); cbn [String.length] in *; lia. }
    assert (Hr : forall s, (String.length (PyStr.rstrip s) <= String.length s)%nat).
    { induction s as [|c r IH]; cbn [PyStr.rstrip]; [lia |].
      destruct (PyStr.rstrip r); [destruct (PyStr.isspace c) |];
        cbn [String.length] in *; lia. }
    specialize (Hl text). specialize (Hr (PyStr.lstrip text)). lia.
Qed.

Lemma accepted_text_has_words_witness :
  1 <= Schemas.text_words "hello world" /\ 10 <= PyStr.len "hello world" <= 3000.
Proof.
  apply (accepted_text_has_words "hello world" true). reflexivity.
Defined.

(* ================================================================== *)
(** * Properties of the validation utilities *)
(* ================================================================== *)

Section SanitizeFacts.
Import PyStr.

Lemma lstrip_length (s : string) : (String.length (lstrip s) <= String.length s)%nat.
Proof.
  induction s as [|c r IH]; cbn [lstrip]; [lia |].
  destruct (isspace c); cbn [String.length] in *; lia.
Qed.

Lemma rstrip_length (s : string) : (String.length (rstrip s) <= String.length s)%nat.
Proof.
  induction s as [|c r IH]; cbn [rstrip]; [lia |].
  destruct (rstrip r); [destruct (isspace c) |]; cbn [String.length] in *; lia.
Qed.

Lemma sub_spaces_from_length (b : bool) (s : string) :
  (String.length (sub_spaces_from b s) <= String.length s)%nat.
Proof.
  revert b. induction s as [|c r IH]; intros b; cbn [sub_spaces_from]; [lia |].
  destruct (isspace c); [destruct b |]; cbn [String.length];
    match goal with |- context [sub_spaces_from ?x r] => specialize (IH x) end; lia.
Qed.

Lemma remove_char_length (c : ascii) (s : string) :
  (String.length (remove_char c s) <= String.length s)%nat.
Proof.
  induction s as [|d r IH]; cbn [remove_char]; [lia |].
  destruct (Ascii.eqb d c); cbn [String.length]; lia.
Qed.

(** Which characters the four operations can leave in a text. *)
Lemma has_char_lstrip (c : ascii) (s : string) :
  has_char c s = false -> has_char c (lstrip s) = false.
Proof.
  induction s as [|d r IH]; [easy |]. cbn [lstrip].
  destruct (isspace d); [| easy].
  cbn [has_char]. intros [_ H]%orb_false_iff. now apply IH.
Qed.

Lemma has_char_rstrip (c : ascii) (s : string) :
  has_char c s = false -> has_char c (rstrip s) = false.
Proof.
  induction s as [|d r IH]; [easy |]. cbn [rstrip has_char].
  intros [Hd Hr]%orb_false_iff. specialize (IH Hr).
  destruct (rstrip r) as [|d' r'].
  - destruct (isspace d); [reflexivity |]. cbn [has_char]. now rewrite Hd.
  - cbn [has_char] in *. now rewrite Hd.
Qed.

Lemma has_char_sub_spaces_from (c : ascii) (b : bool) (s : string) :
  Ascii.eqb " " c = false ->
  has_char c s = false -> has_char c (sub_spaces_from b s) = false.
Proof.
  intros Hsp. revert b. induction s as [|d r IH]; intros b; [easy |].
  cbn [sub_spaces_from has_char]. intros [Hd Hr]%orb_false_iff.
  destruct (isspace d); [destruct b |]; cbn [has_char];
    rewrite ?Hsp, ?Hd; now apply IH.
Qed.

(** The whitespace that [re.sub(r'\s+', ' ', s)] leaves is the space. *)
Lemma sub_spaces_from_only_spaces (c : ascii) (b : bool) (s : string) :
  isspace c = true -> Ascii.eqb " " c = false ->
  has_char c (sub_spaces_from b s) = false.
Proof.
  intros Hc Hsp. revert b. induction s as [|d r IH]; intros b; [reflexivity |].
  cbn [sub_spaces_from]. destruct (isspace d) eqn:Hd; [destruct b |]; cbn [has_char].
  - apply IH.
  - rewrite Hsp. apply IH.
  - destruct (Ascii.eqb_spec d c) as [-> | _]; [congruence | apply IH].
Qed.

Lemma has_char_remove_same (c : ascii) (s : string) :
  has_char c (remove_char c s) = false.
Proof.
  induction s as [|d r IH]; [reflexivity |]. cbn [remove_char].
  destruct (Ascii.eqb d c) eqn:Hd; [exact IH |]. cbn [has_char]. now rewrite Hd.
Qed.

Lemma has_char_remove_other (c d : ascii) (s : string) :
  has_char c s = false -> has_char c (remove_char d s) = false.
Proof.
  induction s as [|x r IH]; [easy |]. cbn [remove_char has_char].
  intros [Hx Hr]%orb_false_iff.
  destruct (Ascii.eqb x d); [now apply IH |]. cbn [has_char]. rewrite Hx. now apply IH.
Qed.

Lemma remove_char_absent (c : ascii) (s : string) :
  has_char c s = false -> remove_char c s = s.
Proof.
  induction s as [|d r IH]; [easy |]. cbn [remove_char has_char].
  intros [Hd Hr]%orb_false_iff. rewrite Hd. now rewrite IH.
Qed.

(** Collapsing the runs of whitespace a second time changes nothing. *)
Lemma sub_spaces_from_idem (b : bool) (s : string) :
  sub_spaces_from b (sub_spaces_from b s) = sub_spaces_from b s.
Proof.
  revert b. induction s as [|c r IH]; intros b; [reflexivity |].
  cbn [sub_spaces_from]. destruct (isspace c) eqn:Hc; [destruct b |].
  - apply IH.
  - cbn [sub_spaces_from]. change (isspace " ") with true. cbv iota.
    now rewrite IH.
  - cbn [sub_spaces_from]. rewrite Hc. now rewrite IH.
Qed.

(** A text that [rstrip] leaves alone. *)
Lemma rstrip_fixed_cons (c : ascii) (r : string) :
  rstrip (String c r) = String c r ->
  rstrip r = r /\ (r = "" -> isspace c = false).
Proof.
  cbn [rstrip]. destruct (rstrip r) as [|d r'] eqn:Hr.
  - destruct (isspace c); [discriminate |]. intros [= <-]. now split.
  - intros [= <-]. split; [reflexivity | discriminate].
Qed.

Lemma sub_spaces_from_nonempty (b : bool) (s : string) :
  rstrip s = s -> s <> "" -> sub_spaces_from b s <> "".
Proof.
  revert b. induction s as [|c r IH]; intros b Hs Hne; [now destruct Hne |].
  apply rstrip_fixed_cons in Hs as [Hr Hc].
  cbn [sub_spaces_from]. destruct (isspace c) eqn:Hsp; [| discriminate].
  assert (Hr' : r <> "") by (intros ->; now specialize (Hc eq_refl)).
  destruct b; [now apply IH | discriminate].
Qed.

Lemma rstrip_cons_fixed (c : ascii) (x : string) :
  rstrip x = x -> (x = "" -> isspace c = false) -> rstrip (String c x) = String c x.
Proof.
  intros Hx Hc. cbn [rstrip]. rewrite Hx. destruct x as [|d x']; [| reflexivity].
  now rewrite Hc.
Qed.

Lemma rstrip_sub_spaces_from (b : bool) (s : string) :
  rstrip s = s -> rstrip (sub_spaces_from b s) = sub_spaces_from b s.
Proof.
  revert b. induction s as [|c r IH]; intros b Hs; [reflexivity |].
  apply rstrip_fixed_cons in Hs as [Hr Hc].
  cbn [sub_spaces_from]. destruct (isspace c) eqn:Hsp.
  - assert (Hr' : r <> "") by (intros ->; now specialize (Hc eq_refl)).
    destruct b; [now apply IH |].
    apply rstrip_cons_fixed; [now apply IH |].
    intros H. now apply (sub_spaces_from_nonempty true r) in H.
  - apply rstrip_cons_fixed; [now apply IH | intros _; exact Hsp].
Qed.

Lemma strip_sub_spaces_strip (s : string) :
  strip (sub_spaces (strip s)) = sub_spaces (strip s).
Proof.
  unfold strip at 1. unfold sub_spaces.
  assert (Hfix : rstrip (strip s) = strip s) by apply rstrip_idem.
  pose proof (rstrip_sub_spaces_from false _ Hfix) as H.
  unfold strip in *.
  destruct (lstrip_head s) as [Hl | (c & r & Hl & Hc)]; rewrite Hl in *;
    [reflexivity |].
  destruct (rstrip_head c r Hc) as [r' Hr']. rewrite Hr' in *.
  cbn [sub_spaces_from] in *. rewrite Hc in *. cbn [lstrip]. rewrite Hc. exact H.
Qed.

End SanitizeFacts.

(** What [sanitize_text] returns holds no angle bracket, its only
    whitespace character is the space, and it is not longer than the
    input. *)
Theorem sanitize_text_clean (text : string) :
  PyStr.has_char "<" (Validators.sanitize_text text) = false
  /\ PyStr.has_char ">" (Validators.sanitize_text text) = false
  /\ (forall c, PyStr.isspace c = true -> c <> " "%char ->
                PyStr.has_char c (Validators.sanitize_text text) = false)
  /\ PyStr.len (Validators.sanitize_text text) <= PyStr.len text.
Proof.
  unfold Validators.sanitize_text.
  destruct (String.eqb text ""); cbv zeta.
  { repeat split; try reflexivity. unfold PyStr.len. cbn. lia. }
  split; [apply has_char_remove_other, has_char_remove_same |].
  split; [apply has_char_remove_same |].
  split.
  - intros c Hc Hne. do 2 apply has_char_remove_other.
    apply sub_spaces_from_only_spaces; [exact Hc |].
    destruct (Ascii.eqb_spec " " c); [now subst | reflexivity].
  - unfold PyStr.len, PyStr.sub_spaces, PyStr.strip.
    pose proof (remove_char_length ">"
      (PyStr.remove_char "<"
         (PyStr.sub_spaces_from false (PyStr.rstrip (PyStr.lstrip text))))).
    pose proof (remove_char_length "<"
      (PyStr.sub_spaces_from false (PyStr.rstrip (PyStr.lstrip text)))).
    pose proof (sub_spaces_from_length false (PyStr.rstrip (PyStr.lstrip text))).
    pose proof (rstrip_length (PyStr.lstrip text)).
    pose proof (lstrip_length text). lia.
Qed.

Lemma sanitize_text_clean_witness :
  PyStr.has_char "009" (Validators.sanitize_text (String "009" "a <b> c")) = false.
Proof.
  apply (proj1 (proj2 (proj2 (sanitize_text_clean (String "009" "a <b> c"))))).
  - reflexivity.
  - discriminate.
Defined.

(** On a text without angle brackets [sanitize_text] returns a text that
    it leaves unchanged: sanitizing twice is sanitizing once. *)
Theorem sanitize_text_stable (text : string) :
  PyStr.has_char "<" text = false -> PyStr.has_char ">" text = false ->
  Validators.sanitize_text (Validators.sanitize_text text)
  = Validators.sanitize_text text.
Proof.
  intros Hlt Hgt. unfold Validators.sanitize_text.
  destruct (String.eqb_spec text "") as [-> | _]; [reflexivity |]. cbv zeta.
  set (t := PyStr.sub_spaces (PyStr.strip text)).
  assert (Ht_lt : PyStr.has_char "<" t = false).
  { apply has_char_sub_spaces_from; [reflexivity |].
    now apply has_char_rstrip, has_char_lstrip. }
  assert (Ht_gt : PyStr.has_char ">" t = false).
  { apply has_char_sub_spaces_from; [reflexivity |].
    now apply has_char_rstrip, has_char_lstrip. }
  rewrite (remove_char_absent "<" t Ht_lt), (remove_char_absent ">" t Ht_gt).
  destruct (String.eqb_spec t "") as [-> | _]; [reflexivity |].
  subst t. rewrite strip_sub_spaces_strip.
  unfold PyStr.sub_spaces at 1. rewrite sub_spaces_from_idem.
  fold (PyStr.sub_spaces (PyStr.strip text)).
  now rewrite (remove_char_absent "<" _ Ht_lt), (remove_char_absent ">" _ Ht_gt).
Qed.

Lemma sanitize_text_stable_witness :
  Validators.sanitize_text (Validators.sanitize_text "  two   words ")
  = Validators.sanitize_text "  two   words ".
Proof.
  apply (sanitize_text_stable "  two   words "); reflexivity.
Defined.

(** [validate_hashtags] accepts a list put together out of two exactly
    when it accepts both, and on a list whose first hashtags pass it
    raises the error of the first one that does not, whatever follows. *)
Theorem validate_hashtags_first_rejected (accepted rest : list string) :
  (Validators.validate_hashtags (accepted ++ rest) = Ok true
   <-> Validators.validate_hashtags accepted = Ok true
       /\ Validators.validate_hashtags rest = Ok true)
  /\ (forall bad e,
        Validators.validate_hashtags accepted = Ok true ->
        Validators.validate_hashtags [bad] = Raise e ->
        Validators.validate_hashtags (accepted ++ bad :: rest) = Raise e).
Proof.
  split.
  - induction accepted as [|h t IH]; cbn [app Validators.validate_hashtags].
    + tauto.
    + destruct (Validators.check_hashtag h);
        cbv beta iota delta [mbind result_bind]; [exact IH |].
      split; [discriminate | now intros [? _]].
  - intros bad e. induction accepted as [|h t IH];
      cbn [app Validators.validate_hashtags].
    + intros _. destruct (Validators.check_hashtag bad);
        cbv beta iota delta [mbind result_bind]; [discriminate | easy].
    + destruct (Validators.check_hashtag h);
        cbv beta iota delta [mbind result_bind]; [exact IH | discriminate].
Qed.

Lemma validate_hashtags_first_rejected_witness :
  Validators.validate_hashtags (["#ai"; "#ml"] ++ "data" :: ["no"; "#ok"])
  = Raise (ValidationError "Hashtag 'data' must start with #").
Proof.
  apply (proj2 (validate_hashtags_first_rejected ["#ai"; "#ml"] ["no"; "#ok"]));
    reflexivity.
Defined.

(** A report with [is_valid] true has no error, carries the score and the
    six metrics of the post, and warns exactly about what it found: fewer
    than 50 words, no hashtag, neither question nor exclamation mark, more
    than 500 words, in this order; the first and the last warning never
    come together. *)
Theorem valid_report_contents (post : Schemas.Post) (r : Validators.QualityReport) :
  Validators.validate_post_quality post = Ok r ->
  Validators.is_valid r = true ->
  Validators.errors r = []
  /\ Validators.score r = Validators.calculate_post_quality_score post
  /\ Validators.metrics r !! "word_count"
     = Some (Validators.MInt (Schemas.word_count post))
  /\ Validators.metrics r !! "length_category"
     = Some (Validators.MStr (Schemas.length_category post))
  /\ size (Validators.metrics r) = 6%nat
  /\ Validators.warnings r
     = (if Schemas.word_count post <? 50
        then ["Post is quite short - consider adding more content"] else [])
       ++ (if Schemas.hashtag_count post =? 0
           then ["No hashtags found - consider adding relevant hashtags"] else [])
       ++ (if negb (Schemas.has_question post) && negb (Schemas.has_exclamation post)
           then ["Post lacks engagement elements - consider adding questions or exclamations"]
           else [])
       ++ (if Schemas.word_count post >? 500
           then ["Post is quite long - consider breaking it into multiple posts"] else [])
  /\ (length (Validators.warnings r) <= 3)%nat.
Proof.
  unfold Validators.validate_post_quality, Validators.quality_body.
  destruct (Validators.validate_post_text (Schemas.text post)) as [? | e];
    cbv beta iota delta [mbind result_bind].
  2: { destruct e; cbn [try_except]; try discriminate. now intros [= <-]. }
  destruct (if bool_decide (Schemas.hashtags (Schemas.metadata post) ≠ [])
            then _ else _) as [? | e]; cbv beta iota delta [mbind result_bind].
  2: { destruct e; cbn [try_except]; try discriminate. now intros [= <-]. }
  destruct (Validators.validate_post_metadata (Schemas.metadata post)) as [? | e];
    cbv beta iota delta [mbind result_bind].
  2: { destruct e; cbn [try_except]; try discriminate. now intros [= <-]. }
  cbv zeta. cbn [try_except]. intros [= <-] _.
  rewrite Z.gtb_ltb.
  destruct (Z.ltb_spec (Schemas.word_count post) 50),
    (Schemas.hashtag_count post =? 0),
    (negb (Schemas.has_question post) && negb (Schemas.has_exclamation post)),
    (Z.ltb_spec 500 (Schemas.word_count post)); try lia;
    (split; [reflexivity |]); (split; [reflexivity |]);
    (split; [reflexivity |]); (split; [reflexivity |]);
    (split; [vm_compute; reflexivity |]); (split; [reflexivity |]);
    cbn [Validators.warnings Validators.append_warning Validators.set_metrics
         Validators.set_score Validators.initial_report app length]; lia.
Qed.

Lemma valid_report_contents_witness :
  exists r, Validators.validate_post_quality Samples.scenario3_post = Ok r
            /\ Validators.errors r = [] /\ (length (Validators.warnings r) <= 3)%nat.
Proof.
  destruct (Validators.validate_post_quality Samples.scenario3_post) as [r | e] eqn:Hr;
    [| vm_compute in Hr; discriminate].
  exists r. split; [reflexivity |].
  assert (Hv : Validators.is_valid r = true).
  { vm_compute in Hr. injection Hr as <-. reflexivity. }
  pose proof (valid_report_contents Samples.scenario3_post r Hr Hv) as H.
  split; [apply H | apply (proj2 (proj2 (proj2 (proj2 (proj2 (proj2 H))))))].
Defined.

Section LineFeedFacts.
Import PyStr.

Lemma words_then_end_line_feed (s : string) :
  words_then_end (s +:+ nl) = Spec.all_chars is_word s.
Proof.
  induction s as [|c r IH]; [reflexivity |].
  change (String c r +:+ nl) with (String c (r +:+ nl)).
  cbn [words_then_end Spec.all_chars]. rewrite IH.
  destruct (is_word c); [reflexivity |]. cbn [andb].
  destruct r; apply andb_false_r.
Qed.

Lemma hashtag_re_match_line_feed (h : string) :
  hashtag_re_match (h +:+ nl) = Spec.hashtag_pattern h.
Proof.
  destruct h as [|c0 [|c r]].
  - reflexivity.
  - destruct c0 as [[] [] [] [] [] [] [] []]; reflexivity.
  - change (String c0 (String c r) +:+ nl) with (String c0 (String c (r +:+ nl))).
    cbn [hashtag_re_match Spec.hashtag_pattern Spec.all_chars].
    rewrite words_then_end_line_feed.
    destruct c0 as [[] [] [] [] [] [] [] []]; reflexivity.
Qed.

Lemma all_chars_no_line_feed (s : string) :
  Spec.all_chars is_word s = true -> Spec.ends_with_lf s = false.
Proof.
  induction s as [|c r IH]; [reflexivity |].
  cbn [Spec.all_chars]. intros [Hc Hr]%andb_true_iff.
  destruct r as [|c' r'].
  - cbn. destruct (Ascii.eqb_spec c LF) as [-> | _]; [discriminate | reflexivity].
  - now apply IH.
Qed.

Lemma hashtag_pattern_shape (h : string) :
  Spec.hashtag_pattern h = true ->
  startswith "#" h = true /\ 2 <= len h /\ Spec.ends_with_lf h = false
  /\ startswith "#" (h +:+ nl) = true.
Proof.
  destruct h as [|c0 [|c r]]; [discriminate | |].
  - destruct c0 as [[] [] [] [] [] [] [] []]; discriminate.
  - intros Hp.
    assert (Hc0 : c0 = "#"%char)
      by (destruct c0 as [[] [] [] [] [] [] [] []]; (discriminate || reflexivity)).
    subst c0. cbn [Spec.hashtag_pattern] in Hp.
    split; [reflexivity |]. split; [unfold len; cbn [String.length]; lia |].
    split; [| reflexivity].
    change (Spec.ends_with_lf (String "#" (String c r)))
      with (Spec.ends_with_lf (String c r)).
    now apply all_chars_no_line_feed.
Qed.

Lemma len_line_feed (h : string) : len (h +:+ nl) = len h + 1.
Proof.
  unfold len. induction h as [|c r IH]; [reflexivity |].
  change (String c r +:+ nl) with (String c (r +:+ nl)).
  cbn [String.length]. lia.
Qed.

Lemma validate_single_hashtag (h : string) :
  Validators.validate_hashtags [h] = Ok true <-> Aux.hashtag_accepted h.
Proof.
  destruct (validate_hashtags_cases [h]) as [[-> Hf] | (msg & -> & Hf)].
  - split; [intros _; now inversion Hf | reflexivity].
  - split; [discriminate |]. intros Ha. destruct Hf.
    apply Forall_cons. split; [exact Ha | apply List.Forall_nil].
Qed.

End LineFeedFacts.

(** The pattern of [validate_hashtags] ends in [$], which also matches
    just before a line feed that ends the string: a hashtag followed by one
    line feed is accepted exactly when the hashtag itself is accepted, does
    not end in a line feed and has fewer than 50 characters. *)
Theorem hashtag_line_feed_accepted (h : string) :
  Validators.validate_hashtags [h +:+ PyStr.nl] = Ok true
  <-> Validators.validate_hashtags [h] = Ok true
      /\ Spec.ends_with_lf h = false
      /\ PyStr.len h < 50.
Proof.
  rewrite !validate_single_hashtag. unfold Aux.hashtag_accepted.
  rewrite hashtag_re_match_line_feed, len_line_feed. split.
  - intros (_ & Hlen & Hp).
    destruct (hashtag_pattern_shape h Hp) as (Hs & Hl & Hlf & _).
    rewrite (hashtag_re_match_pattern h Hlf).
    repeat split; (assumption || lia).
  - intros ((_ & Hlen & Hm) & Hlf & Hlt).
    rewrite (hashtag_re_match_pattern h Hlf) in Hm.
    destruct (hashtag_pattern_shape h Hm) as (_ & _ & _ & Hs).
    repeat split; (assumption || lia).
Qed.

(* ================================================================== *)
(** * Properties of the tag resolver and of the tag normalization *)
(* ================================================================== *)

Section BraceFacts.
Import PyStr.

Lemma append_nil (s : string) : "" +:+ s = s.
Proof. reflexivity. Qed.
Lemma append_cons (c : ascii) (a s : string) : String c a +:+ s = String c (a +:+ s).
Proof. reflexivity. Qed.

Lemma upto_last_close_none (s : string) :
  has_char "}" s = false -> upto_last_close s = None.
Proof.
  induction s as [|c r IH]; [reflexivity |]. cbn [has_char upto_last_close].
  intros [Hc Hr]%orb_false_iff. now rewrite (IH Hr), Hc.
Qed.

Lemma upto_last_close_app (b c : string) :
  has_char "}" c = false ->
  upto_last_close (b +:+ String "}" c) = Some (b +:+ "}").
Proof.
  intros Hc. induction b as [|x b IH].
  - rewrite !append_nil. cbn [upto_last_close].
    now rewrite (upto_last_close_none c Hc).
  - rewrite !append_cons. cbn [upto_last_close]. now rewrite IH.
Qed.

Lemma upto_last_close_some (s p : string) :
  upto_last_close s = Some p ->
  exists b c, p = b +:+ "}" /\ s = b +:+ String "}" c /\ has_char "}" c = false.
Proof.
  revert p. induction s as [|x r IH]; intros p; [discriminate |].
  cbn [upto_last_close]. destruct (upto_last_close r) as [q|] eqn:Hr.
  - intros [= <-]. destruct (IH q eq_refl) as (b & c & -> & -> & Hc).
    now exists (String x b), c.
  - destruct (Ascii.eqb_spec x "}") as [-> | _]; [| discriminate].
    intros [= <-]. exists "", r. repeat split.
    clear IH. induction r as [|y r IH]; [reflexivity |].
    cbn [upto_last_close] in Hr. cbn [has_char].
    destruct (upto_last_close r); [discriminate |].
    destruct (Ascii.eqb y "}"); [discriminate |]. now apply IH.
Qed.

Lemma search_braces_app (a b c : string) :
  has_char "{" a = false -> has_char "}" c = false ->
  search_braces (a +:+ String "{" (b +:+ String "}" c))
  = Some (String "{" (b +:+ "}")).
Proof.
  intros Ha Hc. induction a as [|x a IH].
  - rewrite append_nil. cbn [search_braces].
    change (Ascii.eqb "{" "{") with true. cbv iota.
    now rewrite (upto_last_close_app b c Hc).
  - rewrite append_cons. cbn [search_braces].
    cbn [has_char] in Ha. apply orb_false_iff in Ha as [Hx Ha].
    rewrite Hx. now apply IH.
Qed.

Lemma search_braces_some (s m : string) :
  search_braces s = Some m ->
  exists a b c, s = a +:+ String "{" (b +:+ String "}" c)
                /\ m = String "{" (b +:+ "}").
Proof.
  induction s as [|x r IH]; [discriminate |]. cbn [search_braces].
  destruct (Ascii.eqb_spec x "{") as [-> | _].
  - destruct (upto_last_close r) as [p|] eqn:Hp.
    + intros [= <-]. destruct (upto_last_close_some r p Hp) as (b & c & -> & -> & _).
      now exists "", b, c.
    + intros H. destruct (IH H) as (a & b & c & -> & ->).
      now exists (String "{" a), b, c.
  - intros H. destruct (IH H) as (a & b & c & -> & ->).
    now exists (String x a), b, c.
Qed.

End BraceFacts.

Section NormalizeFacts.
Import PyStr.






(** ASCII strings stay ASCII under the operations of the normalization. *)
Lemma is_ascii_upper_char (c : ascii) : is_ascii_char (upper_char c) = is_ascii_char c.
Proof. destruct c as [[] [] [] [] [] [] [] []]; reflexivity. Qed.
Lemma is_ascii_lower_char (c : ascii) : is_ascii_char (lower_char c) = is_ascii_char c.
Proof. destruct c as [[] [] [] [] [] [] [] []]; reflexivity. Qed.

Lemma is_ascii_title_from (b : bool) (s : string) :
  is_ascii (title_from b s) = is_ascii s.
Proof.
  revert b. induction s as [|c r IH]; intros b; [reflexivity |].
  cbn [title_from is_ascii]. rewrite IH.
  destruct b; now rewrite ?is_ascii_lower_char, ?is_ascii_upper_char.
Qed.

Lemma is_ascii_lstrip (s : string) : is_ascii s = true -> is_ascii (lstrip s) = true.
Proof.
  induction s as [|c r IH]; [easy |]. cbn [lstrip].
  destruct (isspace c); [| easy].
  cbn [is_ascii]. intros [_ H]%andb_true_iff. now apply IH.
Qed.

Lemma is_ascii_rstrip (s : string) : is_ascii s = true -> is_ascii (rstrip s) = true.
Proof.
  induction s as [|c r IH]; [easy |]. cbn [rstrip is_ascii].
  intros [Hc Hr]%andb_true_iff. specialize (IH Hr).
  destruct (rstrip r) as [|d r'].
  - destruct (isspace c); [reflexivity |]. cbn [is_ascii]. now rewrite Hc.
  - cbn [is_ascii] in *. now rewrite Hc.
Qed.

Lemma is_ascii_strip (s : string) : is_ascii s = true -> is_ascii (strip s) = true.
Proof. intros H. now apply is_ascii_rstrip, is_ascii_lstrip. Qed.

Lemma is_ascii_remove_char (c : ascii) (s : string) :
  is_ascii s = true -> is_ascii (remove_char c s) = true.
Proof.
  induction s as [|d r IH]; [easy |]. cbn [remove_char is_ascii].
  intros [Hd Hr]%andb_true_iff.
  destruct (Ascii.eqb d c); [now apply IH |]. cbn [is_ascii]. rewrite Hd. now apply IH.
Qed.


Lemma normalize_title (s : string) :
  is_ascii s = true -> title (Spec.normalize s) = Spec.normalize s.
Proof. intros H. apply title_idem. now apply is_ascii_strip. Qed.


End NormalizeFacts.

Section SortedFacts.
Import PyStr Tags.

Lemma string_le_trans (x y z : string) : string_le x y -> string_le y z -> string_le x z.
Proof.
  unfold string_le, String.leb. revert y z.
  induction x as [|a x IH]; intros [|b y] [|c z]; cbn [String.compare];
    try (intros; reflexivity); try discriminate.
  unfold Ascii.compare.
  destruct (N.compare_spec (N_of_ascii a) (N_of_ascii b)) as [Hab | Hab | Hab];
    destruct (N.compare_spec (N_of_ascii b) (N_of_ascii c)) as [Hbc | Hbc | Hbc];
    destruct (N.compare_spec (N_of_ascii a) (N_of_ascii c)) as [Hac | Hac | Hac];
    try discriminate; try (intros; reflexivity); try lia.
  apply IH.
Qed.

Lemma insert_sorted_perm (x : string) (l : list string) :
  insert_sorted x l ≡ₚ x :: l.
Proof.
  induction l as [|y t IH]; [reflexivity |]. cbn [insert_sorted].
  destruct (String.leb x y); [reflexivity |].
  rewrite IH. apply Permutation_swap.
Qed.

Lemma sorted_perm (l : list string) : sorted l ≡ₚ l.
Proof.
  unfold sorted. induction l as [|x t IH]; [reflexivity |].
  cbn [foldr]. rewrite insert_sorted_perm. now rewrite IH.
Qed.

Lemma insert_sorted_sorted (x : string) (l : list string) :
  StronglySorted string_le l -> StronglySorted string_le (insert_sorted x l).
Proof.
  induction 1 as [|y t Ht IH Hy]; cbn [insert_sorted].
  - repeat constructor.
  - destruct (String.leb x y) eqn:Hxy.
    + constructor; [now constructor |]. constructor; [exact Hxy |].
      eapply List.Forall_impl; [| exact Hy]. intros z. now apply string_le_trans.
    + constructor; [exact IH |].
      assert (Hyx : string_le y x).
      { destruct (String.leb_total x y) as [H | H]; [congruence | exact H]. }
      rewrite (insert_sorted_perm x t). now constructor.
Qed.

Lemma sorted_sorted (l : list string) : StronglySorted string_le (sorted l).
Proof.
  unfold sorted. induction l as [|x t IH]; [constructor |].
  cbn [foldr]. now apply insert_sorted_sorted.
Qed.

Lemma sorted_fixed (l : list string) :
  StronglySorted string_le l -> NoDup l -> sorted (remove_dups l) = l.
Proof.
  intros Hs Hn.
  assert (Hanti : AntiSymm eq string_le)
    by (intros x y; apply String.leb_antisym).
  apply (StronglySorted_unique string_le).
  - apply sorted_sorted.
  - exact Hs.
  - rewrite sorted_perm. apply NoDup_Permutation.
    + apply NoDup_remove_dups.
    + exact Hn.
    + intros x. apply elem_of_remove_dups.
Qed.

Lemma add_post_tags_elem (posts : list FewShot.Document) (all_tags : list string)
    (x : string) :
  x ∈ FewShot.add_post_tags posts all_tags
  <-> x ∈ all_tags
      \/ exists post meta tags,
           post ∈ posts /\ FewShot.metadata post = Some meta
           /\ FewShot.unified_tags meta = Some tags /\ x ∈ tags.
Proof.
  revert all_tags. induction posts as [|p rest IH]; intros all_tags;
    cbn [FewShot.add_post_tags].
  - split; [now left |]. intros [H | (post & ? & ? & H & _)]; [exact H |].
    inversion H.
  - assert (Hskip : (exists post meta tags,
                        post ∈ rest /\ FewShot.metadata post = Some meta
                        /\ FewShot.unified_tags meta = Some tags /\ x ∈ tags)
                    -> exists post meta tags,
                         post ∈ p :: rest /\ FewShot.metadata post = Some meta
                         /\ FewShot.unified_tags meta = Some tags /\ x ∈ tags).
    { intros (post & meta & tags & Hin & H). exists post, meta, tags.
      split; [now right | exact H]. }
    destruct (FewShot.metadata p) as [meta|] eqn:Hm;
      [destruct (FewShot.unified_tags meta) as [tags|] eqn:Ht |]; rewrite IH.
    + rewrite elem_of_app. split.
      * intros [[H | H] | H]; [now left | | right; now apply Hskip].
        right. exists p, meta, tags. repeat split; (assumption || now left).
      * intros [H | (post & meta' & tags' & Hin & Hm' & Ht' & Hx)]; [tauto |].
        apply elem_of_cons in Hin as [-> | Hin].
        -- rewrite Hm in Hm'. injection Hm' as <-. rewrite Ht in Ht'.
           injection Ht' as <-. tauto.
        -- right. now exists post, meta', tags'.
    + split; [intros [H | H]; [now left | right; now apply Hskip] |].
      intros [H | (post & meta' & tags' & Hin & Hm' & Ht' & Hx)]; [tauto |].
      apply elem_of_cons in Hin as [-> | Hin]; [congruence |].
      right. now exists post, meta', tags'.
    + split; [intros [H | H]; [now left | right; now apply Hskip] |].
      intros [H | (post & meta' & tags' & Hin & Hm' & Ht' & Hx)]; [tauto |].
      apply elem_of_cons in Hin as [-> | Hin]; [congruence |].
      right. now exists post, meta', tags'.
Qed.

End SortedFacts.

(** [extract_json_from_text] returns the part of the text from its first
    opening brace to its last closing brace when there is a closing brace
    after an opening one, and the whole text otherwise; applied to its own
    result it changes nothing. *)
Theorem extract_json_spans_braces (text : string) :
  (forall a b c,
      text = a +:+ "{" +:+ b +:+ "}" +:+ c ->
      PyStr.has_char "{" a = false -> PyStr.has_char "}" c = false ->
      Preprocessing.extract_json_from_text text = "{" +:+ b +:+ "}")
  /\ ((forall a b c, text <> a +:+ "{" +:+ b +:+ "}" +:+ c) ->
      Preprocessing.extract_json_from_text text = text)
  /\ Preprocessing.extract_json_from_text (Preprocessing.extract_json_from_text text)
     = Preprocessing.extract_json_from_text text.
Proof.
  unfold Preprocessing.extract_json_from_text. split; [| split].
  - intros a b c -> Ha Hc. rewrite !(append_cons "{"), !(append_cons "}"), !append_nil.
    now rewrite (search_braces_app a b c Ha Hc).
  - intros Hno. destruct (PyStr.search_braces text) as [m|] eqn:Hm; [| reflexivity].
    destruct (search_braces_some text m Hm) as (a & b & c & -> & _).
    now destruct (Hno a b c).
  - destruct (PyStr.search_braces text) as [m|] eqn:Hm; [| now rewrite Hm].
    destruct (search_braces_some text m Hm) as (a & b & c & _ & ->).
    pose proof (search_braces_app "" b "" eq_refl eq_refl) as H.
    rewrite !append_nil in H. now rewrite H.
Qed.

Lemma extract_json_spans_braces_witness :
  Preprocessing.extract_json_from_text "Sure: {a: {b}} ok." = "{" +:+ "a: {b}" +:+ "}".
Proof.
  apply (proj1 (extract_json_spans_braces "Sure: {a: {b}} ok.") "Sure: " "a: {b}" " ok.");
    reflexivity.
Defined.



(** The tags that [get_tags] returns are in ascending order without
    repetition, they are the dataset categories and the unified tags of
    the posts and nothing else, and sorting the set of them again, as the
    user interface does, changes nothing. *)
Theorem get_tags_sorted_unique (categories : list string)
    (posts : list FewShot.Document) :
  StronglySorted (fun x y => String.leb x y = true) (FewShot.get_tags categories posts)
  /\ NoDup (FewShot.get_tags categories posts)
  /\ (forall x, x ∈ FewShot.get_tags categories posts
                <-> x ∈ categories
                    \/ exists post meta tags,
                         post ∈ posts /\ FewShot.metadata post = Some meta
                         /\ FewShot.unified_tags meta = Some tags /\ x ∈ tags)
  /\ PyStr.sorted (remove_dups (FewShot.get_tags categories posts))
     = FewShot.get_tags categories posts.
Proof.
  unfold FewShot.get_tags. cbv zeta.
  set (all_tags := FewShot.add_post_tags posts categories).
  assert (Hs : StronglySorted Tags.string_le (PyStr.sorted (remove_dups all_tags)))
    by apply sorted_sorted.
  assert (Hn : NoDup (PyStr.sorted (remove_dups all_tags))).
  { rewrite sorted_perm. apply NoDup_remove_dups. }
  split; [exact Hs |]. split; [exact Hn |]. split.
  - intros x. rewrite sorted_perm, elem_of_remove_dups.
    apply add_post_tags_elem.
  - now apply sorted_fixed.
Qed.

(* ================================================================== *)
(** * Properties of the post generator *)
(* ================================================================== *)

Section GeneratorFacts.
Import PostGenerator.

(** The loop over the examples, when the selector hands over at most two
    of them: its [break] drops nothing. *)
Lemma example_loop_two (examples : list FewShot.Document) (parts : list string) :
  (length examples <= 2)%nat ->
  example_loop 0 examples parts
  = parts ++ imap (fun i post => example_part (Z.of_nat i) post) examples.
Proof.
  intros Hlen. destruct examples as [|p [|q [|r rest]]]; cbn [example_loop imap].
  - now rewrite app_nil_r.
  - reflexivity.
  - cbn. now rewrite <- app_assoc.
  - cbn [length] in Hlen. lia.
Qed.

End GeneratorFacts.



(** The prompt has the four instructions first, then either the note
    that no example was found, or the heading of the examples followed by
    every document that the selector returned, in its order and numbered
    from 1: the loop that stops after two examples never drops one. *)
Theorem prompt_lists_selected_examples (posts : list FewShot.Document)
    (length_category language tag : string) :
  let examples :=
    FewShot.get_filtered_posts length_category language tag posts
      FewShot.default_max_examples in
  let parts := PostGenerator.prompt_parts posts length_category language tag in
  parts
  = take 4 parts
    ++ [if bool_decide (examples = [])
        then PyStr.nl +:+ "4) No specific examples were provided. Generate the post in a professional LinkedIn style."
        else PyStr.nl +:+ "4) Adopt the writing style, tone, and structure from the following examples. These examples are real LinkedIn posts related to the topic and length you requested."]
    ++ imap (fun i post => PostGenerator.example_part (Z.of_nat i) post) examples
  /\ length parts = (5 + length examples)%nat
  /\ (length examples <= 2)%nat.
Proof.
  cbv zeta. unfold PostGenerator.prompt_parts. cbv zeta.
  set (examples := FewShot.get_filtered_posts _ _ _ _ _).
  assert (Hlen : (length examples <= 2)%nat).
  { pose proof (get_filtered_posts_length length_category language tag posts
                  FewShot.default_max_examples) as H.
    unfold FewShot.default_max_examples in *. fold examples in H. lia. }
  rewrite Z.gtb_ltb.
  destruct (String.eqb language "Hinglish");
    (destruct examples as [|p rest] eqn:He;
     [ cbn; repeat split; lia
     | cbn [length]; destruct (Z.ltb_spec 0 (Z.of_nat (S (length rest)))); [| lia];
       rewrite example_loop_two by exact Hlen;
       rewrite bool_decide_false by discriminate;
       cbn [app take length]; rewrite ?length_imap; cbn [length] in *;
       repeat split; try reflexivity; lia ]).
Qed.

(** For each of the three length categories the range of lines that the
    prompt asks for is the range by which the selector picks its
    examples.  For any other category the prompt asks for 5 to 10 lines,
    and the selector picks nothing. *)
Theorem prompt_range_is_selector_range (length_category : string) :
  (In length_category ["Short"; "Medium"; "Long"] ->
   exists lo hi,
     PostGenerator.get_length_str length_category
     = pretty lo +:+ " to " +:+ pretty hi +:+ " lines"
     /\ forall meta,
          FewShot.length_matches length_category meta = true
          <-> lo <= default 0 (FewShot.line_count meta) <= hi)
  /\ (~ In length_category ["Short"; "Medium"; "Long"] ->
      PostGenerator.get_length_str length_category = "5 to 10 lines"
      /\ forall meta, FewShot.length_matches length_category meta = false).
Proof.
  split.
  - intros [<- | [<- | [<- | []]]];
      [exists 1, 5 | exists 6, 10 | exists 11, 15];
      (split; [vm_compute; reflexivity |]); intros meta;
      unfold FewShot.length_matches; simpl (String.eqb _ _); cbn [andb];
      generalize (default 0 (FewShot.line_count meta)); intros n;
      destruct (Z.leb_spec 1 n), (Z.leb_spec n 5), (Z.leb_spec 6 n),
        (Z.leb_spec n 10), (Z.leb_spec 11 n), (Z.leb_spec n 15);
      cbn [andb]; split; intros H'; try discriminate; try reflexivity; lia.
  - intros Hn.
    assert (H1 : length_category <> "Short") by (intros ->; apply Hn; now left).
    assert (H2 : length_category <> "Medium")
      by (intros ->; apply Hn; right; now left).
    assert (H3 : length_category <> "Long")
      by (intros ->; apply Hn; right; right; now left).
    apply String.eqb_neq in H1, H2, H3.
    unfold PostGenerator.get_length_str, FewShot.length_matches.
    rewrite H1, H2, H3. now split.
Qed.

Lemma prompt_range_is_selector_range_witness :
  exists lo hi,
    PostGenerator.get_length_str "Medium"
    = pretty lo +:+ " to " +:+ pretty hi +:+ " lines"
    /\ forall meta,
         FewShot.length_matches "Medium" meta = true
         <-> lo <= default 0 (FewShot.line_count meta) <= hi.
Proof.
  apply (proj1 (prompt_range_is_selector_range "Medium")).
  right. now left.
Defined.

(* ================================================================== *)
(** * Properties of the enrichment loop *)
(* ================================================================== *)

Section EnrichRun.
Import Preprocessing Enriched.
Variable set_iter : list string -> list string.
Variable mapping : gmap string string.

Lemma enriched_metadata_other (text : string) (topic : option string)
    (hashtags : list string) (md : gmap string value) (k : string) :
  k ∉ written_keys ->
  Raw.enriched_metadata set_iter mapping text topic hashtags md !! k = md !! k.
Proof.
  unfold written_keys. rewrite !not_elem_of_cons. intros (H1 & H2 & H3 & _).
  unfold Raw.enriched_metadata. now rewrite !lookup_insert_ne by congruence.
Qed.


(** The statements that fill [current_post], with the engagement entry
    and the bounds of the store they reach. *)
Lemma fill_post_run_full (h : store) (cur m : loc) (dc md : gmap string value)
    (text : string) (topic : option string) (hashtags : list string) :
  objects h !! cur = Some dc ->
  dc !! "text" = Some (VStr text) ->
  dc !! "metadata" = Some (VDict m) ->
  objects h !! m = Some md ->
  cur <> m ->
  Raw.store_ok h ->
  Raw.tags_of md = Some (topic, hashtags) ->
  exists h' dc',
    fill_post set_iter mapping cur h = (Ok tt, h')
    /\ Raw.store_ok h'
    /\ (next_loc h <= next_loc h')%positive
    /\ objects h' !! m
       = Some (Raw.enriched_metadata set_iter mapping text topic hashtags md)
    /\ objects h' !! cur = Some dc'
    /\ (forall k, k <> "engagement" -> dc' !! k = dc !! k)
    /\ (forall v, dc !! "engagement" = Some v -> dc' !! "engagement" = Some v)
    /\ (dc !! "engagement" = None ->
        dc' !! "engagement" = Some (VDict (next_loc h))
        /\ objects h' !! next_loc h = Some zero_engagement)
    /\ (forall l', is_Some (objects h !! l') -> l' <> m -> l' <> cur ->
                   objects h' !! l' = objects h !! l').
Proof.
  intros Hcur Htext Hmeta Hm Hne Hok Htags.
  assert (Hcl : (cur < next_loc h)%positive) by (apply Hok; eauto).
  assert (Hml : (m < next_loc h)%positive) by (apply Hok; eauto).
  destruct h as [n objs]. cbn [next_loc objects] in *.
  unfold fill_post.
  erewrite run_bind by (eapply run_get_str; eassumption).
  erewrite run_bind by (eapply run_get_dict; eassumption).
  erewrite run_bind by (eapply run_setitem; eassumption).
  cbn [next_loc objects].
  erewrite run_bind
    by (eapply run_get_dict;
        [cbn [objects]; rewrite lookup_insert_ne by congruence; eassumption
        | eassumption]).
  erewrite run_bind by (eapply run_setitem; cbn [objects]; apply lookup_insert_eq).
  cbn [next_loc objects].
  erewrite run_bind
    by (eapply run_get_dict;
        [cbn [objects]; rewrite !lookup_insert_ne by congruence; eassumption
        | eassumption]).
  erewrite run_collect with (topic := topic) (hashtags := hashtags).
  2: { cbn [objects]. apply lookup_insert_eq. }
  2: { unfold Raw.tags_of, Raw.topic_of, Raw.hashtags_of in *.
       rewrite !lookup_insert_ne by discriminate. exact Htags. }
  erewrite run_bind by (eapply run_setitem; cbn [objects]; apply lookup_insert_eq).
  cbn [next_loc objects].
  rewrite dict_fromkeys_first_seen.
  erewrite run_bind
    by (eapply run_has_key; cbn [objects];
        rewrite !lookup_insert_ne by congruence; eassumption).
  fold (Spec.project mapping).
  fold (Spec.unified_tags_visiting set_iter mapping topic hashtags).
  fold (Raw.enriched_metadata set_iter mapping text topic hashtags md).
  set (md' := Raw.enriched_metadata set_iter mapping text topic hashtags md).
  destruct (dc !! "engagement") as [v|] eqn:He.
  - rewrite bool_decide_true by eauto. cbn [negb].
    eexists _, dc. split; [reflexivity |]. cbn [next_loc objects].
    split.
    { intros l' Hl'. cbn [next_loc objects] in *.
      destruct (decide (l' = m)) as [-> | Hl'm]; [exact Hml |].
      rewrite !lookup_insert_ne in Hl' by congruence. now apply Hok. }
    split; [lia |].
    split; [apply lookup_insert_eq |].
    split; [rewrite !lookup_insert_ne by congruence; exact Hcur |].
    split; [reflexivity |].
    split; [intros v' [= <-]; exact He |].
    split; [discriminate |].
    intros l' _ Hl'm _. now rewrite !lookup_insert_ne by congruence.
  - rewrite bool_decide_false by (intros [? [=]]). cbn [negb].
    erewrite run_bind by reflexivity. cbn [next_loc objects].
    erewrite run_setitem
      by (cbn [objects]; rewrite !lookup_insert_ne by (congruence || lia);
          eassumption).
    eexists _, _. split; [reflexivity |]. cbn [next_loc objects].
    split.
    { intros l' Hl'. cbn [next_loc objects] in *.
      destruct (decide (l' = cur)) as [-> | Hl'c]; [lia |].
      destruct (decide (l' = n)) as [-> | Hl'n]; [lia |].
      destruct (decide (l' = m)) as [-> | Hl'm]; [lia |].
      rewrite !lookup_insert_ne in Hl' by congruence.
      apply Hok in Hl'. cbn [next_loc] in Hl'. lia. }
    split; [lia |].
    split; [rewrite !lookup_insert_ne by (congruence || lia); apply lookup_insert_eq |].
    split; [apply lookup_insert_eq |].
    split; [intros k Hk; now rewrite lookup_insert_ne by congruence |].
    split; [discriminate |].
    split.
    { intros _. split; [apply lookup_insert_eq |].
      rewrite lookup_insert_ne by lia. apply lookup_insert_eq. }
    intros l' Hl' Hl'm Hl'c. apply Hok in Hl'. cbn [next_loc] in Hl'.
    now rewrite !lookup_insert_ne by (congruence || lia).
Qed.

(** The body of the loop on a post of the corpus format: the copy, its
    metadata object, its engagement entry, and what is left as it was. *)
Lemma enrich_post_run_full (h : store) (l : loc) (d : gmap string value)
    (text : string) (topic : option string) (hashtags : list string) :
  Raw.store_ok h ->
  objects h !! l = Some d ->
  d !! "text" = Some (VStr text) ->
  Raw.raw_tags h d = Some (topic, hashtags) ->
  exists h' dc' m md,
    enrich_post set_iter mapping (VDict l) h = (Ok (VDict (next_loc h)), h')
    /\ Raw.store_ok h'
    /\ (next_loc h < next_loc h')%positive
    /\ objects h' !! next_loc h = Some dc'
    /\ dc' !! "metadata" = Some (VDict m)
    /\ (d !! "metadata" = Some (VDict m) /\ objects h !! m = Some md
        \/ d !! "metadata" = None /\ objects h !! m = None /\ md = ∅)
    /\ objects h' !! m
       = Some (Raw.enriched_metadata set_iter mapping text topic hashtags md)
    /\ (forall k, k <> "metadata" -> k <> "engagement" -> dc' !! k = d !! k)
    /\ (forall v, d !! "engagement" = Some v -> dc' !! "engagement" = Some v)
    /\ (d !! "engagement" = None ->
        exists e, dc' !! "engagement" = Some (VDict e)
                  /\ objects h !! e = None
                  /\ objects h' !! e = Some zero_engagement)
    /\ (forall l', is_Some (objects h !! l') -> l' <> m ->
                   objects h' !! l' = objects h !! l').
Proof.
  intros Hok Hl Htext Hraw.
  assert (Hfresh : forall l', (next_loc h <= l')%positive -> objects h !! l' = None).
  { intros l' Hl'. apply eq_None_not_Some. intros Hs. apply Hok in Hs. lia. }
  unfold Raw.raw_tags in Hraw.
  unfold enrich_post. cbn [as_dict].
  erewrite run_bind by reflexivity.
  erewrite run_bind by (apply run_items; eassumption).
  erewrite run_bind by reflexivity.
  erewrite run_bind by (eapply run_has_key; cbn [objects]; apply lookup_insert_eq).
  destruct (d !! "metadata") as [vm|] eqn:Hmeta.
  - destruct vm as [| | | | | | m]; try discriminate.
    destruct (objects h !! m) as [md|] eqn:Hm; [| discriminate].
    cbn in Hraw.
    assert (Hml : (m < next_loc h)%positive) by (apply Hok; eauto).
    rewrite bool_decide_true by eauto. cbn [negb].
    erewrite run_bind by reflexivity.
    destruct (fill_post_run_full
                {| next_loc := Pos.succ (next_loc h);
                   objects := <[next_loc h := d]> (objects h) |}
                (next_loc h) m d md text topic hashtags)
      as (h' & dc' & Hrun & Hok' & Hnext & Hmd & Hdc' & Hkeep & Heng & Hnew & Hframe);
      cbn [next_loc objects] in *.
    1: apply lookup_insert_eq.
    1-2: assumption.
    1: rewrite lookup_insert_ne by lia; assumption.
    1: lia.
    1: { intros l' Hl'. cbn [next_loc objects] in *.
         destruct (decide (l' = next_loc h)) as [-> | Hne]; [lia |].
         rewrite lookup_insert_ne in Hl' by congruence. apply Hok in Hl'. lia. }
    1: assumption.
    exists h', dc', m, md. rewrite (run_bind _ _ _ _ _ Hrun).
    split; [reflexivity |]. split; [exact Hok' |]. split; [lia |].
    split; [exact Hdc' |].
    split; [now rewrite Hkeep by discriminate |].
    split; [now left |]. split; [exact Hmd |].
    split; [intros k _ Hk; now apply Hkeep |].
    split; [exact Heng |].
    split.
    { intros He. destruct (Hnew He) as [H1 H2].
      exists (Pos.succ (next_loc h)). split; [exact H1 |].
      split; [apply Hfresh; lia | exact H2]. }
    intros l' Hl' Hne. pose proof (Hok l' Hl') as Hlt.
    rewrite Hframe; [apply lookup_insert_ne; lia | | exact Hne | lia].
    rewrite lookup_insert_ne by lia. exact Hl'.
  - injection Hraw as <- <-.
    rewrite bool_decide_false by (intros [? [=]]). cbn [negb].
    erewrite run_bind
      by (erewrite run_bind by reflexivity;
          eapply run_setitem; cbn [next_loc objects];
          rewrite lookup_insert_ne by lia; apply lookup_insert_eq).
    cbn [next_loc objects].
    destruct (fill_post_run_full
                {| next_loc := Pos.succ (Pos.succ (next_loc h));
                   objects :=
                     <[next_loc h := <["metadata" := VDict (Pos.succ (next_loc h))]> d]>
                       (<[Pos.succ (next_loc h) := ∅]>
                          (<[next_loc h := d]> (objects h))) |}
                (next_loc h) (Pos.succ (next_loc h))
                (<["metadata" := VDict (Pos.succ (next_loc h))]> d) ∅ text None [])
      as (h' & dc' & Hrun & Hok' & Hnext & Hmd & Hdc' & Hkeep & Heng & Hnew & Hframe);
      cbn [next_loc objects] in *.
    1: apply lookup_insert_eq.
    1: rewrite lookup_insert_ne by discriminate; assumption.
    1: apply lookup_insert_eq.
    1: rewrite lookup_insert_ne by lia; apply lookup_insert_eq.
    1: lia.
    1: { intros l' Hl'. cbn [next_loc objects] in *.
         destruct (decide (l' = next_loc h)) as [-> | Hne]; [lia |].
         destruct (decide (l' = Pos.succ (next_loc h))) as [-> | Hne']; [lia |].
         rewrite !lookup_insert_ne in Hl' by congruence. apply Hok in Hl'. lia. }
    1: reflexivity.
    exists h', dc', (Pos.succ (next_loc h)), ∅. rewrite (run_bind _ _ _ _ _ Hrun).
    split; [reflexivity |]. split; [exact Hok' |]. split; [lia |].
    split; [exact Hdc' |].
    split; [rewrite Hkeep by discriminate; apply lookup_insert_eq |].
    split; [right; split; [reflexivity |]; split; [apply Hfresh; lia | reflexivity] |].
    split; [exact Hmd |].
    split; [intros k Hk1 Hk2; rewrite Hkeep by exact Hk2;
            now apply lookup_insert_ne |].
    split.
    { intros v Hv. apply Heng. now rewrite lookup_insert_ne by discriminate. }
    split.
    { intros He. destruct Hnew as [H1 H2].
      { now rewrite lookup_insert_ne by discriminate. }
      exists (Pos.succ (Pos.succ (next_loc h))). split; [exact H1 |].
      split; [apply Hfresh; lia | exact H2]. }
    intros l' Hl' Hne. pose proof (Hok l' Hl') as Hlt.
    rewrite Hframe; [now rewrite !lookup_insert_ne by lia | | exact Hne | lia].
    rewrite !lookup_insert_ne by lia. exact Hl'.
Qed.












End EnrichRun.

Lemma raw_store_ok : Raw.store_ok Samples.raw_store.
Proof.
  intros l' [d' Hl']. unfold Samples.raw_store in *.
  cbn [Preprocessing.objects Preprocessing.next_loc] in *.
  destruct (decide (l' = 1%positive)) as [-> | H1]; [reflexivity |].
  destruct (decide (l' = 2%positive)) as [-> | H2]; [reflexivity |].
  rewrite !lookup_insert_ne, lookup_empty in Hl' by congruence. discriminate.
Qed.

Lemma raw_posts_well_formed :
  Forall (Enriched.well_formed Samples.raw_store) Samples.raw_posts.
Proof.
  repeat constructor.
  exists 1%positive, (<["text" := Preprocessing.VStr "Hello"]>
                        (<["metadata" := Preprocessing.VDict 2%positive]> ∅)), "Hello".
  split; [reflexivity |]. split; [vm_compute; reflexivity |].
  split; [vm_compute; reflexivity |].
  exists (Some "Startup", ["#AI"]). vm_compute. reflexivity.
Qed.

Section EnrichTags.
Import Preprocessing.

Lemma filter_all {A} (P : A -> Prop) `{forall x, Decision (P x)} (l : list A) :
  Forall P l -> filter P l = l.
Proof.
  induction 1 as [|x r Hx Hr IH]; [reflexivity |].
  rewrite filter_cons_True by exact Hx. now rewrite IH.
Qed.

Lemma first_seen_NoDup_id (l : list string) : NoDup l -> Spec.first_seen l = l.
Proof.
  induction 1 as [|x r Hx Hr IH]; [reflexivity |].
  cbn [Spec.first_seen]. rewrite IH. f_equal. apply filter_all.
  apply Forall_forall. intros y Hy ->. now apply Hx.
Qed.

Lemma collected_normalized (topic : option string) (hashtags : list string) :
  map Spec.normalize (Spec.collected topic hashtags)
  = option_list (normalize_topic <$> topic) ++ map normalize_hashtag hashtags.
Proof.
  unfold Spec.collected. rewrite map_app, map_map. f_equal. now destruct topic.
Qed.

Lemma string_values_fallback (tags : list string) (t : string) :
  Tags.string_values (fallback_mapping tags) !! t
  = if decide (t ∈ tags) then Some (PyStr.title t) else None.
Proof.
  unfold Tags.string_values. rewrite lookup_omap, fallback_mapping_lookup.
  now case_decide.
Qed.

Lemma fallback_projects_to_itself (tags : list string) (raw : string) :
  PyStr.is_ascii raw = true ->
  Spec.project (Tags.string_values (fallback_mapping tags)) (Spec.normalize raw)
  = Spec.normalize raw.
Proof.
  intros Hascii. unfold Spec.project. rewrite string_values_fallback.
  case_decide; [| reflexivity]. cbn. now apply normalize_title.
Qed.

Lemma collected_ascii (topic : option string) (hashtags : list string) :
  from_option PyStr.is_ascii true topic = true ->
  forallb PyStr.is_ascii hashtags = true ->
  Forall (fun raw => PyStr.is_ascii raw = true) (Spec.collected topic hashtags).
Proof.
  intros Ht Hh. unfold Spec.collected. apply Forall_app. split.
  - destruct topic as [t|]; [| constructor]. now repeat constructor.
  - apply Forall_forall. intros x Hx%list_elem_of_In%in_map_iff.
    destruct Hx as (h & <- & Hin). apply is_ascii_remove_char.
    rewrite forallb_forall in Hh. now apply Hh.
Qed.

Lemma fallback_unified_tags (set_iter : list string -> list string)
    (tags : list string) (topic : option string) (hashtags : list string) :
  Spec.visits_as_a_set set_iter ->
  from_option PyStr.is_ascii true topic = true ->
  forallb PyStr.is_ascii hashtags = true ->
  Spec.unified_tags_visiting set_iter (Tags.string_values (fallback_mapping tags))
    topic hashtags
  = set_iter (option_list (normalize_topic <$> topic) ++ map normalize_hashtag hashtags).
Proof.
  intros Hset Htopic Hhashtags.
  pose proof (collected_ascii topic hashtags Htopic Hhashtags) as Hascii.
  unfold Spec.unified_tags_visiting. rewrite collected_normalized.
  set (adds := option_list (normalize_topic <$> topic) ++ map normalize_hashtag hashtags).
  destruct (Hset adds) as [Hnd Hel].
  assert (Hid : map (Spec.project (Tags.string_values (fallback_mapping tags)))
                    (set_iter adds) = set_iter adds).
  { rewrite <- (map_id (set_iter adds)) at 2. apply map_ext_in.
    intros t Ht%list_elem_of_In%Hel. subst adds. rewrite <- collected_normalized in Ht.
    apply list_elem_of_In, in_map_iff in Ht as (raw & <- & Hraw).
    apply fallback_projects_to_itself.
    rewrite Forall_forall in Hascii. now apply Hascii, list_elem_of_In. }
  rewrite Hid. now apply first_seen_NoDup_id.
Qed.


End EnrichTags.

(** The enriched copy of a post is a new object.  It has every entry of
    the post other than the metadata and the engagement; its metadata entry
    is the one of the post, the same object, when the post has one, and a
    new object otherwise; its engagement entry is the one of the post when
    the post has one, and otherwise a new object with zero likes, comments
    and shares. *)
Theorem enrich_post_keeps_fields (set_iter : list string -> list string)
    (mapping : gmap string string) (h : Preprocessing.store) (l : Preprocessing.loc)
    (d : gmap string Preprocessing.value) (text : string)
    (topic : option string) (hashtags : list string) :
  Raw.store_ok h ->
  Preprocessing.objects h !! l = Some d ->
  d !! "text" = Some (Preprocessing.VStr text) ->
  Raw.raw_tags h d = Some (topic, hashtags) ->
  exists cur h' dc',
    Preprocessing.enrich_post set_iter mapping (Preprocessing.VDict l) h
    = (Ok (Preprocessing.VDict cur), h')
    /\ Preprocessing.objects h !! cur = None
    /\ Preprocessing.objects h' !! cur = Some dc'
    /\ (forall k, k <> "metadata" -> k <> "engagement" -> dc' !! k = d !! k)
    /\ (forall v, d !! "metadata" = Some v -> dc' !! "metadata" = Some v)
    /\ (d !! "metadata" = None ->
        exists m, dc' !! "metadata" = Some (Preprocessing.VDict m)
                  /\ Preprocessing.objects h !! m = None)
    /\ (forall v, d !! "engagement" = Some v -> dc' !! "engagement" = Some v)
    /\ (d !! "engagement" = None ->
        exists e, dc' !! "engagement" = Some (Preprocessing.VDict e)
                  /\ Preprocessing.objects h !! e = None
                  /\ Preprocessing.objects h' !! e
                     = Some (<["likes" := Preprocessing.VInt 0]>
                               (<["comments" := Preprocessing.VInt 0]>
                                  (<["shares" := Preprocessing.VInt 0]> ∅)))).
Proof.
  intros Hok Hl Htext Hraw.
  destruct (enrich_post_run_full set_iter mapping h l d text topic hashtags
              Hok Hl Htext Hraw)
    as (h' & dc' & m & md & Hrun & _ & _ & Hdc' & Hmeta & Hcase & _
        & Hkeep & Heng & Hnew & _).
  exists (Preprocessing.next_loc h), h', dc'.
  split; [exact Hrun |].
  split; [apply eq_None_not_Some; intros Hs; apply Hok in Hs; lia |].
  split; [exact Hdc' |]. split; [exact Hkeep |].
  split.
  { intros v Hv. destruct Hcase as [[Hm _] | [Hm _]]; congruence. }
  split.
  { intros Hn. destruct Hcase as [[Hm _] | (_ & Hm & _)]; [congruence |].
    now exists m. }
  split; [exact Heng | exact Hnew].
Qed.

Lemma enrich_post_keeps_fields_witness :
  exists cur h' dc',
    Preprocessing.enrich_post Samples.insertion_order ∅
      (Preprocessing.VDict 1%positive) Samples.raw_store
    = (Ok (Preprocessing.VDict cur), h')
    /\ Preprocessing.objects Samples.raw_store !! cur = None
    /\ Preprocessing.objects h' !! cur = Some dc'
    /\ dc' !! "text" = Some (Preprocessing.VStr "Hello").
Proof.
  destruct (enrich_post_keeps_fields Samples.insertion_order ∅ Samples.raw_store
              1%positive
              (<["text" := Preprocessing.VStr "Hello"]>
                 (<["metadata" := Preprocessing.VDict 2%positive]> ∅))
              "Hello" (Some "Startup") ["#AI"])
    as (cur & h' & dc' & Hrun & Hfresh & Hdc' & Hkeep & _).
  - exact raw_store_ok.
  - vm_compute. reflexivity.
  - vm_compute. reflexivity.
  - vm_compute. reflexivity.
  - exists cur, h', dc'. split; [exact Hrun |]. split; [exact Hfresh |].
    split; [exact Hdc' |]. rewrite Hkeep by discriminate. vm_compute. reflexivity.
Defined.

(** The metadata of the enriched copy has the language "English",
    whatever language the post had, and as line count one more than the
    number of line feeds of the text, whatever count the post had; every
    entry of the metadata of the post other than the line count, the
    language and the unified tags is kept (a post without metadata has
    none). *)
Theorem enrich_post_rewrites_metadata (set_iter : list string -> list string)
    (mapping : gmap string string) (h : Preprocessing.store) (l : Preprocessing.loc)
    (d : gmap string Preprocessing.value) (text : string)
    (topic : option string) (hashtags : list string) :
  Raw.store_ok h ->
  Preprocessing.objects h !! l = Some d ->
  d !! "text" = Some (Preprocessing.VStr text) ->
  Raw.raw_tags h d = Some (topic, hashtags) ->
  exists cur h' dc' m md',
    Preprocessing.enrich_post set_iter mapping (Preprocessing.VDict l) h
    = (Ok (Preprocessing.VDict cur), h')
    /\ Preprocessing.objects h' !! cur = Some dc'
    /\ dc' !! "metadata" = Some (Preprocessing.VDict m)
    /\ Preprocessing.objects h' !! m = Some md'
    /\ md' !! "language" = Some (Preprocessing.VStr "English")
    /\ md' !! "line_count"
       = Some (Preprocessing.VInt (1 + PyStr.count PyStr.LF text))
    /\ (forall k, k ∉ ["line_count"; "language"; "unified_tags"] ->
                  md' !! k = Preprocessing.objects h !! m ≫= (.!! k)).
Proof.
  intros Hok Hl Htext Hraw.
  destruct (enrich_post_run_full set_iter mapping h l d text topic hashtags
              Hok Hl Htext Hraw)
    as (h' & dc' & m & md & Hrun & _ & _ & Hdc' & Hmeta & Hcase & Hmd & _).
  eexists (Preprocessing.next_loc h), h', dc', m, _.
  split; [exact Hrun |]. split; [exact Hdc' |]. split; [exact Hmeta |].
  split; [exact Hmd |].
  split; [unfold Raw.enriched_metadata;
          rewrite lookup_insert_ne by discriminate; apply lookup_insert_eq |].
  split.
  { unfold Raw.enriched_metadata. rewrite !lookup_insert_ne by discriminate.
    rewrite lookup_insert_eq, split_on_length. reflexivity. }
  intros k Hk. rewrite (enriched_metadata_other set_iter mapping) by exact Hk.
  destruct Hcase as [[_ ->] | (_ & -> & ->)]; reflexivity.
Qed.

Lemma enrich_post_rewrites_metadata_witness :
  exists cur h' dc' m md',
    Preprocessing.enrich_post Samples.insertion_order ∅
      (Preprocessing.VDict 1%positive) Samples.raw_store
    = (Ok (Preprocessing.VDict cur), h')
    /\ Preprocessing.objects h' !! cur = Some dc'
    /\ dc' !! "metadata" = Some (Preprocessing.VDict m)
    /\ Preprocessing.objects h' !! m = Some md'
    /\ md' !! "language" = Some (Preprocessing.VStr "English")
    /\ md' !! "line_count" = Some (Preprocessing.VInt (1 + PyStr.count PyStr.LF "Hello")).
Proof.
  destruct (enrich_post_rewrites_metadata Samples.insertion_order ∅ Samples.raw_store
              1%positive
              (<["text" := Preprocessing.VStr "Hello"]>
                 (<["metadata" := Preprocessing.VDict 2%positive]> ∅))
              "Hello" (Some "Startup") ["#AI"])
    as (cur & h' & dc' & m & md' & Hrun & Hdc' & Hmeta & Hmd' & Hlang & Hlc & _).
  - exact raw_store_ok.
  - vm_compute. reflexivity.
  - vm_compute. reflexivity.
  - vm_compute. reflexivity.
  - exists cur, h', dc', m, md'. repeat split; assumption.
Defined.

(** With the mapping that the resolver falls back to, whatever the tags
    it was asked about, the unified tags of a post whose topic and
    hashtags are ASCII are its normalized topic and hashtags themselves,
    each once, in the order in which the set of them is visited. *)
Theorem fallback_keeps_normalized_tags (set_iter : list string -> list string)
    (tags : list string) (h : Preprocessing.store) (l : Preprocessing.loc)
    (d : gmap string Preprocessing.value) (text : string)
    (topic : option string) (hashtags : list string) :
  Spec.visits_as_a_set set_iter ->
  Raw.store_ok h ->
  Preprocessing.objects h !! l = Some d ->
  d !! "text" = Some (Preprocessing.VStr text) ->
  Raw.raw_tags h d = Some (topic, hashtags) ->
  from_option PyStr.is_ascii true topic = true ->
  forallb PyStr.is_ascii hashtags = true ->
  exists cur h' dc' m md',
    Preprocessing.enrich_post set_iter
      (Tags.string_values (Preprocessing.fallback_mapping tags))
      (Preprocessing.VDict l) h
    = (Ok (Preprocessing.VDict cur), h')
    /\ Preprocessing.objects h' !! cur = Some dc'
    /\ dc' !! "metadata" = Some (Preprocessing.VDict m)
    /\ Preprocessing.objects h' !! m = Some md'
    /\ md' !! "unified_tags"
       = Some (Preprocessing.VList
                 (map Preprocessing.VStr
                    (set_iter
                       (option_list (Preprocessing.normalize_topic <$> topic)
                        ++ map Preprocessing.normalize_hashtag hashtags)))).
Proof.
  intros Hset Hok Hl Htext Hraw Htopic Hhashtags.
  destruct (enrich_post_run_full set_iter
              (Tags.string_values (Preprocessing.fallback_mapping tags))
              h l d text topic hashtags Hok Hl Htext Hraw)
    as (h' & dc' & m & md & Hrun & _ & _ & Hdc' & Hmeta & _ & Hmd & _).
  eexists (Preprocessing.next_loc h), h', dc', m, _.
  split; [exact Hrun |]. split; [exact Hdc' |]. split; [exact Hmeta |].
  split; [exact Hmd |].
  unfold Raw.enriched_metadata. rewrite lookup_insert_eq.
  now rewrite fallback_unified_tags.
Qed.

Lemma fallback_keeps_normalized_tags_witness :
  exists cur h' dc' m md',
    Preprocessing.enrich_post Samples.reverse_order
      (Tags.string_values (Preprocessing.fallback_mapping ["Startup"; "Ai"]))
      (Preprocessing.VDict 1%positive) Samples.raw_store
    = (Ok (Preprocessing.VDict cur), h')
    /\ Preprocessing.objects h' !! cur = Some dc'
    /\ dc' !! "metadata" = Some (Preprocessing.VDict m)
    /\ Preprocessing.objects h' !! m = Some md'
    /\ md' !! "unified_tags"
       = Some (Preprocessing.VList
                 (map Preprocessing.VStr
                    (Samples.reverse_order
                       (option_list (Preprocessing.normalize_topic <$> Some "Startup")
                        ++ map Preprocessing.normalize_hashtag ["#AI"])))).
Proof.
  apply (fallback_keeps_normalized_tags Samples.reverse_order ["Startup"; "Ai"]
           Samples.raw_store 1%positive
           (<["text" := Preprocessing.VStr "Hello"]>
              (<["metadata" := Preprocessing.VDict 2%positive]> ∅))
           "Hello" (Some "Startup") ["#AI"]).
  - exact reverse_order_visits.
  - exact raw_store_ok.
  - vm_compute. reflexivity.
  - vm_compute. reflexivity.
  - vm_compute. reflexivity.
  - reflexivity.
  - reflexivity.
Defined.





(* ================================================================== *)
(** * Properties of the collection of the tags *)
(* ================================================================== *)

Section CollectFacts.
Import Preprocessing Enriched.

(** The tags that the first loop adds for one post. *)
Lemma collect_post_run (h : store) (l : loc) (d : gmap string value)
    (topic : option string) (hashtags : list string) (adds : list string) :
  objects h !! l = Some d ->
  Raw.raw_tags h d = Some (topic, hashtags) ->
  collect_post (VDict l) adds h
  = (Ok (adds ++ option_list (normalize_topic <$> topic)
              ++ map normalize_hashtag hashtags), h).
Proof.
  intros Hl Hraw. unfold collect_post. cbn [as_dict].
  erewrite run_bind by reflexivity.
  erewrite run_bind by (eapply run_has_key; eassumption).
  unfold Raw.raw_tags in Hraw.
  destruct (d !! "metadata") as [vm|] eqn:Hmeta.
  - destruct vm as [| | | | | | m]; try discriminate.
    destruct (objects h !! m) as [md|] eqn:Hm; [| discriminate]. cbn in Hraw.
    rewrite bool_decide_true by eauto.
    erewrite run_bind
      by (erewrite run_bind by (eapply run_get_dict; eassumption);
          eapply run_has_key; eassumption).
    unfold Raw.tags_of in Hraw.
    destruct (Raw.topic_of md) as [topic'|] eqn:Htopic; [| discriminate].
    destruct (Raw.hashtags_of md) as [hs|] eqn:Hhs; [| discriminate].
    cbn in Hraw. injection Hraw as <- <-.
    assert (Hhash : forall adds',
      (has_metadata ← has_key l "metadata";
       has_hashtags ← (if has_metadata : bool
                       then metadata ← getitem l "metadata" ≫= as_dict;
                            has_key metadata "hashtags"
                       else mret false);
       if has_hashtags : bool
       then metadata ← getitem l "metadata" ≫= as_dict;
            hashtags ← getitem metadata "hashtags" ≫= as_list;
            add_hashtags hashtags adds'
       else mret adds') h
      = (Ok (adds' ++ map normalize_hashtag hs), h)).
    { intros adds'.
      erewrite run_bind by (eapply run_has_key; eassumption).
      rewrite Hmeta, bool_decide_true by eauto.
      erewrite run_bind
        by (erewrite run_bind by (eapply run_get_dict; eassumption);
            eapply run_has_key; eassumption).
      unfold Raw.hashtags_of in Hhs.
      destruct (md !! "hashtags") as [vh|] eqn:Hh.
      - rewrite bool_decide_true by eauto.
        destruct vh as [| | | | | vs |]; try discriminate.
        erewrite run_bind by (eapply run_get_dict; eassumption).
        erewrite run_bind by (eapply run_get_list; eassumption).
        now apply run_add_hashtags.
      - injection Hhs as <-. rewrite bool_decide_false by (intros [? [=]]). cbn.
        now rewrite app_nil_r. }
    unfold Raw.topic_of in Htopic.
    destruct (md !! "topic") as [vt|] eqn:Ht.
    + destruct vt as [| | | | s | |]; try discriminate. injection Htopic as <-.
      rewrite bool_decide_true by eauto.
      erewrite run_bind
        by (erewrite run_bind by (eapply run_get_dict; eassumption);
            erewrite run_bind by (eapply run_get_str; eassumption);
            reflexivity).
      rewrite Hhash. cbn. now rewrite <- app_assoc.
    + injection Htopic as <-. rewrite bool_decide_false by (intros [? [=]]).
      erewrite run_bind by reflexivity.
      rewrite Hhash. reflexivity.
  - injection Hraw as <- <-.
    rewrite bool_decide_false by (intros [? [=]]).
    erewrite run_bind by reflexivity.
    erewrite run_bind by reflexivity.
    erewrite run_bind by (eapply run_has_key; eassumption).
    rewrite Hmeta, bool_decide_false by (intros [? [=]]).
    erewrite run_bind by reflexivity. cbn. now rewrite app_nil_r.
Qed.

Lemma collect_loop_run (h : store) (posts : list value) (adds : list string) :
  Forall (well_formed h) posts ->
  exists adds',
    collect_loop posts adds h = (Ok adds', h)
    /\ forall x,
         x ∈ adds'
         <-> x ∈ adds
             \/ exists l d topic hashtags,
                  VDict l ∈ posts /\ objects h !! l = Some d
                  /\ Raw.raw_tags h d = Some (topic, hashtags)
                  /\ x ∈ option_list (normalize_topic <$> topic)
                         ++ map normalize_hashtag hashtags.
Proof.
  revert adds. induction posts as [|post rest IH]; intros adds Hwf.
  - exists adds. split; [reflexivity |]. intros x. split; [now left |].
    intros [H | (l & ? & ? & ? & H & _)]; [exact H | inversion H].
  - apply Forall_cons in Hwf as [(l & d & text & -> & Hl & _ & [[topic hashtags] Hraw]) Hrest].
    destruct (IH (adds ++ option_list (normalize_topic <$> topic)
                       ++ map normalize_hashtag hashtags) Hrest)
      as (adds' & Hrun & Hel).
    exists adds'. cbn [collect_loop].
    rewrite (run_bind _ _ _ _ _ (collect_post_run h l d topic hashtags adds Hl Hraw)).
    split; [exact Hrun |].
    intros x. rewrite Hel, elem_of_app. split.
    + intros [[H | H] | (l' & d' & t' & hs' & Hin & H)].
      * now left.
      * right. exists l, d, topic, hashtags. split; [now left | now repeat split].
      * right. exists l', d', t', hs'. split; [now right | exact H].
    + intros [H | (l' & d' & t' & hs' & Hin & Hl' & Hraw' & Hx)]; [tauto |].
      apply elem_of_cons in Hin as [[= ->] | Hin].
      * rewrite Hl in Hl'. injection Hl' as <-. rewrite Hraw in Hraw'.
        injection Hraw' as <- <-. tauto.
      * right. now exists l', d', t', hs'.
Qed.

(** The sorted list of the distinct tags depends on the set of the tags
    only. *)
Lemma sorted_set_same (l l' : list string) :
  (forall x, x ∈ l <-> x ∈ l') -> sorted_set l = sorted_set l'.
Proof.
  intros Hsame. unfold sorted_set.
  assert (Hanti : AntiSymm eq Tags.string_le)
    by (intros x y; apply String.leb_antisym).
  apply (StronglySorted_unique Tags.string_le); try apply sorted_sorted.
  rewrite !sorted_perm. apply NoDup_Permutation; try apply NoDup_remove_dups.
  intros x. now rewrite !elem_of_remove_dups.
Qed.

Lemma fallback_mapping_same (l l' : list string) :
  (forall x, x ∈ l <-> x ∈ l') -> fallback_mapping l = fallback_mapping l'.
Proof.
  intros Hsame. apply map_eq. intros t. rewrite !fallback_mapping_lookup.
  destruct (decide (t ∈ l)) as [Hin | Hnin].
  - now rewrite decide_True by (now apply Hsame).
  - now rewrite decide_False by (now rewrite <- Hsame).
Qed.

End CollectFacts.

(** On a corpus of the format the first loop does not raise and leaves
    the corpus as it is, and the tags it collects are the categories of the
    dataset and the normalized topic and hashtags of every post, nothing
    else: each tag that the enrichment of a post looks up in the mapping
    is among the tags that the resolver was asked about. *)
Theorem collect_tags_covers_posts (categories : list string)
    (posts : list Preprocessing.value) (h : Preprocessing.store) :
  Forall (Enriched.well_formed h) posts ->
  exists adds,
    Preprocessing.collect_tags categories posts h = (Ok adds, h)
    /\ forall x,
         x ∈ adds
         <-> x ∈ categories
             \/ exists l d topic hashtags,
                  Preprocessing.VDict l ∈ posts
                  /\ Preprocessing.objects h !! l = Some d
                  /\ Raw.raw_tags h d = Some (topic, hashtags)
                  /\ x ∈ option_list (Preprocessing.normalize_topic <$> topic)
                         ++ map Preprocessing.normalize_hashtag hashtags.
Proof. intros Hwf. now apply collect_loop_run. Qed.

Lemma collect_tags_covers_posts_witness :
  exists adds,
    Preprocessing.collect_tags ["Career"] Samples.raw_posts Samples.raw_store
    = (Ok adds, Samples.raw_store)
    /\ forall x,
         x ∈ adds
         <-> x ∈ ["Career"]
             \/ exists l d topic hashtags,
                  Preprocessing.VDict l ∈ Samples.raw_posts
                  /\ Preprocessing.objects Samples.raw_store !! l = Some d
                  /\ Raw.raw_tags Samples.raw_store d = Some (topic, hashtags)
                  /\ x ∈ option_list (Preprocessing.normalize_topic <$> topic)
                         ++ map Preprocessing.normalize_hashtag hashtags.
Proof.
  apply (collect_tags_covers_posts ["Career"] Samples.raw_posts Samples.raw_store).
  exact raw_posts_well_formed.
Defined.

(** The answer of the resolver depends on the set of the tags it is
    given, not on their order or their repetitions: two lists with the same
    elements get the same request to the collaborator and, if it fails, the
    same fallback mapping. *)
Theorem resolver_depends_on_the_set (env : Preprocessing.Collaborator)
    (tags tags' : list string) :
  (forall x, x ∈ tags <-> x ∈ tags') ->
  Preprocessing.get_unified_tags env tags = Preprocessing.get_unified_tags env tags'.
Proof.
  intros Hsame. unfold Preprocessing.get_unified_tags.
  now rewrite (sorted_set_same tags tags' Hsame),
    (fallback_mapping_same tags tags' Hsame).
Qed.

Lemma resolver_depends_on_the_set_witness :
  Preprocessing.get_unified_tags Samples.env_unreachable ["Startup"; "Ai"; "Startup"]
  = Preprocessing.get_unified_tags Samples.env_unreachable ["Ai"; "Startup"].
Proof.
  apply (resolver_depends_on_the_set Samples.env_unreachable
           ["Startup"; "Ai"; "Startup"] ["Ai"; "Startup"]).
  intros x. rewrite !elem_of_cons, elem_of_nil. tauto.
Defined.
